(** * KnowMe mental-health analyzer: a shallow embedding and its properties

    The development follows the Python sources of [submissions/KnowMe]:
    [models.py], [data_processor.py], [openai_service.py] and [main.py].

    Modelling conventions.
    - A finite Python [float] is the rational number it denotes ([Q]).
      The float operations the sources write out round their result to
      binary64 ([F64]); the infinities are left out.
    - The means are computed inside pandas, whose order of summation is
      its own: they are operations of the interface [Pandas], and their
      results, which may be [NaN], have type [pyfloat].
    - Python [int] values are [Z].
    - Text is a [string] of ASCII characters.  Code points above 127 are
      outside the model: the Unicode tables behind [\w], [\s],
      [str.lower] and [str.split] are not part of it, and what is proved
      about letters, digits and whitespace is proved for ASCII text.
    - A [DataFrame] is the list of its rows, in index order; it has all
      its columns, also when it has no rows.
    - A timestamp is the reading of its own clock, in nanoseconds since
      1970-01-01T00:00:00 on that clock; the timestamps of a batch are
      naive or carry one common UTC offset.
    - Exceptions are values of [exn]; a call that may raise returns a
      [result]. *)

From Stdlib Require Import ZArith NArith QArith Qround Qabs Qpower Lia Bool Ascii.
From Stdlib Require Import Sorting.Permutation Sorting.Sorted Lqa.
From stdpp Require Import gmap strings sorting pretty.

Local Open Scope Z_scope.

(* ================================================================== *)
(** * Part I: definitions                                              *)
(* ================================================================== *)

(** ** Python built-ins used by the sources *)

Module Py.

(** Code point of a character. *)
Definition ord (c : ascii) : N := N_of_ascii c.

(** [str.isspace] on ASCII: TAB, LF, VT, FF, CR, FS, GS, RS, US, SPACE.
    The same set is what [\s] matches and what [str.split()] splits on. *)
Definition isspace (c : ascii) : bool :=
  let n := ord c in
  ((9 <=? n) && (n <=? 13) || (28 <=? n) && (n <=? 32))%N.

(** [str.isupper], [str.isalnum] and [str.lower] on ASCII. *)
Definition isupper (c : ascii) : bool :=
  let n := ord c in ((65 <=? n) && (n <=? 90))%N.

Definition isalnum (c : ascii) : bool :=
  let n := ord c in
  ((48 <=? n) && (n <=? 57) || (65 <=? n) && (n <=? 90)
   || (97 <=? n) && (n <=? 122))%N.

(** The regular-expression class [\w] on ASCII: alphanumeric or
    underscore. *)
Definition isword (c : ascii) : bool :=
  isalnum c || (ord c =? 95)%N.

Definition lower_char (c : ascii) : ascii :=
  if isupper c then ascii_of_N (ord c + 32) else c.

Fixpoint smap (f : ascii -> ascii) (s : string) : string :=
  match s with
  | EmptyString => EmptyString
  | String c s' => String (f c) (smap f s')
  end.

Fixpoint sall (p : ascii -> bool) (s : string) : bool :=
  match s with
  | EmptyString => true
  | String c s' => p c && sall p s'
  end.

(** [str.lower()] *)
Definition lower (s : string) : string := smap lower_char s.

(** [str.isascii()] *)
Definition isascii (s : string) : bool := sall (fun c => (ord c <? 128)%N) s.

(** [re.sub(r'[^\w\s]', ' ', s)] *)
Definition sub_char (c : ascii) : ascii :=
  if isword c || isspace c then c else " "%char.
Definition re_sub_nonword (s : string) : string := smap sub_char s.

(** Maximal runs of characters satisfying [p]; [cur] is the run being
    read. *)
Fixpoint runs_go (p : ascii -> bool) (cur s : string) : list string :=
  match s with
  | EmptyString => if decide (cur = "") then [] else [cur]
  | String c s' =>
      if p c then runs_go p (cur +:+ String c "") s'
      else (if decide (cur = "") then [] else [cur]) ++ runs_go p "" s'
  end.
Definition runs (p : ascii -> bool) (s : string) : list string :=
  runs_go p "" s.

(** [str.split()] without arguments: the maximal runs of non-whitespace
    characters; never yields an empty string. *)
Definition split (s : string) : list string :=
  runs (fun c => negb (isspace c)) s.

(** [k in s] for strings: [k] occurs in [s] as a contiguous substring. *)
Fixpoint startswith (k s : string) : bool :=
  match k, s with
  | EmptyString, _ => true
  | String a k', String b s' => if decide (a = b) then startswith k' s' else false
  | String _ _, EmptyString => false
  end.
Fixpoint contains (k s : string) : bool :=
  startswith k s ||
  match s with
  | EmptyString => false
  | String _ s' => contains k s'
  end.

(** [str.strip()] *)
Fixpoint lstrip (s : string) : string :=
  match s with
  | String c s' => if isspace c then lstrip s' else s
  | EmptyString => EmptyString
  end.
Definition strip (s : string) : string :=
  String.rev (lstrip (String.rev (lstrip s))).

(** [sorted] / [sort_values]: a stable insertion sort.  [before y x] says
    that [y] must come strictly before [x]; an element never overtakes one
    it ties with, so equal keys keep their original order. *)
Fixpoint insert_by {A} (before : A -> A -> bool) (x : A) (l : list A) : list A :=
  match l with
  | [] => [x]
  | y :: l' => if before y x then y :: insert_by before x l' else x :: l
  end.
Definition stable_sort {A} (before : A -> A -> bool) (l : list A) : list A :=
  foldr (insert_by before) [] l.

(** [sorted(l, key=key, reverse=True)] for integer keys. *)
Definition sorted_reverse {A} (key : A -> nat) (l : list A) : list A :=
  stable_sort (fun y x => (key x <? key y)%nat) l.

(** A [float] that may be [NaN]. *)
Inductive pyfloat := Fin (q : Q) | NaN.

(** [x >= c]; every comparison with [NaN] is false. *)
Definition float_ge (x : pyfloat) (c : Q) : bool :=
  match x with
  | Fin q => Qle_bool c q
  | NaN => false
  end.

(** Nearest integer, ties to the even one. *)
Definition round_half_even (q : Q) : Z :=
  let f := Qfloor q in
  match Qcompare (q - inject_Z f) (1 # 2) with
  | Lt => f
  | Gt => f + 1
  | Eq => if Z.even f then f else f + 1
  end.

(** [round(q, 1)] *)
Definition round1 (q : Q) : Q := inject_Z (round_half_even (q * 10)) / 10.
Definition round1f (x : pyfloat) : pyfloat :=
  match x with
  | Fin q => Fin (round1 q)
  | NaN => NaN
  end.

(** Binary64 arithmetic on the rationals that finite floats denote: the
    exact result of an operation, rounded to the nearest float, ties to
    the even one.  Results beyond the largest finite float are not
    dealt with. *)
Module F64.
Local Open Scope Q_scope.

(** The integer part of the binary logarithm of a positive rational. *)
Definition ilog2 (q : Q) : Z :=
  let k := (Z.log2 (Qnum q) - Z.log2 (Zpos (Qden q)))%Z in
  if Qle_bool (2 ^ k) q then k else (k - 1)%Z.

(** The exponent of the unit in the last place of the floats around [q]:
    53 significant bits, and no exponent below that of the subnormal
    numbers. *)
Definition ulp_exp (q : Q) : Z := Z.max (ilog2 (Qabs q) - 52) (-1074).

(** The float nearest to [q], as a reduced fraction. *)
Definition rnd (q : Q) : Q :=
  let x := Qred q in
  let e := ulp_exp x in
  Qred (inject_Z (round_half_even (x / 2 ^ e)) * 2 ^ e).

Definition add (x y : Q) : Q := rnd (x + y).
Definition mul (x y : Q) : Q := rnd (x * y).
Definition div (x y : Q) : Q := rnd (x / y).

(** The rational is a float, written as a reduced fraction. *)
Definition is_double (q : Q) : Prop := rnd q = q.

End F64.

(** pandas' [Series.sum] of an integer column. *)
Definition Zsum (col : list Z) : Z := fold_left Z.add col 0.

(** The two means the program asks pandas for, each taking the values of
    a float64 column in index order: [Series.mean()], and the mean of
    one group of [df.groupby(...).agg({...: 'mean'})].  They are library
    code: how pandas adds the values up (in sequence, pairwise or with a
    compensated sum) is not fixed by the sources. *)
Class Pandas := {
  Series_mean : list Q -> pyfloat;
  groupby_mean : list Q -> pyfloat
}.

(** [collections.Counter(words)] *)
Definition Counter (words : list string) : gmap string nat :=
  foldl (fun m w => <[w := S (default 0%nat (m !! w))]> m) ∅ words.

(** Exceptions the program can meet. *)
Inductive exn :=
| HTTPException (status_code : Z) (detail : string)
| ZeroDivisionError
| KeyError (key : string)
| AttributeError (msg : string)
| JSONDecodeError
| ValidationError
| APIError (msg : string).

Inductive result (A : Type) :=
| Ok (a : A)
| Raise (e : exn).
Arguments Ok {A} a.
Arguments Raise {A} e.

Definition bind {A B} (x : result A) (f : A -> result B) : result B :=
  match x with
  | Ok a => f a
  | Raise e => Raise e
  end.

(** A list comprehension whose element expression may raise: the first
    exception aborts it. *)
Fixpoint traverse {A B} (f : A -> result B) (l : list A) : result (list B) :=
  match l with
  | [] => Ok []
  | x :: l' =>
      bind (f x) (fun y => bind (traverse f l') (fun ys => Ok (y :: ys)))
  end.

(** [str(n)] for a non-negative integer, zero-padded to [width] digits. *)
Fixpoint digits (fuel : nat) (n : Z) (acc : string) : string :=
  match fuel with
  | O => acc
  | S fuel' =>
      digits fuel' (n / 10) (String (ascii_of_N (48 + Z.to_N (n mod 10))) acc)
  end.
Definition zfill (width : nat) (n : Z) : string := digits width n "".

(** [str(d)] for a [datetime.date] given as days since 1970-01-01
    (proleptic Gregorian calendar, years 0001 to 9999). *)
Definition civil_from_days (days : Z) : Z * Z * Z :=
  let z := days + 719468 in
  let era := z / 146097 in
  let doe := z - era * 146097 in
  let yoe := (doe - doe / 1460 + doe / 36524 - doe / 146096) / 365 in
  let doy := doe - (365 * yoe + yoe / 4 - yoe / 100) in
  let mp := (5 * doy + 2) / 153 in
  let d := doy - (153 * mp + 2) / 5 + 1 in
  let m := if mp <? 10 then mp + 3 else mp - 9 in
  let y := yoe + era * 400 + (if m <=? 2 then 1 else 0) in
  (y, m, d).
Definition str_date (days : Z) : string :=
  let '(y, m, d) := civil_from_days days in
  zfill 4 y +:+ "-" +:+ zfill 2 m +:+ "-" +:+ zfill 2 d.

End Py.

(** ** [models.py] *)

(** A parsed [datetime]: the reading of its clock, in nanoseconds since
    1970-01-01T00:00:00 on that clock. *)
Definition ns_per_day : Z := 86400 * 1000000000.

(** [InputDataPoint], restricted to the columns the processor reads; the
    other columns are carried along by the program and never inspected. *)
Record InputDataPoint := {
  post_id : string;
  timestamp : Z;
  caption_text : string;
  hashtags : string;
  sentiment_score : Q;
  likes_count : Z;
  comments_count : Z;
  shares_count : Z;
  engagement_score : Q;
  time_spent_on_post : Z;
  night_usage_minutes : Z;
  wellbeing_index : Q
}.

Abbreviation DataFrame := (list InputDataPoint).

(** What a [data_points] entry can be at run time: a pydantic model, which
    has a [dict] method, or the plain [dict] that method returns, which has
    none. *)
Inductive pyobj :=
| Model (fields : InputDataPoint)
| Dict (fields : InputDataPoint).

Record AnalysisRequest := {
  data_points : list pyobj
}.

Module ChartDataPoint.
Record t := {
  date : option string;
  sentiment_score : option Py.pyfloat;
  category : option string;
  percentage : option Py.pyfloat;
  likes : option Z;
  comments : option Z;
  emotional_tone : option Py.pyfloat;
  word : option string;
  frequency : option Z;
  id : option Z;
  text : option string
}.
End ChartDataPoint.

Module ChartData.
Record t := {
  chart_type : string;
  title : string;
  data : list ChartDataPoint.t;
  value : option Py.pyfloat;
  range : option (Q * Q);
  status : option string
}.
End ChartData.

Module AnalysisResponse.
Record t := {
  emotional_trend : ChartData.t;
  mental_health_categories : ChartData.t;
  engagement_vs_mood : ChartData.t;
  topics_discussed : ChartData.t;
  wellbeing_index : ChartData.t;
  recommendations : ChartData.t
}.
End AnalysisResponse.

(** ** [data_processor.py] *)

Module DataProcessor.
Import Py.

(** [self.mental_health_keywords] *)
Definition anxiety_keywords : list string :=
  ["anxiety"; "worried"; "nervous"; "panic"; "stress"; "overwhelmed"].
Definition depression_keywords : list string :=
  ["depressed"; "sad"; "down"; "hopeless"; "empty"; "worthless"].
Definition stress_keywords : list string :=
  ["stressed"; "pressure"; "deadline"; "overwhelmed"; "burnout"; "exhausted"].

(** [df.sort_values('timestamp')].  The order pandas gives to rows with
    equal timestamps depends on the sort kind; here they keep their
    order. *)
Definition sort_values (df : DataFrame) : DataFrame :=
  stable_sort (fun y x => timestamp y <? timestamp x) df.

(** *** [_calculate_daily_aggregates] *)

(** [df['timestamp'].dt.date]: the calendar date the timestamp shows,
    as days since 1970-01-01. *)
Definition date_of (row : InputDataPoint) : Z := timestamp row / ns_per_day.

(** [df.groupby('date')]: the groups in ascending key order, each holding
    its rows in frame order. *)
Fixpoint group_insert (d : Z) (row : InputDataPoint)
    (groups : list (Z * list InputDataPoint)) : list (Z * list InputDataPoint) :=
  match groups with
  | [] => [(d, [row])]
  | (d', rows) :: groups' =>
      if d <? d' then (d, [row]) :: groups
      else if d =? d' then (d', rows ++ [row]) :: groups'
      else (d', rows) :: group_insert d row groups'
  end.
Definition groupby_date (df : DataFrame) : list (Z * list InputDataPoint) :=
  fold_left (fun groups row => group_insert (date_of row) row groups) df [].

(** One record of [daily_agg.to_dict('records')]. *)
Module Daily.
Record t := {
  date : Z;
  sentiment_score : pyfloat;
  engagement_score : pyfloat;
  wellbeing_index : pyfloat;
  likes_count : Z;
  comments_count : Z;
  shares_count : Z;
  time_spent_on_post : Z;
  night_usage_minutes : Z
}.
End Daily.

Definition agg {pandas : Pandas} (group : Z * list InputDataPoint) : Daily.t :=
  let rows := snd group in
  {| Daily.date := fst group;
     Daily.sentiment_score := groupby_mean (map sentiment_score rows);
     Daily.engagement_score := groupby_mean (map engagement_score rows);
     Daily.wellbeing_index := groupby_mean (map wellbeing_index rows);
     Daily.likes_count := Zsum (map likes_count rows);
     Daily.comments_count := Zsum (map comments_count rows);
     Daily.shares_count := Zsum (map shares_count rows);
     Daily.time_spent_on_post := Zsum (map time_spent_on_post rows);
     Daily.night_usage_minutes := Zsum (map night_usage_minutes rows) |}.

(** The frame has its columns; [pd.DataFrame([])], which has none, does
    not get past [process_data]. *)
Definition _calculate_daily_aggregates {pandas : Pandas} (df : DataFrame)
    : list Daily.t :=
  map agg (groupby_date df).

(** *** [_extract_mental_health_indicators] *)

(** [combined_text] of one row. *)
Definition combined_text (row : InputDataPoint) : string :=
  lower (caption_text row) +:+ " " +:+ lower (hashtags row).

(** [any(keyword in combined_text for keyword in keywords)] *)
Definition any_keyword (keywords : list string) (text : string) : bool :=
  existsb (fun keyword => contains keyword text) keywords.

(** The [categories] dict while it holds counts. *)
Record categories := {
  Anxiety : Z;
  Stress : Z;
  Depression : Z
}.

(** One iteration of the loop over the rows. *)
Definition count_row (c : categories) (row : InputDataPoint) : categories :=
  let text := combined_text row in
  let c1 := if any_keyword anxiety_keywords text
            then {| Anxiety := Anxiety c + 1; Stress := Stress c; Depression := Depression c |}
            else c in
  let c2 := if any_keyword stress_keywords text
            then {| Anxiety := Anxiety c1; Stress := Stress c1 + 1; Depression := Depression c1 |}
            else c1 in
  if any_keyword depression_keywords text
  then {| Anxiety := Anxiety c2; Stress := Stress c2; Depression := Depression c2 + 1 |}
  else c2.

(** [(count / total_posts) * 100]: the true division of two integers
    gives the float nearest to their quotient, which is then multiplied
    by 100 in float arithmetic; division by zero raises. *)
Definition to_percentage (count total_posts : Z) : result Q :=
  if total_posts =? 0 then Raise ZeroDivisionError
  else Ok (F64.mul (F64.div (inject_Z count) (inject_Z total_posts)) 100).

(** The returned dict, as its items in insertion order. *)
Definition _extract_mental_health_indicators (df : DataFrame)
    : result (list (string * Q)) :=
  let total_posts := Z.of_nat (length df) in
  let c := fold_left count_row df {| Anxiety := 0; Stress := 0; Depression := 0 |} in
  bind (to_percentage (Anxiety c) total_posts) (fun a =>
  bind (to_percentage (Stress c) total_posts) (fun s =>
  bind (to_percentage (Depression c) total_posts) (fun d =>
  Ok [("Anxiety", a); ("Stress", s); ("Depression", d)]))).

(** *** [_analyze_engagement_patterns] *)

Module Pattern.
Record t := {
  likes : Z;
  comments : Z;
  emotional_tone : Q
}.
End Pattern.

Definition _analyze_engagement_patterns (df : DataFrame) : list Pattern.t :=
  map (fun row => {| Pattern.likes := likes_count row;
                     Pattern.comments := comments_count row;
                     Pattern.emotional_tone := sentiment_score row |}) df.

(** *** [_analyze_topics] *)

(** [f"{row['caption_text']} {row['hashtags']}"] *)
Definition row_text (row : InputDataPoint) : string :=
  caption_text row +:+ " " +:+ hashtags row.

(** [re.sub(r'[^\w\s]', ' ', str(text).lower())] *)
Definition clean_text (text : string) : string :=
  re_sub_nonword (lower text).

(** The tokens one row contributes to [words]. *)
Definition row_words (row : InputDataPoint) : list string :=
  split (clean_text (row_text row)).

(** [words] after the loop over [all_text]. *)
Definition all_words (df : DataFrame) : list string :=
  flat_map row_words df.

Definition stress_words : list string :=
  ["workload"; "deadline"; "sleep"; "balance"; "family";
   "exercise"; "burnout"; "pressure"; "stress"; "tired";
   "overwhelmed"; "anxious"; "worried"; "exhausted"].

(** [{word: word_freq[word] for word in stress_words if word in word_freq}],
    as its items in insertion order. *)
Definition stress_word_freq (word_freq : gmap string nat) : list (string * nat) :=
  map (fun word => (word, default 0%nat (word_freq !! word)))
      (filter (fun word => is_Some (word_freq !! word)) stress_words).

(** The returned list of [{'word': w, 'frequency': n}] as pairs. *)
Definition _analyze_topics (df : DataFrame) : list (string * nat) :=
  let word_freq := Counter (all_words df) in
  take 7 (sorted_reverse snd (stress_word_freq word_freq)).

(** *** [_calculate_wellbeing_metrics] *)

Module Wellbeing.
Record t := {
  wellbeing_score : pyfloat;
  sentiment_score : pyfloat;
  engagement_score : pyfloat;
  status : string
}.
End Wellbeing.

(** The [if]/[elif] ladder on [avg_wellbeing]. *)
Definition status_of (avg_wellbeing : pyfloat) : string :=
  if float_ge avg_wellbeing 80 then "Excellent"
  else if float_ge avg_wellbeing 60 then "Good"
  else if float_ge avg_wellbeing 40 then "Stable"
  else "Needs Attention".

(** The three means are taken over the whole frame, which has its
    columns. *)
Definition _calculate_wellbeing_metrics {pandas : Pandas} (df : DataFrame)
    : Wellbeing.t :=
  let avg_wellbeing := Series_mean (map wellbeing_index df) in
  let avg_sentiment := Series_mean (map sentiment_score df) in
  let avg_engagement := Series_mean (map engagement_score df) in
  {| Wellbeing.wellbeing_score := avg_wellbeing;
     Wellbeing.sentiment_score := avg_sentiment;
     Wellbeing.engagement_score := avg_engagement;
     Wellbeing.status := status_of avg_wellbeing |}.

(** *** [process_data] *)

Record processed_data := {
  daily_data : list Daily.t;
  mental_health_indicators : list (string * Q);
  engagement_patterns : list Pattern.t;
  topic_analysis : list (string * nat);
  wellbeing_metrics : Wellbeing.t;
  raw_data : DataFrame
}.

(** [dp.dict()]: a plain dict has no such method. *)
Definition no_dict_attribute : exn :=
  AttributeError "'dict' object has no attribute 'dict'".
Definition dict (dp : pyobj) : result InputDataPoint :=
  match dp with
  | Model fields => Ok fields
  | Dict _ => Raise no_dict_attribute
  end.

(** [pd.DataFrame([])] has no columns, so [df['timestamp']] raises. *)
Definition process_data {pandas : Pandas} (data_points : list pyobj)
    : result processed_data :=
  bind (traverse dict data_points) (fun rows =>
  match rows with
  | [] => Raise (KeyError "timestamp")
  | _ =>
      let df := sort_values rows in
      let daily := _calculate_daily_aggregates df in
      bind (_extract_mental_health_indicators df) (fun indicators =>
      Ok {| daily_data := daily;
            mental_health_indicators := indicators;
            engagement_patterns := _analyze_engagement_patterns df;
            topic_analysis := _analyze_topics df;
            wellbeing_metrics := _calculate_wellbeing_metrics df;
            raw_data := df |})
  end).

(** *** [prepare_chart_data] *)

(** The returned dict of charts. *)
Module Charts.
Record t := {
  emotional_trend : ChartData.t;
  mental_health_categories : ChartData.t;
  engagement_vs_mood : ChartData.t;
  topics_discussed : ChartData.t;
  wellbeing_index : ChartData.t;
  recommendations : ChartData.t
}.
End Charts.

Definition chart (chart_type title : string) (data : list ChartDataPoint.t)
    : ChartData.t :=
  {| ChartData.chart_type := chart_type; ChartData.title := title;
     ChartData.data := data; ChartData.value := None;
     ChartData.range := None; ChartData.status := None |}.

Definition emotional_trend_point (day : Daily.t) : ChartDataPoint.t :=
  {| ChartDataPoint.date := Some (str_date (Daily.date day));
     ChartDataPoint.sentiment_score := Some (round1f (Daily.sentiment_score day));
     ChartDataPoint.category := None; ChartDataPoint.percentage := None;
     ChartDataPoint.likes := None; ChartDataPoint.comments := None;
     ChartDataPoint.emotional_tone := None; ChartDataPoint.word := None;
     ChartDataPoint.frequency := None; ChartDataPoint.id := None;
     ChartDataPoint.text := None |}.

Definition mental_health_point (item : string * Q) : ChartDataPoint.t :=
  {| ChartDataPoint.date := None; ChartDataPoint.sentiment_score := None;
     ChartDataPoint.category := Some (fst item);
     ChartDataPoint.percentage := Some (Fin (round1 (snd item)));
     ChartDataPoint.likes := None; ChartDataPoint.comments := None;
     ChartDataPoint.emotional_tone := None; ChartDataPoint.word := None;
     ChartDataPoint.frequency := None; ChartDataPoint.id := None;
     ChartDataPoint.text := None |}.

Definition engagement_point (pattern : Pattern.t) : ChartDataPoint.t :=
  {| ChartDataPoint.date := None; ChartDataPoint.sentiment_score := None;
     ChartDataPoint.category := None; ChartDataPoint.percentage := None;
     ChartDataPoint.likes := Some (Pattern.likes pattern);
     ChartDataPoint.comments := Some (Pattern.comments pattern);
     ChartDataPoint.emotional_tone := Some (Fin (round1 (Pattern.emotional_tone pattern)));
     ChartDataPoint.word := None; ChartDataPoint.frequency := None;
     ChartDataPoint.id := None; ChartDataPoint.text := None |}.

Definition topic_point (topic : string * nat) : ChartDataPoint.t :=
  {| ChartDataPoint.date := None; ChartDataPoint.sentiment_score := None;
     ChartDataPoint.category := None; ChartDataPoint.percentage := None;
     ChartDataPoint.likes := None; ChartDataPoint.comments := None;
     ChartDataPoint.emotional_tone := None;
     ChartDataPoint.word := Some (fst topic);
     ChartDataPoint.frequency := Some (Z.of_nat (snd topic));
     ChartDataPoint.id := None; ChartDataPoint.text := None |}.

Definition prepare_chart_data (pd : processed_data) : Charts.t :=
  {| Charts.emotional_trend :=
       chart "line" "Daily Sentiment Over Time"
             (map emotional_trend_point (daily_data pd));
     Charts.mental_health_categories :=
       chart "pie" "Distribution of Anxiety/Stress/Depression Indicators"
             (map mental_health_point (mental_health_indicators pd));
     Charts.engagement_vs_mood :=
       chart "scatter" "Engagement vs Mood"
             (map engagement_point (take 5 (engagement_patterns pd)));
     Charts.topics_discussed :=
       chart "word_cloud" "Top Stress-Related Words"
             (map topic_point (topic_analysis pd));
     Charts.wellbeing_index :=
       {| ChartData.chart_type := "gauge";
          ChartData.title := "Overall Wellbeing Score";
          ChartData.data := [];
          ChartData.value := Some (round1f (Wellbeing.wellbeing_score (wellbeing_metrics pd)));
          ChartData.range := Some (0, 100)%Q;
          ChartData.status := Some (Wellbeing.status (wellbeing_metrics pd)) |};
     Charts.recommendations := chart "text_cards" "Personalized Suggestions" [] |}.

End DataProcessor.

(** ** [openai_service.py] *)

Module OpenAIService.
Import Py.

(** Values [json.loads] can return. *)
#[local] Set Warnings "-register-all".
Inductive json :=
| JNull
| JBool (b : bool)
| JNumber (q : Q)
| JString (s : string)
| JList (items : list json)
| JObject (members : list (string * json)).

(** What one [self.client.chat.completions.create(...)] call does: it
    raises, or it returns a response whose
    [choices[0].message.content] is a string or [None]. *)
Inductive completion :=
| CallRaises (e : exn)
| Completion (content : option string).

(** Computations that may raise and that count the calls made to the
    external generator.  The state survives an exception. *)
Definition M (A : Type) : Type := nat -> result A * nat.

Definition ret {A} (a : A) : M A := fun calls => (Ok a, calls).
Definition raise {A} (e : exn) : M A := fun calls => (Raise e, calls).
Definition lift {A} (x : result A) : M A := fun calls => (x, calls).
Definition bindM {A B} (m : M A) (k : A -> M B) : M B :=
  fun calls =>
    match m calls with
    | (Ok a, calls') => k a calls'
    | (Raise e, calls') => (Raise e, calls')
    end.
(** [try: body except ... : handler]; a handler re-raises what it does
    not catch. *)
Definition try_except {A} (body : M A) (handler : exn -> M A) : M A :=
  fun calls =>
    match body calls with
    | (Ok a, calls') => (Ok a, calls')
    | (Raise e, calls') => handler e calls'
    end.

Notation "x <- m ;; k" := (bindM m (fun x => k))
  (at level 100, m at next level, right associativity).

Section Service.

Context {pandas : Pandas}.

(** [json.loads], library code. *)
Variable json_loads : string -> result json.
(** The external generator: the outcome of its [k]-th call.  The prompt
    is not modelled; every behaviour of the service is some [client]. *)
Variable client : nat -> completion.

Definition create : M (option string) :=
  fun calls =>
    match client calls with
    | CallRaises e => (Raise e, S calls)
    | Completion content => (Ok content, S calls)
    end.

(** [content.strip()]; [None] has no [strip]. *)
Definition content_strip (content : option string) : result string :=
  match content with
  | Some s => Ok (strip s)
  | None => Raise (AttributeError "'NoneType' object has no attribute 'strip'")
  end.

Definition _get_fallback_recommendations : list json :=
  [JString "Try a 10-minute mindfulness meditation before starting your day.";
   JString "Take a short walk after lunch to reduce mid-day stress.";
   JString "Limit late-night screen time to improve sleep quality.";
   JString "Reach out to a friend or colleague for social connection."].

Definition _generate_recommendations : M (list json) :=
  try_except
    (content <- create ;;
     recommendations_text <- lift (content_strip content) ;;
     try_except
       (recommendations <- lift (json_loads recommendations_text) ;;
        match recommendations with
        | JList items =>
            if (4 <=? length items)%nat then ret (take 4 items)
            else ret _get_fallback_recommendations
        | _ => ret _get_fallback_recommendations
        end)
       (fun e =>
          match e with
          | JSONDecodeError => ret _get_fallback_recommendations
          | _ => raise e
          end))
    (fun e => ret _get_fallback_recommendations).

(** [ChartDataPoint(id=i+1, text=rec)]: pydantic accepts a string for
    [text] and rejects other values. *)
Definition recommendation_point (i : nat) (rec : json) : result ChartDataPoint.t :=
  match rec with
  | JString s =>
      Ok {| ChartDataPoint.date := None; ChartDataPoint.sentiment_score := None;
            ChartDataPoint.category := None; ChartDataPoint.percentage := None;
            ChartDataPoint.likes := None; ChartDataPoint.comments := None;
            ChartDataPoint.emotional_tone := None; ChartDataPoint.word := None;
            ChartDataPoint.frequency := None;
            ChartDataPoint.id := Some (Z.of_nat i + 1);
            ChartDataPoint.text := Some s |}
  | _ => Raise ValidationError
  end.

(** The context string only feeds the prompt, so it is left out. *)
Definition analyze_mental_health_data (data_points : list pyobj)
    : M AnalysisResponse.t :=
  processed_data <- lift (DataProcessor.process_data data_points) ;;
  let chart_data := DataProcessor.prepare_chart_data processed_data in
  recommendations <- _generate_recommendations ;;
  points <- lift (traverse (fun p => recommendation_point (fst p) (snd p))
                           (imap pair recommendations)) ;;
  let rc := DataProcessor.Charts.recommendations chart_data in
  ret {| AnalysisResponse.emotional_trend := DataProcessor.Charts.emotional_trend chart_data;
         AnalysisResponse.mental_health_categories :=
           DataProcessor.Charts.mental_health_categories chart_data;
         AnalysisResponse.engagement_vs_mood :=
           DataProcessor.Charts.engagement_vs_mood chart_data;
         AnalysisResponse.topics_discussed := DataProcessor.Charts.topics_discussed chart_data;
         AnalysisResponse.wellbeing_index := DataProcessor.Charts.wellbeing_index chart_data;
         AnalysisResponse.recommendations :=
           {| ChartData.chart_type := ChartData.chart_type rc;
              ChartData.title := ChartData.title rc;
              ChartData.data := points;
              ChartData.value := ChartData.value rc;
              ChartData.range := ChartData.range rc;
              ChartData.status := ChartData.status rc |} |}.

End Service.
End OpenAIService.

(** ** [main.py] *)

Module Main.
Import Py OpenAIService.

Definition trend_point (d : string) (s : Q) : ChartDataPoint.t :=
  {| ChartDataPoint.date := Some d; ChartDataPoint.sentiment_score := Some (Fin s);
     ChartDataPoint.category := None; ChartDataPoint.percentage := None;
     ChartDataPoint.likes := None; ChartDataPoint.comments := None;
     ChartDataPoint.emotional_tone := None; ChartDataPoint.word := None;
     ChartDataPoint.frequency := None; ChartDataPoint.id := None;
     ChartDataPoint.text := None |}.
Definition category_point (c : string) (p : Q) : ChartDataPoint.t :=
  {| ChartDataPoint.date := None; ChartDataPoint.sentiment_score := None;
     ChartDataPoint.category := Some c; ChartDataPoint.percentage := Some (Fin p);
     ChartDataPoint.likes := None; ChartDataPoint.comments := None;
     ChartDataPoint.emotional_tone := None; ChartDataPoint.word := None;
     ChartDataPoint.frequency := None; ChartDataPoint.id := None;
     ChartDataPoint.text := None |}.
Definition scatter_point (l c : Z) (t : Q) : ChartDataPoint.t :=
  {| ChartDataPoint.date := None; ChartDataPoint.sentiment_score := None;
     ChartDataPoint.category := None; ChartDataPoint.percentage := None;
     ChartDataPoint.likes := Some l; ChartDataPoint.comments := Some c;
     ChartDataPoint.emotional_tone := Some (Fin t); ChartDataPoint.word := None;
     ChartDataPoint.frequency := None; ChartDataPoint.id := None;
     ChartDataPoint.text := None |}.
Definition word_point (w : string) (f : Z) : ChartDataPoint.t :=
  {| ChartDataPoint.date := None; ChartDataPoint.sentiment_score := None;
     ChartDataPoint.category := None; ChartDataPoint.percentage := None;
     ChartDataPoint.likes := None; ChartDataPoint.comments := None;
     ChartDataPoint.emotional_tone := None; ChartDataPoint.word := Some w;
     ChartDataPoint.frequency := Some f; ChartDataPoint.id := None;
     ChartDataPoint.text := None |}.
Definition text_point (i : Z) (t : string) : ChartDataPoint.t :=
  {| ChartDataPoint.date := None; ChartDataPoint.sentiment_score := None;
     ChartDataPoint.category := None; ChartDataPoint.percentage := None;
     ChartDataPoint.likes := None; ChartDataPoint.comments := None;
     ChartDataPoint.emotional_tone := None; ChartDataPoint.word := None;
     ChartDataPoint.frequency := None; ChartDataPoint.id := Some i;
     ChartDataPoint.text := Some t |}.

Definition get_fallback_analysis : AnalysisResponse.t :=
  {| AnalysisResponse.emotional_trend :=
       DataProcessor.chart "line" "Daily Sentiment Over Time"
         [trend_point "2025-01-15" 65; trend_point "2025-01-16" 72;
          trend_point "2025-01-17" 58; trend_point "2025-01-18" 81;
          trend_point "2025-01-19" 69; trend_point "2025-01-20" 75;
          trend_point "2025-01-21" 83];
     AnalysisResponse.mental_health_categories :=
       DataProcessor.chart "pie" "Distribution of Anxiety/Stress/Depression Indicators"
         [category_point "Anxiety" 35; category_point "Stress" 45;
          category_point "Depression" 20];
     AnalysisResponse.engagement_vs_mood :=
       DataProcessor.chart "scatter" "Engagement vs Mood"
         [scatter_point 12 3 65; scatter_point 25 7 72; scatter_point 8 1 58;
          scatter_point 35 9 81; scatter_point 18 4 69];
     AnalysisResponse.topics_discussed :=
       DataProcessor.chart "word_cloud" "Top Stress-Related Words"
         [word_point "workload" 42; word_point "deadline" 37;
          word_point "sleep" 30; word_point "balance" 25;
          word_point "family" 21; word_point "exercise" 18;
          word_point "burnout" 14];
     AnalysisResponse.wellbeing_index :=
       {| ChartData.chart_type := "gauge";
          ChartData.title := "Overall Wellbeing Score";
          ChartData.data := [];
          ChartData.value := Some (Fin 76);
          ChartData.range := Some (0, 100)%Q;
          ChartData.status := Some "Stable" |};
     AnalysisResponse.recommendations :=
       DataProcessor.chart "text_cards" "Personalized Suggestions"
         [text_point 1 "Try a 10-minute mindfulness meditation before starting your day.";
          text_point 2 "Take a short walk after lunch to reduce mid-day stress.";
          text_point 3 "Limit late-night screen time to improve sleep quality.";
          text_point 4 "Reach out to a friend or colleague for social connection."] |}.

(** [dp.dict() if hasattr(dp, 'dict') else dp] *)
Definition to_dict (dp : pyobj) : pyobj :=
  match dp with
  | Model fields => Dict fields
  | Dict fields => Dict fields
  end.

Section Endpoints.

Context {pandas : Pandas}.

Variable json_loads : string -> result json.
Variable client : nat -> completion.

(** [POST /analyze] *)
Definition analyze_mental_health_data (request : AnalysisRequest)
    : M AnalysisResponse.t :=
  try_except
    (match data_points request with
     | [] => raise (HTTPException 400 "No data points provided")
     | _ =>
         if (length (data_points request) <? 5)%nat
         then raise (HTTPException 400
                "At least 5 data points required for meaningful analysis")
         else
           let data_dicts := map to_dict (data_points request) in
           OpenAIService.analyze_mental_health_data json_loads client data_dicts
     end)
    (fun e =>
       match e with
       | HTTPException _ _ => raise e
       | _ => ret get_fallback_analysis
       end).

(** The [for] loop of [analyze_batch_data]; [results] is the list being
    appended to. *)
Fixpoint batch_loop (requests : list AnalysisRequest)
    (results : list AnalysisResponse.t) : M (list AnalysisResponse.t) :=
  match requests with
  | [] => ret results
  | request :: requests' =>
      result <- try_except
        (let data_dicts := map to_dict (data_points request) in
         OpenAIService.analyze_mental_health_data json_loads client data_dicts)
        (fun e => ret get_fallback_analysis) ;;
      batch_loop requests' (results ++ [result])
  end.

(** [POST /analyze-batch] *)
Definition analyze_batch_data (requests : list AnalysisRequest)
    : M (list AnalysisResponse.t) :=
  try_except (batch_loop requests [])
             (fun e => ret [get_fallback_analysis]).

End Endpoints.
End Main.

(** ** Reference definitions used to state properties *)

Module Spec.
Import Py.

(** Tokenization with the words "not alphanumeric or whitespace" taken
    literally: the underscore is replaced as well. *)
Definition sub_char (c : ascii) : ascii :=
  if isalnum c || isspace c then c else " "%char.
Definition row_words (row : InputDataPoint) : list string :=
  split (smap sub_char (lower (DataProcessor.row_text row))).

Definition no_underscore (s : string) : bool :=
  sall (fun c => negb (ord c =? 95)%N) s.

(** A lower-case word character: [a-z0-9_]. *)
Definition lower_word_char (c : ascii) : bool :=
  isword c && negb (isupper c).

(** The lower-cased concatenation of caption and hashtag text. *)
Definition record_text (row : InputDataPoint) : string :=
  lower (caption_text row +:+ " " +:+ hashtags row).

(** The record's text contains at least one of the trigger substrings. *)
Definition mentions (keywords : list string) (row : InputDataPoint) : bool :=
  existsb (fun keyword => contains keyword (record_text row)) keywords.

(** The record's contribution to a category's counter. *)
Definition hit (keywords : list string) (row : InputDataPoint) : Z :=
  if mentions keywords row then 1 else 0.

Definition match_count (keywords : list string) (df : DataFrame) : nat :=
  length (List.filter (mentions keywords) df).

(** (matchCount / total) x 100, as a number. *)
Definition percentage (count total : nat) : Q :=
  ((inject_Z (Z.of_nat count) / inject_Z (Z.of_nat total)) * 100)%Q.

(** (matchCount / total) x 100 in float arithmetic: the quotient rounded
    to a float, then the product rounded to a float. *)
Definition float_percentage (count total : nat) : Q :=
  F64.mul (F64.div (inject_Z (Z.of_nat count)) (inject_Z (Z.of_nat total))) 100.

(** Order by integer rank, and by [T] among elements of equal rank. *)
Definition rank_then {A} (rank : A -> Z) (T : A -> A -> Prop) (a b : A) : Prop :=
  rank a < rank b \/ (rank a = rank b /\ T a b).

(** Number of times [w] occurs in a list of tokens, and in the tokens of
    a batch. *)
Definition count_token (w : string) (words : list string) : nat :=
  length (filter (fun x => x = w) words).
Definition occurrences (w : string) (df : DataFrame) : nat :=
  count_token w (DataProcessor.all_words df).

(** Position of a word in the vocabulary list. *)
Fixpoint index_of (w : string) (l : list string) : nat :=
  match l with
  | [] => 0
  | x :: l' => if decide (x = w) then 0 else S (index_of w l')
  end.
Definition vocab_index (w : string) : nat :=
  index_of w DataProcessor.stress_words.

(** Vocabulary words that occur in the batch, in vocabulary order. *)
Definition occurring_vocabulary (df : DataFrame) : list string :=
  filter (fun w => (0 < occurrences w df)%nat) DataProcessor.stress_words.

(** [a] is ranked before [b]: higher frequency first, and on equal
    frequency the word that comes first in the vocabulary. *)
Definition ranked_before (a b : string * nat) : Prop :=
  (snd b < snd a)%nat
  \/ (snd a = snd b /\ (vocab_index (fst a) < vocab_index (fst b))%nat).

(** The records of a frame that fall on calendar date [d], in frame
    order. *)
Definition rows_on (d : Z) (df : DataFrame) : DataFrame :=
  filter (fun row => DataProcessor.date_of row = d) df.

(** The sum of an integer column. *)
Definition total (col : list Z) : Z := fold_right Z.add 0 col.

(** The groups built from the rows [seen]: keys strictly ascending, one
    key per date that occurs, each group holding the rows of its date. *)
Definition grouping (groups : list (Z * list InputDataPoint)) (seen : DataFrame)
    : Prop :=
  StronglySorted Z.lt (map fst groups)
  /\ Forall (fun g => snd g = rows_on (fst g) seen) groups
  /\ (forall k, k ∈ map fst groups
                <-> exists row, row ∈ seen /\ DataProcessor.date_of row = k).

(** The arithmetic mean of a non-empty column. *)
Definition arith_mean (col : list Q) : Q :=
  (fold_right Qplus 0 col / inject_Z (Z.of_nat (length col)))%Q.

(** The aggregate [a] holds the means, as pandas computes them, and the
    sums of the records [rows]. *)
Definition aggregates {pandas : Pandas} (a : DataProcessor.Daily.t)
    (rows : DataFrame) : Prop :=
  DataProcessor.Daily.sentiment_score a = groupby_mean (map sentiment_score rows)
  /\ DataProcessor.Daily.engagement_score a = groupby_mean (map engagement_score rows)
  /\ DataProcessor.Daily.wellbeing_index a = groupby_mean (map wellbeing_index rows)
  /\ DataProcessor.Daily.likes_count a = total (map likes_count rows)
  /\ DataProcessor.Daily.comments_count a = total (map comments_count rows)
  /\ DataProcessor.Daily.shares_count a = total (map shares_count rows)
  /\ DataProcessor.Daily.time_spent_on_post a = total (map time_spent_on_post rows)
  /\ DataProcessor.Daily.night_usage_minutes a = total (map night_usage_minutes rows).

(** The scatter point of one record: its likes, comments and sentiment
    rounded to one decimal. *)
Definition scatter_point (row : InputDataPoint) : ChartDataPoint.t :=
  {| ChartDataPoint.date := None; ChartDataPoint.sentiment_score := None;
     ChartDataPoint.category := None; ChartDataPoint.percentage := None;
     ChartDataPoint.likes := Some (likes_count row);
     ChartDataPoint.comments := Some (comments_count row);
     ChartDataPoint.emotional_tone := Some (Fin (round1 (sentiment_score row)));
     ChartDataPoint.word := None; ChartDataPoint.frequency := None;
     ChartDataPoint.id := None; ChartDataPoint.text := None |}.

(** The data of the "Engagement vs Mood" chart that [process_data]
    followed by [prepare_chart_data] produces for a batch of models. *)
Definition scatter_series {pandas : Pandas} (batch : list InputDataPoint)
    : result (list ChartDataPoint.t) :=
  bind (DataProcessor.process_data (map Model batch)) (fun processed =>
  Ok (ChartData.data
        (DataProcessor.Charts.engagement_vs_mood
           (DataProcessor.prepare_chart_data processed)))).

(** The three order-insensitive analyses that [process_data] produces
    for a batch of models. *)
Definition summary {pandas : Pandas} (batch : list InputDataPoint)
    : result (list (string * Q) * list (string * nat)
              * DataProcessor.Wellbeing.t) :=
  bind (DataProcessor.process_data (map Model batch)) (fun processed =>
  Ok (DataProcessor.mental_health_indicators processed,
      DataProcessor.topic_analysis processed,
      DataProcessor.wellbeing_metrics processed)).

Definition distinct_timestamps (df : DataFrame) : Prop :=
  NoDup (map timestamp df).
Definition ascending (df : DataFrame) : Prop :=
  StronglySorted (fun a b => timestamp a <= timestamp b) df.
Definition strictly_ascending (df : DataFrame) : Prop :=
  StronglySorted (fun a b => timestamp a < timestamp b) df.

End Spec.

(** ** Sample data *)

Module Examples.

Definition post (ident : string) (ts : Z) (caption tags : string)
    (sentiment : Q) (likes comments : Z) (wellbeing : Q) : InputDataPoint :=
  {| post_id := ident; timestamp := ts;
     caption_text := caption; hashtags := tags;
     sentiment_score := sentiment;
     likes_count := likes; comments_count := comments; shares_count := 1;
     engagement_score := 50;
     time_spent_on_post := 45; night_usage_minutes := 30;
     wellbeing_index := wellbeing |}.

(** A caption that contains an underscore. *)
Definition underscore_row : InputDataPoint :=
  post "post_001" 0 "work_stress again" "#Sleep" 65 12 3 68.

Definition first_post : InputDataPoint :=
  post "post_001" 100 "Feeling OVERWHELMED with work" "#work #stress" 65 12 3 80.

(** Five records, in ascending timestamp order, one per day. *)
Definition week : DataFrame :=
  [first_post;
   post "post_002" (1 * ns_per_day + 100) "Great workout session!" "#fitness" 85 25 7 80;
   post "post_003" (2 * ns_per_day + 100) "Deadline tomorrow, so tired" "#deadline" 40 8 1 80;
   post "post_004" (3 * ns_per_day + 100) "Feeling sad and empty" "#down" 30 35 9 80;
   post "post_005" (4 * ns_per_day + 100) "Family time" "#family #sleep" 90 18 4 80].

(** A pandas to run the examples with: both means add the column up in
    float arithmetic from left to right, after each value has been read
    as a float, and divide the sum by the number of values.  For a column
    of one or two values every order of summation gives this result. *)
Definition float64_mean (col : list Q) : Py.pyfloat :=
  match col with
  | [] => Py.NaN
  | _ =>
      Py.Fin (Py.F64.div
                (fold_left (fun acc x => Py.F64.add acc (Py.F64.rnd x)) col 0%Q)
                (inject_Z (Z.of_nat (length col))))
  end.
Definition float64 : Py.Pandas :=
  {| Py.Series_mean := float64_mean; Py.groupby_mean := float64_mean |}.

(** A stand-in for [json.loads] that knows two texts. *)
Definition mock_loads (text : string) : Py.result OpenAIService.json :=
  if decide (text = "[1, 2, 3]") then
    Py.Ok (OpenAIService.JList
             [OpenAIService.JNumber 1; OpenAIService.JNumber 2;
              OpenAIService.JNumber 3])
  else if decide (text = "[1, 2, 3, 4, 5]") then
    Py.Ok (OpenAIService.JList
             [OpenAIService.JNumber 1; OpenAIService.JNumber 2;
              OpenAIService.JNumber 3; OpenAIService.JNumber 4;
              OpenAIService.JNumber 5])
  else Py.Raise Py.JSONDecodeError.

(** Generators that answer every call with the same text. *)
Definition mock_three : nat -> OpenAIService.completion :=
  fun _ => OpenAIService.Completion (Some "[1, 2, 3]").
Definition mock_five : nat -> OpenAIService.completion :=
  fun _ => OpenAIService.Completion (Some "  [1, 2, 3, 4, 5]
").

(** Twenty-five records of which seven mention a trigger of the anxiety
    category, and none one of another category. *)
Definition seven_of_25 : DataFrame :=
  replicate 7 (post "post_a" 0 "So much anxiety today" "#monday" 40 1 1 50)
  ++ replicate 18 (post "post_b" 0 "A calm day" "#monday" 70 1 1 70).

(** Two records of one day whose scores are the float just below 80,
    which is 80 - 2^-46, and 80. *)
Definition below_80 : Q := 5629499534213119 # 70368744177664.
Definition near_eighty : DataFrame :=
  [post "post_001" 100 "Morning walk" "#walk" below_80 3 1 below_80;
   post "post_002" 200 "Evening walk" "#walk" 80 4 1 80].

(** Three records whose wellbeing indices are the floats nearest to 42.8,
    34.8 and 42.4, and the same records in another order. *)
Definition near_42_8 : Q := 3011782250804019 # 70368744177664.
Definition near_34_8 : Q := 2448832297382707 # 70368744177664.
Definition near_42_4 : Q := 5967269506265907 # 140737488355328.
Definition first_of_three : InputDataPoint :=
  post "post_001" 100 "Monday" "#a" 50 1 1 near_42_8.
Definition second_of_three : InputDataPoint :=
  post "post_002" 100 "Tuesday" "#b" 50 1 1 near_34_8.
Definition third_of_three : InputDataPoint :=
  post "post_003" 100 "Wednesday" "#c" 50 1 1 near_42_4.
Definition three_posts : DataFrame :=
  [first_of_three; second_of_three; third_of_three].
Definition three_posts_rotated : DataFrame :=
  [third_of_three; first_of_three; second_of_three].

(** Eighty records of which twenty-three mention a trigger of the
    anxiety category, and none one of another category. *)
Definition twenty_three_of_80 : DataFrame :=
  replicate 23 (post "post_a" 0 "So much anxiety today" "#monday" 40 1 1 50)
  ++ replicate 57 (post "post_b" 0 "A calm day" "#monday" 70 1 1 70).

(** The same five records, latest first, followed by an earlier one. *)
Definition old_post : InputDataPoint :=
  post "post_000" 50 "Old post" "#old" 55 1 1 70.
Definition latest_first : DataFrame := reverse week ++ [old_post].

(** Requests as the HTTP layer hands them over: lists of models. *)
Definition request_of (batch : list InputDataPoint) : AnalysisRequest :=
  {| data_points := map Model batch |}.
Definition three_datasets : list AnalysisRequest :=
  [request_of week; request_of []; request_of week].

End Examples.

(** ** Further reference definitions *)

Module Props.
Import Py.

(** The bands of the status ladder, lowest first. *)
Definition band (status : string) : nat :=
  if decide (status = "Excellent") then 3
  else if decide (status = "Good") then 2
  else if decide (status = "Stable") then 1
  else 0.

(** [x <= y] on floats, with [NaN] below every number. *)
Definition float_le (x y : pyfloat) : Prop :=
  match x, y with
  | Fin a, Fin b => (a <= b)%Q
  | NaN, _ => True
  | Fin _, NaN => False
  end.

(** The entry is a pydantic model. *)
Definition is_model (dp : pyobj) : Prop :=
  match dp with
  | Model _ => True
  | Dict _ => False
  end.

(** The gauge and the pie chart that [process_data] followed by
    [prepare_chart_data] produce for a batch of models. *)
Definition gauge_of {pandas : Pandas} (batch : list InputDataPoint)
    : result ChartData.t :=
  bind (DataProcessor.process_data (map Model batch)) (fun processed =>
  Ok (DataProcessor.Charts.wellbeing_index
        (DataProcessor.prepare_chart_data processed))).
Definition pie_of {pandas : Pandas} (batch : list InputDataPoint)
    : result ChartData.t :=
  bind (DataProcessor.process_data (map Model batch)) (fun processed =>
  Ok (DataProcessor.Charts.mental_health_categories
        (DataProcessor.prepare_chart_data processed))).

(** The "Daily Sentiment Over Time" chart that [process_data] followed by
    [prepare_chart_data] produces for a batch of models. *)
Definition trend_of {pandas : Pandas} (batch : list InputDataPoint)
    : result ChartData.t :=
  bind (DataProcessor.process_data (map Model batch)) (fun processed =>
  Ok (DataProcessor.Charts.emotional_trend
        (DataProcessor.prepare_chart_data processed))).

(** Text cards numbered from 1. *)
Definition cards (texts : list string) : list ChartDataPoint.t :=
  imap (fun i t => Main.text_point (Z.of_nat i + 1) t) texts.

(** The response assembled from the charts of [prepare_chart_data] and
    the recommendation cards. *)
Definition response_of (charts : DataProcessor.Charts.t)
    (points : list ChartDataPoint.t) : AnalysisResponse.t :=
  {| AnalysisResponse.emotional_trend := DataProcessor.Charts.emotional_trend charts;
     AnalysisResponse.mental_health_categories :=
       DataProcessor.Charts.mental_health_categories charts;
     AnalysisResponse.engagement_vs_mood :=
       DataProcessor.Charts.engagement_vs_mood charts;
     AnalysisResponse.topics_discussed := DataProcessor.Charts.topics_discussed charts;
     AnalysisResponse.wellbeing_index := DataProcessor.Charts.wellbeing_index charts;
     AnalysisResponse.recommendations :=
       DataProcessor.chart "text_cards" "Personalized Suggestions" points |}.

(** The texts of the canned recommendations. *)
Definition fallback_texts : list string :=
  ["Try a 10-minute mindfulness meditation before starting your day.";
   "Take a short walk after lunch to reduce mid-day stress.";
   "Limit late-night screen time to improve sleep quality.";
   "Reach out to a friend or colleague for social connection."].

End Props.

(** ** [openai_service.py] and [main.py]: sample data *)

Module SampleData.
Import Py OpenAIService.

(** [round(q, 2)] *)
Definition round2 (q : Q) : Q := inject_Z (round_half_even (q * 100)) / 100.

(** A naive [datetime] is its number of microseconds since 1970-01-01. *)
Definition us_per_hour : Z := 3600 * 1000000.
Definition us_per_day : Z := 24 * us_per_hour.

(** [timedelta(days=d, hours=h)] *)
Definition timedelta (days hours : Z) : Z :=
  days * us_per_day + hours * us_per_hour.

(** [dt.hour] *)
Definition hour (dt : Z) : Z := (dt mod us_per_day) / us_per_hour.

(** [dt.isoformat()]: the fraction is left out when it is zero. *)
Definition isoformat (dt : Z) : string :=
  let rest := dt mod us_per_day in
  let micro := rest mod 1000000 in
  str_date (dt / us_per_day) +:+ "T" +:+ zfill 2 (rest / us_per_hour)
    +:+ ":" +:+ zfill 2 ((rest / 60000000) mod 60)
    +:+ ":" +:+ zfill 2 ((rest / 1000000) mod 60)
    +:+ (if micro =? 0 then "" else "." +:+ zfill 6 micro).

(** [dt.strftime("%A")]; 1970-01-01 was a Thursday. *)
Definition weekdays : list string :=
  ["Monday"; "Tuesday"; "Wednesday"; "Thursday"; "Friday"; "Saturday"; "Sunday"].
Definition strftime_A (dt : Z) : string :=
  nth (Z.to_nat ((dt / us_per_day + 3) mod 7)) weekdays "".

(** [re.findall(r'#\w+', s)]: [cur] is the match being read, if any. *)
Definition flush (cur : option string) : list string :=
  match cur with
  | Some t => if decide (t = "#") then [] else [t]
  | None => []
  end.
Fixpoint findall_go (cur : option string) (s : string) : list string :=
  match s with
  | EmptyString => flush cur
  | String c s' =>
      match cur with
      | Some t =>
          if isword c then findall_go (Some (t +:+ String c "")) s'
          else flush cur ++
               findall_go (if decide (c = "#"%char) then Some "#" else None) s'
      | None =>
          findall_go (if decide (c = "#"%char) then Some "#" else None) s'
      end
  end.
Definition findall_hashtags (s : string) : list string := findall_go None s.

(** [' '.join(l)] *)
Fixpoint join (l : list string) : string :=
  match l with
  | [] => ""
  | [x] => x
  | x :: l' => x +:+ " " +:+ join l'
  end.

(** [f"{n:03d}"] for a positive [n]. *)
Definition format_03d (n : Z) : string :=
  if n <? 1000 then zfill 3 n else pretty n.

(** [l[:n]]: a negative [n] counts from the end. *)
Definition slice_to {A} (n : Z) (l : list A) : list A :=
  if 0 <=? n then take (Z.to_nat n) l
  else take (length l - Z.to_nat (- n)) l.

(** One dict of the fallback sample data. *)
Module Sample.
Record t := {
  post_id : string;
  user_id : string;
  timestamp : string;
  day_of_week : string;
  time_of_day : string;
  caption_text : string;
  hashtags : string;
  image_context_label : string;
  sentiment_score : Q;
  emotion_primary : string;
  emotion_confidence : Q;
  topic_cluster : string;
  text_length : Z;
  likes_count : Z;
  comments_count : Z;
  shares_count : Z;
  saved_count : Z;
  average_comment_sentiment : Q;
  engagement_score : Q;
  time_spent_on_post : Z;
  comments_read_count : Z;
  scrolled_back : bool;
  interaction_type : string;
  num_sessions_per_day : Z;
  avg_session_duration : Q;
  night_usage_minutes : Z;
  label_mental_state : string;
  label_confidence : Q;
  wellbeing_index : Q;
  recommendation_flag : bool
}.
End Sample.

(** An entry of the returned list: an item of the generator's JSON array
    or a dict made by the fallback. *)
Inductive entry :=
| Generated (item : json)
| Synthetic (sample : Sample.t).

Definition captions : list string :=
  ["Feeling overwhelmed with work today, but trying to stay positive! #work #stress #motivation";
   "Great workout session! Feeling much better now. #fitness #wellness #selfcare";
   "Had a rough day, but grateful for my friends who always support me. #grateful #friends #support";
   "Can't sleep again... too much on my mind. #insomnia #anxiety #sleep";
   "Celebrating a small win at work today! #achievement #work #success";
   "Feeling lonely lately, need to reach out to people more. #loneliness #social #connection";
   "Beautiful sunset walk helped clear my mind. #nature #mindfulness #peace";
   "Stressed about the upcoming presentation, but I'll get through it. #presentation #stress #confidence";
   "Spent quality time with family today, feeling blessed. #family #gratitude #love";
   "Another day of working from home, missing the office social interaction. #wfh #isolation #work"].
Definition emotions : list string := ["positive"; "mixed"; "negative"; "neutral"].
Definition mental_states : list string :=
  ["positive"; "stressed"; "anxious"; "depressed"; "neutral"].
Definition topics : list string :=
  ["work_stress"; "fitness_wellness"; "social_connection"; "sleep_issues";
   "family_time"].
Definition image_contexts : list string :=
  ["office_desk"; "gym"; "home"; "outdoor"; "social_gathering"].

(** Computations that read the clock and the random generator; the state
    counts the readings made so far. *)
Definition R (A : Type) : Type := nat -> A * nat.
Definition rret {A} (a : A) : R A := fun k => (a, k).
Definition rbind {A B} (m : R A) (f : A -> R B) : R B :=
  fun k => let '(a, k') := m k in f a k'.

Notation "x <~ m ;; f" := (rbind m (fun x => f))
  (at level 100, m at next level, right associativity).

Section Environment.

(** [datetime.now()] at the [k]-th reading, and what the [random] module
    answers there. *)
Variable clock : nat -> Z.
Variable randint : Z -> Z -> nat -> Z.
Variable uniform : Q -> Q -> nat -> Q.
(** The index [random.choice] picks in a sequence of the given length. *)
Variable choice_index : nat -> nat -> nat.

Definition now : R Z := fun k => (clock k, S k).
Definition random_randint (a b : Z) : R Z := fun k => (randint a b k, S k).
Definition random_uniform (a b : Q) : R Q := fun k => (uniform a b k, S k).
Definition random_choice {A} (default : A) (l : list A) : R A :=
  fun k => (nth (choice_index (length l) k) l default, S k).

(** The body of the loop, for index [i]. *)
Definition sample (i : Z) : R Sample.t :=
  t0 <~ now ;;
  days <~ random_randint 0 6 ;;
  hours <~ random_randint 0 23 ;;
  let timestamp := t0 - timedelta days hours in
  caption <~ random_choice "" captions ;;
  emotion <~ random_choice "" emotions ;;
  mental_state <~ random_choice "" mental_states ;;
  topic <~ random_choice "" topics ;;
  let hashtags := join (findall_hashtags caption) in
  image <~ random_choice "" image_contexts ;;
  sentiment <~ random_uniform 20 80 ;;
  emotion_confidence <~ random_uniform (7 # 10) 1 ;;
  likes <~ random_randint 5 50 ;;
  comments <~ random_randint 0 15 ;;
  shares <~ random_randint 0 8 ;;
  saved <~ random_randint 0 5 ;;
  comment_sentiment <~ random_uniform 20 80 ;;
  engagement <~ random_uniform 30 95 ;;
  time_spent <~ random_randint 30 300 ;;
  comments_read <~ random_randint 0 10 ;;
  scrolled <~ random_choice true [true; false] ;;
  sessions <~ random_randint 5 15 ;;
  session_duration <~ random_uniform 8 25 ;;
  night_usage <~ random_randint 10 120 ;;
  label_confidence <~ random_uniform (7 # 10) 1 ;;
  wellbeing <~ random_uniform 30 90 ;;
  flag <~ random_choice true [true; false] ;;
  rret {| Sample.post_id := "post_" +:+ format_03d (i + 1);
          Sample.user_id := "user_123";
          Sample.timestamp := isoformat timestamp +:+ "Z";
          Sample.day_of_week := strftime_A timestamp;
          Sample.time_of_day :=
            if hour timestamp <? 12 then "morning"
            else if hour timestamp <? 18 then "afternoon" else "evening";
          Sample.caption_text := caption;
          Sample.hashtags := hashtags;
          Sample.image_context_label := image;
          Sample.sentiment_score := round1 sentiment;
          Sample.emotion_primary := emotion;
          Sample.emotion_confidence := round2 emotion_confidence;
          Sample.topic_cluster := topic;
          Sample.text_length := Z.of_nat (String.length caption);
          Sample.likes_count := likes;
          Sample.comments_count := comments;
          Sample.shares_count := shares;
          Sample.saved_count := saved;
          Sample.average_comment_sentiment := round1 comment_sentiment;
          Sample.engagement_score := round1 engagement;
          Sample.time_spent_on_post := time_spent;
          Sample.comments_read_count := comments_read;
          Sample.scrolled_back := scrolled;
          Sample.interaction_type := "post_creation";
          Sample.num_sessions_per_day := sessions;
          Sample.avg_session_duration := round1 session_duration;
          Sample.night_usage_minutes := night_usage;
          Sample.label_mental_state := mental_state;
          Sample.label_confidence := round2 label_confidence;
          Sample.wellbeing_index := round1 wellbeing;
          Sample.recommendation_flag := flag |}.

(** [for i in range(...)], with [n] iterations left. *)
Fixpoint samples (n : nat) (i : Z) : R (list Sample.t) :=
  match n with
  | O => rret []
  | S n' =>
      r <~ sample i ;;
      rs <~ samples n' (i + 1) ;;
      rret (r :: rs)
  end.

(** An empty [range] for [num_posts <= 0]. *)
Definition _get_fallback_sample_data (num_posts : Z) : R (list Sample.t) :=
  samples (Z.to_nat num_posts) 0.

Variable json_loads : string -> result json.
Variable client : nat -> completion.

(** The [try] block of [generate_sample_data]: [Some] of the list to
    return, or [None] where the source returns
    [self._get_fallback_sample_data(num_posts)]. *)
Definition generated (num_posts : Z) : M (option (list json)) :=
  try_except
    (content <- create client ;;
     generated_text <- lift (content_strip content) ;;
     try_except
       (sample_data <- lift (json_loads generated_text) ;;
        match sample_data with
        | JList items =>
            if num_posts <=? Z.of_nat (length items)
            then ret (Some (slice_to num_posts items))
            else ret None
        | _ => ret None
        end)
       (fun e =>
          match e with
          | JSONDecodeError => ret None
          | _ => raise e
          end))
    (fun e => ret None).

(** [generate_sample_data]: the state is the number of generator calls
    and the number of clock and random readings. *)
Definition generate_sample_data (num_posts analysis_period_days : Z)
    (calls k : nat) : list entry * nat * nat :=
  match generated num_posts calls with
  | (Ok (Some items), calls') => (map Generated items, calls', k)
  | (_, calls') =>
      let '(fallback, k') := _get_fallback_sample_data num_posts k in
      (map Synthetic fallback, calls', k')
  end.

(** The body returned by [POST /generate-data]. *)
Record generate_response := {
  gr_data_points : list entry;
  total_points : Z;
  generated_at : string
}.

(** [main.generate_sample_data]; the service raises nothing, so the
    handler of the endpoint is never entered. *)
Definition generate_sample_data_endpoint (num_posts analysis_period_days : Z)
    (calls k : nat) : generate_response * nat * nat :=
  let '(sample_data, calls', k') :=
    generate_sample_data num_posts analysis_period_days calls k in
  let '(t, k'') := now k' in
  ({| gr_data_points := sample_data;
      total_points := Z.of_nat (length sample_data);
      generated_at := isoformat t |}, calls', k'').

End Environment.
End SampleData.

(** ** Reference definitions and an environment for the sample data *)

Module SampleProps.
Import Py SampleData.

(** The numeric fields lie in the ranges the fallback draws them from. *)
Definition in_ranges (s : Sample.t) : Prop :=
  (20 <= Sample.sentiment_score s /\ Sample.sentiment_score s <= 80)%Q
  /\ (20 <= Sample.average_comment_sentiment s
      /\ Sample.average_comment_sentiment s <= 80)%Q
  /\ (30 <= Sample.engagement_score s /\ Sample.engagement_score s <= 95)%Q
  /\ (30 <= Sample.wellbeing_index s /\ Sample.wellbeing_index s <= 90)%Q
  /\ (8 <= Sample.avg_session_duration s /\ Sample.avg_session_duration s <= 25)%Q
  /\ ((7 # 10) <= Sample.emotion_confidence s /\ Sample.emotion_confidence s <= 1)%Q
  /\ ((7 # 10) <= Sample.label_confidence s /\ Sample.label_confidence s <= 1)%Q
  /\ 5 <= Sample.likes_count s <= 50
  /\ 0 <= Sample.comments_count s <= 15
  /\ 0 <= Sample.shares_count s <= 8
  /\ 0 <= Sample.saved_count s <= 5
  /\ 30 <= Sample.time_spent_on_post s <= 300
  /\ 0 <= Sample.comments_read_count s <= 10
  /\ 5 <= Sample.num_sessions_per_day s <= 15
  /\ 10 <= Sample.night_usage_minutes s <= 120.

(** The text fields come from the fixed tables, and the hashtags are the
    tail of the caption. *)
Definition from_tables (s : Sample.t) : Prop :=
  In (Sample.caption_text s) captions
  /\ (exists head, Sample.caption_text s = head +:+ " " +:+ Sample.hashtags s)
  /\ Sample.hashtags s <> ""
  /\ Sample.text_length s = Z.of_nat (String.length (Sample.caption_text s))
  /\ In (Sample.emotion_primary s) emotions
  /\ In (Sample.label_mental_state s) mental_states
  /\ In (Sample.topic_cluster s) topics
  /\ In (Sample.image_context_label s) image_contexts
  /\ In (Sample.time_of_day s) ["morning"; "afternoon"; "evening"]
  /\ In (Sample.day_of_week s) weekdays
  /\ Sample.user_id s = "user_123"
  /\ Sample.interaction_type s = "post_creation".

(** What the [random] module guarantees. *)
Definition randint_ok (randint : Z -> Z -> nat -> Z) : Prop :=
  forall a b k, a <= b -> a <= randint a b k <= b.
Definition uniform_ok (uniform : Q -> Q -> nat -> Q) : Prop :=
  forall a b k, (a <= b)%Q -> (a <= uniform a b k /\ uniform a b k <= b)%Q.
Definition choice_ok (choice_index : nat -> nat -> nat) : Prop :=
  forall n k, (0 < n)%nat -> (choice_index n k < n)%nat.

(** [s] ends with [t]. *)
Fixpoint endswith (t s : string) : bool :=
  bool_decide (s = t)
  || match s with
     | EmptyString => false
     | String _ s' => endswith t s'
     end.

End SampleProps.

(** A clock and a random generator to run the fallback with. *)
Module SampleEnv.

Definition clock (k : nat) : Z := 1736937000 * 1000000 + 123 + Z.of_nat k.
Definition randint (a b : Z) (k : nat) : Z := a + Z.of_nat k mod (b - a + 1).
Definition uniform (a b : Q) (k : nat) : Q := (a + (b - a) * (1 # 3))%Q.
Definition choice_index (n k : nat) : nat := (k mod n)%nat.

End SampleEnv.

(* ================================================================== *)
(** * Part II: properties                                              *)
(* ================================================================== *)

(** ** Strings *)

Module PyFacts.
Import Py.

Ltac each_char c := destruct c as [[] [] [] [] [] [] [] []]; vm_compute; congruence.

Lemma sapp_nil_l (s : string) : "" +:+ s = s.
Proof. reflexivity. Qed.

Lemma sapp_cons (c : ascii) (s t : string) :
  String c s +:+ t = String c (s +:+ t).
Proof. reflexivity. Qed.

Lemma sapp_nil_r (s : string) : s +:+ "" = s.
Proof. induction s as [|c s IH]; [done|]. by rewrite sapp_cons, IH. Qed.

Lemma sapp_assoc (s t u : string) : (s +:+ t) +:+ u = s +:+ (t +:+ u).
Proof. induction s as [|c s IH]; [done|]. by rewrite !sapp_cons, IH. Qed.

Lemma sapp_snoc_ne (s : string) (c : ascii) : s +:+ String c "" <> "".
Proof. by destruct s. Qed.

Lemma smap_app f (s t : string) : smap f (s +:+ t) = smap f s +:+ smap f t.
Proof. induction s as [|c s IH]; [done|]. rewrite !sapp_cons. simpl. by rewrite IH, sapp_cons. Qed.

Lemma sall_app p (s t : string) : sall p (s +:+ t) = sall p s && sall p t.
Proof.
  induction s as [|c s IH]; [done|].
  rewrite sapp_cons. simpl. rewrite IH. by destruct (p c).
Qed.

Lemma sall_smap p f (s : string) :
  (forall c, p (f c) = true) -> sall p (smap f s) = true.
Proof. intros H. induction s as [|c s IH]; [done|]. simpl. by rewrite H, IH. Qed.

Lemma sall_impl (p q : ascii -> bool) (s : string) :
  (forall c, p c = true -> q c = true) -> sall p s = true -> sall q s = true.
Proof.
  intros H. induction s as [|c s IH]; [done|]. simpl.
  intros [Hc Hs]%andb_true_iff. rewrite (H _ Hc). auto.
Qed.

(** *** Character classes *)

Lemma isword_not_space c : isword c = true -> isspace c = false.
Proof. each_char c. Qed.

Lemma sub_char_word c : isword c = true -> sub_char c = c.
Proof. unfold sub_char. by intros ->. Qed.

Lemma sub_char_space c : negb (isspace (sub_char c)) = isword c.
Proof. each_char c. Qed.

Lemma spec_sub_char_space c : negb (isspace (Spec.sub_char c)) = isalnum c.
Proof. each_char c. Qed.

Lemma spec_sub_char_alnum c : isalnum c = true -> Spec.sub_char c = c.
Proof. unfold Spec.sub_char. by intros ->. Qed.

Lemma isword_alnum c : (ord c =? 95)%N = false -> isword c = isalnum c.
Proof. unfold isword. intros ->. by destruct (isalnum c). Qed.

Lemma lower_char_not_upper c : isupper (lower_char c) = false.
Proof. each_char c. Qed.

Lemma lower_char_space c : lower_char c = " "%char -> c = " "%char.
Proof. each_char c. Qed.

Lemma lower_char_underscore c :
  (ord (lower_char c) =? 95)%N = (ord c =? 95)%N.
Proof. each_char c. Qed.

Lemma lower_app (s t : string) : lower (s +:+ t) = lower s +:+ lower t.
Proof. apply smap_app. Qed.

(** *** Runs and [split] *)

(** Replacing separators by other separators does not change the runs. *)
Lemma runs_go_smap (p q : ascii -> bool) (f : ascii -> ascii) (cur s : string) :
  (forall c, p (f c) = q c) ->
  (forall c, q c = true -> f c = c) ->
  runs_go p cur (smap f s) = runs_go q cur s.
Proof.
  intros Hpq Hf. revert cur.
  induction s as [|c s IH]; intros cur; [done|].
  simpl. rewrite Hpq. destruct (q c) eqn:Hq.
  - rewrite (Hf _ Hq). apply IH.
  - by rewrite IH.
Qed.

Lemma runs_go_ext (p q : ascii -> bool) (cur s : string) :
  sall (fun c => bool_decide (p c = q c)) s = true ->
  runs_go p cur s = runs_go q cur s.
Proof.
  revert cur. induction s as [|c s IH]; intros cur; [done|].
  simpl. intros [Hc Hs]%andb_true_iff.
  apply bool_decide_eq_true in Hc. rewrite Hc.
  destruct (q c); by rewrite IH.
Qed.

(** Every run is non-empty and made of characters that satisfy [p]; a
    property [q] of all input characters carries over to the runs. *)
Lemma runs_go_Forall (p q : ascii -> bool) (cur s : string) :
  sall (fun c => p c && q c) cur = true ->
  sall q s = true ->
  Forall (fun w => w <> "" /\ sall (fun c => p c && q c) w = true)
         (runs_go p cur s).
Proof.
  revert cur. induction s as [|c s IH]; intros cur Hcur Hs; simpl.
  - destruct (decide (cur = "")); auto.
  - simpl in Hs. apply andb_true_iff in Hs as [Hc Hs].
    destruct (p c) eqn:Hp.
    + apply IH; [|done]. rewrite sall_app, Hcur. simpl. by rewrite Hp, Hc.
    + apply Forall_app. split; [|by apply IH].
      destruct (decide (cur = "")); auto.
Qed.

(** *** Comprehensions that may raise *)

Lemma traverse_Raise {A B} (f : A -> result B) (l : list A) (e : exn) :
  traverse f l = Raise e -> exists x, x ∈ l /\ f x = Raise e.
Proof.
  induction l as [|x l IH]; simpl; [done|].
  destruct (f x) as [y|e'] eqn:Hx; simpl.
  - destruct (traverse f l) as [ys|e'']; simpl; [done|].
    intros [= ->]. destruct IH as (x' & Hin & Hx'); [done|].
    exists x'. split; [by right|done].
  - intros [= ->]. exists x. split; [by left|done].
Qed.

(** *** Substring containment *)

Lemma startswith_spec (k s : string) :
  startswith k s = true <-> exists b, s = k +:+ b.
Proof.
  revert s. induction k as [|a k IH]; intros s; simpl.
  - split; [eauto|done].
  - destruct s as [|c s]; [split; [done|by intros [b Hb]]|].
    destruct (decide (a = c)) as [->|Hne].
    + rewrite IH. split; intros [b Hb]; exists b.
      * by rewrite sapp_cons, <- Hb.
      * rewrite sapp_cons in Hb. by injection Hb.
    + split; [done|]. intros [b Hb]. rewrite sapp_cons in Hb. congruence.
Qed.

Lemma contains_spec (k s : string) :
  contains k s = true <-> exists a b, s = a +:+ k +:+ b.
Proof.
  induction s as [|c s IH]; simpl.
  - rewrite orb_false_r, startswith_spec. split.
    + intros [b Hb]. by exists "", b.
    + intros (a & b & H). destruct a; [by exists b|done].
  - rewrite orb_true_iff, IH, startswith_spec. split.
    + intros [[b Hb]|(a & b & H)].
      * by exists "", b.
      * exists (String c a), b. by rewrite sapp_cons, <- H.
    + intros (a & b & H). destruct a as [|c' a].
      * left. by exists b.
      * right. exists a, b. rewrite sapp_cons in H. by injection H.
Qed.

End PyFacts.

(** ** Rounding *)

Module RoundFacts.
Import Py.

Local Open Scope Q_scope.

(** Rounding to the nearest integer moves a number by at most one half. *)
Lemma round_half_even_near (q : Q) :
  q - (1 # 2) <= inject_Z (round_half_even q)
  /\ inject_Z (round_half_even q) <= q + (1 # 2).
Proof.
  unfold round_half_even.
  pose proof (Qfloor_le q) as Hlo. pose proof (Qlt_floor q) as Hhi.
  rewrite inject_Z_plus in Hhi. change (inject_Z 1) with 1 in Hhi.
  destruct (Qcompare_spec (q - inject_Z (Qfloor q)) (1 # 2)) as [He|Hl|Hg].
  - destruct (Z.even (Qfloor q)).
    + split; lra.
    + rewrite inject_Z_plus. change (inject_Z 1) with 1. split; lra.
  - split; lra.
  - rewrite inject_Z_plus. change (inject_Z 1) with 1. split; lra.
Qed.

(** Rounding never leaves an interval with integer end points. *)
Lemma round_half_even_within (lo hi : Z) (q : Q) :
  inject_Z lo <= q -> q <= inject_Z hi ->
  (lo <= round_half_even q <= hi)%Z.
Proof.
  intros Hlo Hhi. unfold round_half_even.
  pose proof (Qfloor_le q) as Hfl. pose proof (Qlt_floor q) as Hfh.
  assert (Hf1 : (lo <= Qfloor q)%Z).
  { apply Z.lt_succ_r. rewrite <- Z.add_1_r. rewrite Zlt_Qlt. lra. }
  assert (Hf2 : (Qfloor q <= hi)%Z) by (rewrite Zle_Qle; lra).
  assert (Hstep : inject_Z (Qfloor q) < q -> (Qfloor q + 1 <= hi)%Z).
  { intros H. apply Z.lt_succ_r. rewrite <- Z.add_1_r.
    apply Z.add_lt_mono_r. rewrite Zlt_Qlt. lra. }
  destruct (Qcompare_spec (q - inject_Z (Qfloor q)) (1 # 2)) as [He|Hl|Hg].
  - destruct (Z.even (Qfloor q)); [lia|].
    split; [lia|]. apply Hstep. lra.
  - lia.
  - split; [lia|]. apply Hstep. lra.
Qed.

Lemma round1_near (q : Q) :
  q - (1 # 20) <= round1 q /\ round1 q <= q + (1 # 20).
Proof.
  unfold round1. destruct (round_half_even_near (q * 10)) as [Hlo Hhi].
  split.
  - apply Qle_shift_div_l; [reflexivity|]. lra.
  - apply Qle_shift_div_r; [reflexivity|]. lra.
Qed.

Lemma round1_within (lo hi : Z) (q : Q) :
  inject_Z lo <= q -> q <= inject_Z hi ->
  inject_Z lo <= round1 q /\ round1 q <= inject_Z hi.
Proof.
  intros Hlo Hhi. unfold round1.
  destruct (round_half_even_within (lo * 10) (hi * 10) (q * 10)) as [H1 H2].
  - rewrite inject_Z_mult. change (inject_Z 10) with 10. lra.
  - rewrite inject_Z_mult. change (inject_Z 10) with 10. lra.
  - rewrite Zle_Qle, inject_Z_mult in H1, H2. change (inject_Z 10) with 10 in *.
    split.
    + apply Qle_shift_div_l; [reflexivity|]. lra.
    + apply Qle_shift_div_r; [reflexivity|]. lra.
Qed.

End RoundFacts.

(** ** Binary64 rounding *)

Module F64Facts.
Import Py F64 RoundFacts.

Local Open Scope Q_scope.

Lemma pow2_pos (e : Z) : 0 < 2 ^ e.
Proof. by apply Qpower_0_lt. Qed.

Lemma pow2_plus (a b : Z) : 2 ^ (a + b) == 2 ^ a * 2 ^ b.
Proof. apply Qpower_plus. discriminate. Qed.

Lemma pow2_le (a b : Z) : (a <= b)%Z -> 2 ^ a <= 2 ^ b.
Proof. intros H. apply Qpower_le_compat_l; [done|]. discriminate. Qed.

Lemma pow2_nat (n : Z) : (0 <= n)%Z -> 2 ^ n == inject_Z (2 ^ n).
Proof. intros H. symmetry. by apply (Zpower_Qpower 2). Qed.

Lemma Qabs_pos_lt (q : Q) : ~ q == 0 -> 0 < Qabs q.
Proof.
  intros Hq. apply Qabs_case; intros H.
  - destruct (Qle_lt_or_eq _ _ H) as [H'|H']; [done|]. destruct Hq. by symmetry.
  - destruct (Qle_lt_or_eq _ _ H) as [H'|H']; [lra|]. by destruct Hq.
Qed.

(** [2 ^ ilog2 q] is a lower bound of a positive [q]. *)
Lemma ilog2_lower (q : Q) : 0 < q -> 2 ^ ilog2 q <= q.
Proof.
  intros Hq. unfold ilog2.
  destruct (Qle_bool _ q) eqn:E; [by apply Qle_bool_iff|].
  destruct q as [n d]. cbn [Qnum Qden].
  assert (Hn : (0 < n)%Z).
  { unfold Qlt in Hq. simpl in Hq. lia. }
  pose proof (Z.log2_spec n Hn) as [Hn1 _].
  pose proof (Z.log2_spec (Zpos d) ltac:(lia)) as [_ Hd2].
  pose proof (Z.log2_nonneg n) as Hln.
  pose proof (Z.log2_nonneg (Zpos d)) as Hld.
  replace (Z.log2 n - Z.log2 (Z.pos d) - 1)%Z
    with (Z.log2 n + - (Z.succ (Z.log2 (Z.pos d))))%Z by lia.
  rewrite pow2_plus, Qpower_opp, !pow2_nat by lia.
  assert (Hd0 : 0 < inject_Z (2 ^ Z.succ (Z.log2 (Z.pos d)))).
  { rewrite <- (Zlt_Qlt 0). apply Z.pow_pos_nonneg; lia. }
  apply Qle_shift_div_r; [done|].
  unfold Qle, Qmult, inject_Z. cbn [Qnum Qden].
  rewrite Pos.mul_1_r, Z.mul_1_r.
  apply Z.le_trans with (n * Z.pos d)%Z.
  - apply Z.mul_le_mono_nonneg_r; lia.
  - apply Z.mul_le_mono_nonneg_l; lia.
Qed.

Lemma ilog2_le (K : Z) (q : Q) : 0 < q -> q < 2 ^ (K + 1) -> (ilog2 q <= K)%Z.
Proof.
  intros Hq Hlt.
  assert (H : 2 ^ ilog2 q < 2 ^ (K + 1)).
  { eapply Qle_lt_trans; [by apply ilog2_lower|done]. }
  apply Qpower_lt_compat_l_inv in H; [lia|reflexivity].
Qed.

Lemma ulp_exp_le (K : Z) (q : Q) :
  (-1022 <= K)%Z -> ~ q == 0 -> Qabs q < 2 ^ (K + 1) -> (ulp_exp q <= K - 52)%Z.
Proof.
  intros HK Hq Hlt. unfold ulp_exp.
  pose proof (Qabs_pos_lt q Hq) as Hpos.
  pose proof (ilog2_le K (Qabs q) Hpos Hlt). lia.
Qed.

(** The same bound for the reduced fraction, zero included. *)
Lemma ulp_exp_red_le (K : Z) (q : Q) :
  (-1 <= K)%Z -> Qabs q < 2 ^ (K + 1) -> (ulp_exp (Qred q) <= K - 52)%Z.
Proof.
  intros HK Hlt. destruct (Qeq_dec q 0) as [H0|H0].
  - rewrite (Qred_complete _ _ H0). change (ulp_exp (Qred 0)) with (-53)%Z. lia.
  - apply ulp_exp_le; [lia|by rewrite Qred_correct..].
Qed.

(** Rounding depends on the number, not on the fraction that denotes
    it. *)
Lemma rnd_proper (q q' : Q) : q == q' -> rnd q = rnd q'.
Proof. intros H. unfold rnd. by rewrite (Qred_complete _ _ H). Qed.

Lemma rnd_0 (q : Q) : q == 0 -> rnd q = 0.
Proof. intros H. by rewrite (rnd_proper _ _ H). Qed.

(** The rounded value, before it is reduced. *)
Lemma rnd_value (q : Q) :
  rnd q == inject_Z (round_half_even (Qred q / 2 ^ ulp_exp (Qred q)))
           * 2 ^ ulp_exp (Qred q).
Proof. unfold rnd. apply Qred_correct. Qed.

(** Rounding moves a number by at most half a unit in the last place. *)
Lemma rnd_half_ulp (q : Q) :
  Qabs (rnd q - q) <= 2 ^ ulp_exp (Qred q) * (1 # 2).
Proof.
  rewrite rnd_value. set (e := ulp_exp (Qred q)).
  pose proof (pow2_pos e) as He.
  destruct (round_half_even_near (Qred q / 2 ^ e)) as [H1 H2].
  set (m := inject_Z (round_half_even (Qred q / 2 ^ e))) in *.
  assert (Hq : q == (Qred q / 2 ^ e) * 2 ^ e).
  { rewrite Qred_correct. field. lra. }
  set (x := Qred q / 2 ^ e) in *.
  apply Qabs_Qle_condition. split.
  - rewrite Hq at 1. nra.
  - rewrite Hq at 1. nra.
Qed.

(** Rounding keeps the sign. *)
Lemma rnd_nonneg (q : Q) : 0 <= q -> 0 <= rnd q.
Proof.
  intros Hq. rewrite rnd_value. set (e := ulp_exp (Qred q)).
  pose proof (pow2_pos e) as He.
  destruct (round_half_even_within 0 (Qceiling (Qred q / 2 ^ e)) (Qred q / 2 ^ e))
    as [H _].
  - change (inject_Z 0) with 0. apply Qle_shift_div_l; [done|].
    rewrite Qred_correct. lra.
  - apply Qle_ceiling.
  - rewrite Zle_Qle in H. change (inject_Z 0) with 0 in H. nra.
Qed.

(** Rounding does not cross a number [b * 2 ^ E] of the grid it rounds
    to. *)
Lemma rnd_upper (b E : Z) (q : Q) :
  (ulp_exp (Qred q) <= E)%Z -> q <= inject_Z b * 2 ^ E ->
  rnd q <= inject_Z b * 2 ^ E.
Proof.
  intros HE Hq. rewrite rnd_value. set (e := ulp_exp (Qred q)) in *.
  pose proof (pow2_pos e) as He.
  assert (Hsplit : 2 ^ E == inject_Z (2 ^ (E - e)) * 2 ^ e).
  { rewrite <- pow2_nat by lia. rewrite <- pow2_plus.
    by replace (E - e + e)%Z with E by lia. }
  destruct (round_half_even_within (Qfloor (Qred q / 2 ^ e)) (b * 2 ^ (E - e))
              (Qred q / 2 ^ e)) as [_ H].
  - apply Qfloor_le.
  - apply Qle_shift_div_r; [done|]. rewrite Qred_correct, inject_Z_mult.
    rewrite Hsplit in Hq. lra.
  - rewrite Zle_Qle, inject_Z_mult in H. rewrite Hsplit.
    set (m := inject_Z (round_half_even (Qred q / 2 ^ e))) in *.
    set (c := inject_Z (2 ^ (E - e))) in *. nra.
Qed.

(** The error of rounding a number below [2 ^ (K + 1)]. *)
Lemma rnd_near (K : Z) (q : Q) :
  (-1022 <= K)%Z -> Qabs q < 2 ^ (K + 1) ->
  Qabs (rnd q - q) <= 2 ^ (K - 53).
Proof.
  intros HK Hlt.
  destruct (Qeq_dec q 0) as [H0|H0].
  { rewrite (rnd_0 q H0), H0. change (Qabs (0 - 0)) with 0.
    apply Qlt_le_weak, pow2_pos. }
  eapply Qle_trans; [apply rnd_half_ulp|].
  assert (He : (ulp_exp (Qred q) <= K - 52)%Z).
  { apply ulp_exp_le; [done|by rewrite Qred_correct..]. }
  replace (K - 53)%Z with (K - 52 + -1)%Z by lia.
  rewrite pow2_plus. change (2 ^ (-1)) with (1 # 2).
  pose proof (pow2_le _ _ He). lra.
Qed.

(** The mean of the examples returns a float unchanged when it is the
    only value of its column. *)
Lemma float64_mean_single (x : Q) :
  is_double x -> Examples.float64_mean [x] = Fin x.
Proof.
  unfold is_double. intros Hx.
  unfold Examples.float64_mean. cbn [fold_left length]. f_equal.
  unfold div, add. rewrite Hx.
  rewrite (rnd_proper (0 + x) x) by lra. rewrite Hx.
  rewrite (rnd_proper (x / inject_Z (Z.of_nat 1)) x); [done|].
  change (inject_Z (Z.of_nat 1)) with 1. field.
Qed.

End F64Facts.

(** ** Tokenization *)

Module TokenFacts.
Import Py PyFacts DataProcessor.

Lemma lower_not_upper (s : string) :
  sall (fun c => negb (isupper c)) (lower s) = true.
Proof. apply sall_smap. intros c. by rewrite lower_char_not_upper. Qed.

Lemma lower_no_underscore (s : string) :
  Spec.no_underscore s = true -> Spec.no_underscore (lower s) = true.
Proof.
  unfold Spec.no_underscore, lower.
  induction s as [|c s IH]; [done|]. simpl.
  intros [Hc Hs]%andb_true_iff.
  by rewrite lower_char_underscore, Hc, IH.
Qed.

(** [split] after the substitution yields the maximal runs of word
    characters of the lower-cased text. *)
Lemma split_clean_text (text : string) :
  split (clean_text text) = runs isword (lower text).
Proof.
  unfold split, clean_text, re_sub_nonword, runs.
  apply runs_go_smap.
  - apply sub_char_space.
  - apply sub_char_word.
Qed.

Lemma spec_split (text : string) :
  split (smap Spec.sub_char text) = runs isalnum text.
Proof.
  unfold split, runs. apply runs_go_smap.
  - apply spec_sub_char_space.
  - apply spec_sub_char_alnum.
Qed.




End TokenFacts.

(** ** Indicator extraction *)

Module IndicatorFacts.
Import Py PyFacts DataProcessor.

Lemma combined_text_record_text (row : InputDataPoint) :
  combined_text row = Spec.record_text row.
Proof. unfold combined_text, Spec.record_text. by rewrite !lower_app. Qed.

Lemma any_keyword_mentions (keywords : list string) (row : InputDataPoint) :
  any_keyword keywords (combined_text row) = Spec.mentions keywords row.
Proof. unfold any_keyword, Spec.mentions. by rewrite combined_text_record_text. Qed.

(** What one loop iteration does to each counter. *)
Lemma count_row_spec (c : categories) (row : InputDataPoint) :
  Anxiety (count_row c row) = Anxiety c + Spec.hit anxiety_keywords row
  /\ Stress (count_row c row) = Stress c + Spec.hit stress_keywords row
  /\ Depression (count_row c row) = Depression c + Spec.hit depression_keywords row.
Proof.
  unfold count_row, Spec.hit. rewrite !any_keyword_mentions.
  destruct (Spec.mentions anxiety_keywords row),
           (Spec.mentions stress_keywords row),
           (Spec.mentions depression_keywords row); simpl; lia.
Qed.

Lemma match_count_cons (keywords : list string) (row : InputDataPoint) (df : DataFrame) :
  Z.of_nat (Spec.match_count keywords (row :: df))
  = Spec.hit keywords row + Z.of_nat (Spec.match_count keywords df).
Proof.
  unfold Spec.match_count, Spec.hit. simpl.
  destruct (Spec.mentions keywords row); simpl length; lia.
Qed.

(** The counters after the loop. *)
Lemma fold_count_row (df : DataFrame) (c : categories) :
  Anxiety (fold_left count_row df c)
    = Anxiety c + Z.of_nat (Spec.match_count anxiety_keywords df)
  /\ Stress (fold_left count_row df c)
    = Stress c + Z.of_nat (Spec.match_count stress_keywords df)
  /\ Depression (fold_left count_row df c)
    = Depression c + Z.of_nat (Spec.match_count depression_keywords df).
Proof.
  revert c. induction df as [|row df IH]; intros c.
  - unfold Spec.match_count. simpl. lia.
  - simpl fold_left. destruct (IH (count_row c row)) as (Ha & Hs & Hd).
    destruct (count_row_spec c row) as (Ha' & Hs' & Hd').
    rewrite !match_count_cons. lia.
Qed.

Lemma match_count_le (keywords : list string) (df : DataFrame) :
  (Spec.match_count keywords df <= length df)%nat.
Proof. apply filter_length_le. Qed.

(** The float percentage is between 0 and 100 and within 2^-45 of the
    exact one. *)
Lemma float_percentage_bounds (count total : nat) :
  (count <= total)%nat -> (0 < total)%nat ->
  (0 <= Spec.float_percentage count total
   /\ Spec.float_percentage count total <= 100
   /\ Qabs (Spec.float_percentage count total - Spec.percentage count total)
      <= 1 # 35184372088832)%Q.
Proof.
  intros Hle Hpos. unfold Spec.float_percentage, Spec.percentage, F64.mul, F64.div.
  set (x := (inject_Z (Z.of_nat count) / inject_Z (Z.of_nat total))%Q).
  assert (Ht : (0 < inject_Z (Z.of_nat total))%Q) by (rewrite <- (Zlt_Qlt 0); lia).
  assert (Hx0 : (0 <= x)%Q).
  { apply Qle_shift_div_l; [done|]. rewrite Qmult_0_l, <- (Zle_Qle 0). lia. }
  assert (Hx1 : (x <= 1)%Q).
  { apply Qle_shift_div_r; [done|]. rewrite Qmult_1_l, <- Zle_Qle. lia. }
  assert (Hp0 : (0 <= F64.rnd x)%Q) by by apply F64Facts.rnd_nonneg.
  assert (Hp1 : (F64.rnd x <= 1)%Q).
  { apply (F64Facts.rnd_upper 1 0).
    - assert (H : (F64.ulp_exp (Qred x) <= 0 - 52)%Z); [|lia].
      apply F64Facts.ulp_exp_red_le; [lia|].
      rewrite Qabs_pos by done. change (2 ^ (0 + 1))%Q with 2%Q. lra.
    - change (inject_Z 1 * 2 ^ 0)%Q with (1 * 1)%Q. lra. }
  assert (He1 : (Qabs (F64.rnd x - x) <= 2 ^ (0 - 53))%Q).
  { apply F64Facts.rnd_near; [lia|].
    rewrite Qabs_pos by done. change (2 ^ (0 + 1))%Q with 2%Q. lra. }
  set (y := (F64.rnd x * 100)%Q).
  assert (Hy0 : (0 <= y)%Q) by (unfold y; lra).
  assert (Hy1 : (y <= 100)%Q) by (unfold y; lra).
  assert (Hq0 : (0 <= F64.rnd y)%Q) by by apply F64Facts.rnd_nonneg.
  assert (Hq1 : (F64.rnd y <= 100)%Q).
  { apply (F64Facts.rnd_upper 100 0).
    - assert (H : (F64.ulp_exp (Qred y) <= 6 - 52)%Z); [|lia].
      apply F64Facts.ulp_exp_red_le; [lia|].
      rewrite Qabs_pos by done. change (2 ^ (6 + 1))%Q with 128%Q. lra.
    - change (inject_Z 100 * 2 ^ 0)%Q with (100 * 1)%Q. lra. }
  assert (He2 : (Qabs (F64.rnd y - y) <= 2 ^ (6 - 53))%Q).
  { apply F64Facts.rnd_near; [lia|].
    rewrite Qabs_pos by done. change (2 ^ (6 + 1))%Q with 128%Q. lra. }
  split; [done|]. split; [done|].
  change (2 ^ (0 - 53))%Q with (1 # 9007199254740992)%Q in He1.
  change (2 ^ (6 - 53))%Q with (1 # 140737488355328)%Q in He2.
  apply Qabs_Qle_condition in He1 as [He1 He1'].
  apply Qabs_Qle_condition in He2 as [He2 He2'].
  apply Qabs_Qle_condition. unfold y in *. split; lra.
Qed.

(** The returned dict on a non-empty frame. *)
Lemma extract_indicators_nonempty (df : DataFrame) :
  df <> [] ->
  _extract_mental_health_indicators df
  = Ok [("Anxiety",
         Spec.float_percentage (Spec.match_count anxiety_keywords df) (length df));
        ("Stress",
         Spec.float_percentage (Spec.match_count stress_keywords df) (length df));
        ("Depression",
         Spec.float_percentage (Spec.match_count depression_keywords df) (length df))].
Proof.
  intros Hne.
  assert (Hlen : (0 < length df)%nat) by (destruct df; [done|simpl; lia]).
  unfold _extract_mental_health_indicators, to_percentage, Spec.float_percentage.
  destruct (fold_count_row df {| Anxiety := 0; Stress := 0; Depression := 0 |})
    as (Ha & Hs & Hd).
  cbn [Anxiety Stress Depression] in Ha, Hs, Hd.
  rewrite Ha, Hs, Hd, !Z.add_0_l.
  destruct (Z.eqb_spec (Z.of_nat (length df)) 0) as [H0|_]; [lia|].
  cbn [bind]. reflexivity.
Qed.

(** C1, as stated, fails: of 25 records 7 mention a trigger of the
    anxiety category, the percentage is 28, and the program returns
    28.000000000000004, the float 28 + 2^-48: the quotient 7/25 is rounded
    to a float before it is multiplied by 100, and the product is rounded
    again. *)
Lemma indicators_not_exact :
  Spec.match_count anxiety_keywords Examples.seven_of_25 = 7%nat
  /\ length Examples.seven_of_25 = 25%nat
  /\ (Spec.percentage 7 25 == 28)%Q
  /\ _extract_mental_health_indicators Examples.seven_of_25
     = Ok [("Anxiety", (7881299347898369 # 281474976710656)%Q);
           ("Stress", 0%Q); ("Depression", 0%Q)]
  /\ ((7881299347898369 # 281474976710656) == 28 + (1 # 281474976710656))%Q
  /\ ~ ((7881299347898369 # 281474976710656) == Spec.percentage 7 25)%Q.
Proof.
  split; [by vm_compute|]. split; [by vm_compute|]. split; [by vm_compute|].
  split; [by vm_compute|]. split; [by vm_compute|].
  by vm_compute.
Qed.

(** C1, amended: on a non-empty batch the three indicator percentages are
    (number of records whose lower-cased "caption hashtags" text contains
    at least one trigger substring of the category / number of records)
    x 100 computed in float arithmetic, the quotient and the product each
    rounded to the nearest float, each category counted on its own; a
    record matches exactly when some trigger occurs as a contiguous
    substring of that text; and each percentage lies between 0 and 100,
    within 2^-45 of the exact percentage. *)
Theorem extract_mental_health_indicators_spec (df : DataFrame) :
  df <> [] ->
  _extract_mental_health_indicators df
  = Ok [("Anxiety",
         Spec.float_percentage (Spec.match_count anxiety_keywords df) (length df));
        ("Stress",
         Spec.float_percentage (Spec.match_count stress_keywords df) (length df));
        ("Depression",
         Spec.float_percentage (Spec.match_count depression_keywords df) (length df))]
  /\ Forall (fun keywords =>
              (0 <= Spec.float_percentage (Spec.match_count keywords df) (length df)
               /\ Spec.float_percentage (Spec.match_count keywords df) (length df)
                  <= 100
               /\ Qabs (Spec.float_percentage (Spec.match_count keywords df) (length df)
                        - Spec.percentage (Spec.match_count keywords df) (length df))
                  <= 1 # 35184372088832)%Q)
            [anxiety_keywords; stress_keywords; depression_keywords]
  /\ (forall keywords row,
        Spec.mentions keywords row = true <->
        exists keyword a b,
          In keyword keywords /\
          lower (caption_text row +:+ " " +:+ hashtags row) = a +:+ keyword +:+ b).
Proof.
  intros Hne.
  assert (Hlen : (0 < length df)%nat) by (destruct df; [done|simpl; lia]).
  split; [|split].
  - by apply extract_indicators_nonempty.
  - repeat constructor; apply float_percentage_bounds; auto using match_count_le.
  - intros keywords row. unfold Spec.mentions. rewrite existsb_exists.
    split.
    + intros (k & Hin & (a & b & Hk)%contains_spec). by exists k, a, b.
    + intros (k & a & b & Hin & Hk). exists k. split; [done|].
      apply contains_spec. by exists a, b.
Qed.

Lemma extract_mental_health_indicators_witness :
  Examples.week <> []
  /\ _extract_mental_health_indicators Examples.week
     = Ok [("Anxiety", Spec.float_percentage 1 5);
           ("Stress", Spec.float_percentage 2 5);
           ("Depression", Spec.float_percentage 1 5)].
Proof.
  split; [discriminate|].
  apply (extract_mental_health_indicators_spec Examples.week). discriminate.
Defined.

End IndicatorFacts.

(** ** Sums and means *)

Module SumFacts.
Import Py.

Lemma Zsum_acc (col : list Z) (acc : Z) :
  fold_left Z.add col acc = acc + fold_right Z.add 0 col.
Proof.
  revert acc. induction col as [|x col IH]; intros acc; simpl; [lia|].
  rewrite IH. lia.
Qed.

Lemma Zsum_fold_right (col : list Z) : Zsum col = fold_right Z.add 0 col.
Proof. unfold Zsum. by rewrite Zsum_acc. Qed.

End SumFacts.

(** ** Wellbeing *)

Module WellbeingFacts.
Import Py SumFacts DataProcessor.

Lemma float_ge_true (q c : Q) : float_ge (Fin q) c = true <-> (c <= q)%Q.
Proof. apply Qle_bool_iff. Qed.

Lemma float_ge_false (q c : Q) : float_ge (Fin q) c = false <-> (q < c)%Q.
Proof.
  rewrite <- not_true_iff_false, float_ge_true.
  split; [apply Qnot_le_lt|apply Qlt_not_le].
Qed.

(** The threshold ladder, read top-down. *)
Lemma status_of_ladder (m : Q) :
  ((80 <= m)%Q -> status_of (Fin m) = "Excellent")
  /\ ((60 <= m)%Q -> (m < 80)%Q -> status_of (Fin m) = "Good")
  /\ ((40 <= m)%Q -> (m < 60)%Q -> status_of (Fin m) = "Stable")
  /\ ((m < 40)%Q -> status_of (Fin m) = "Needs Attention").
Proof.
  unfold status_of. repeat split.
  - intros H%float_ge_true. by rewrite H.
  - intros H1%float_ge_true H2%float_ge_false. by rewrite H2, H1.
  - intros H1%float_ge_true H2%float_ge_false.
    assert (H3 : float_ge (Fin m) 80 = false).
    { apply float_ge_false. apply float_ge_false in H2.
      eapply Qlt_trans; [exact H2|done]. }
    by rewrite H3, H2, H1.
  - intros H.
    assert (H1 : float_ge (Fin m) 40 = false) by by apply float_ge_false.
    assert (H2 : float_ge (Fin m) 60 = false).
    { apply float_ge_false. eapply Qlt_trans; [exact H|done]. }
    assert (H3 : float_ge (Fin m) 80 = false).
    { apply float_ge_false. eapply Qlt_trans; [exact H|done]. }
    by rewrite H3, H2, H1.
Qed.



End WellbeingFacts.

(** ** Recommendation flow *)

Module RecommendationFacts.
Import Py OpenAIService.

Section Flow.
Variable json_loads : string -> result json.
Variable client : nat -> completion.

(** The flow as one expression: it never raises and performs one call,
    whatever the call does. *)
Lemma generate_recommendations_unfold (calls : nat) :
  _generate_recommendations json_loads client calls
  = (Ok match client calls with
        | Completion (Some content) =>
            match json_loads (strip content) with
            | Ok (JList items) =>
                if (4 <=? length items)%nat then take 4 items
                else _get_fallback_recommendations
            | _ => _get_fallback_recommendations
            end
        | _ => _get_fallback_recommendations
        end, S calls).
Proof.
  unfold _generate_recommendations, try_except, bindM, create, lift, ret, raise.
  destruct (client calls) as [e|[content|]]; [done| |done].
  cbn -[Nat.leb take _get_fallback_recommendations].
  destruct (json_loads (strip content)) as [[| | | |items|]|[]]; try done.
  by destruct (4 <=? length items)%nat.
Qed.

End Flow.

(** C3: the generator is called once and the flow never raises; a
    response that parses as a list of at least 4 items yields exactly its
    first 4 items; a failing call, a response without content, text that
    does not parse, a parsed value that is not a list, and a list of fewer
    than 4 items each yield the fixed 4-item fallback list. *)
Theorem generate_recommendations_spec
    (json_loads : string -> result json) (client : nat -> completion)
    (calls : nat) :
  snd (_generate_recommendations json_loads client calls) = S calls
  /\ (forall content items,
        client calls = Completion (Some content) ->
        json_loads (strip content) = Ok (JList items) ->
        (4 <= length items)%nat ->
        fst (_generate_recommendations json_loads client calls) = Ok (take 4 items)
        /\ length (take 4 items) = 4%nat)
  /\ (forall e,
        client calls = CallRaises e ->
        fst (_generate_recommendations json_loads client calls)
        = Ok _get_fallback_recommendations)
  /\ (client calls = Completion None ->
        fst (_generate_recommendations json_loads client calls)
        = Ok _get_fallback_recommendations)
  /\ (forall content e,
        client calls = Completion (Some content) ->
        json_loads (strip content) = Raise e ->
        fst (_generate_recommendations json_loads client calls)
        = Ok _get_fallback_recommendations)
  /\ (forall content v,
        client calls = Completion (Some content) ->
        json_loads (strip content) = Ok v ->
        (forall items, v <> JList items) ->
        fst (_generate_recommendations json_loads client calls)
        = Ok _get_fallback_recommendations)
  /\ (forall content items,
        client calls = Completion (Some content) ->
        json_loads (strip content) = Ok (JList items) ->
        (length items < 4)%nat ->
        fst (_generate_recommendations json_loads client calls)
        = Ok _get_fallback_recommendations)
  /\ _get_fallback_recommendations
     = [JString "Try a 10-minute mindfulness meditation before starting your day.";
        JString "Take a short walk after lunch to reduce mid-day stress.";
        JString "Limit late-night screen time to improve sleep quality.";
        JString "Reach out to a friend or colleague for social connection."].
Proof.
  rewrite generate_recommendations_unfold. cbn [fst snd].
  split; [done|]. split; [|split; [|split; [|split; [|split; [|split]]]]].
  - intros content items -> -> Hlen. split.
    + by destruct (Nat.leb_spec 4 (length items)); [|lia].
    + rewrite length_take. lia.
  - by intros e ->.
  - by intros ->.
  - by intros content e -> ->.
  - intros content v -> -> Hv. destruct v; try done. by destruct (Hv items).
  - intros content items -> -> Hlt.
    by destruct (Nat.leb_spec 4 (length items)); [lia|].
  - done.
Qed.

Lemma generate_recommendations_witness :
  _generate_recommendations Examples.mock_loads Examples.mock_five 0%nat
  = (Ok [JNumber 1; JNumber 2; JNumber 3; JNumber 4], 1%nat)
  /\ _generate_recommendations Examples.mock_loads Examples.mock_three 0%nat
     = (Ok _get_fallback_recommendations, 1%nat).
Proof.
  destruct (generate_recommendations_spec Examples.mock_loads Examples.mock_five 0%nat)
    as (Hcalls5 & Hfirst4 & _).
  destruct (generate_recommendations_spec Examples.mock_loads Examples.mock_three 0%nat)
    as (Hcalls3 & _ & _ & _ & _ & _ & Hshort & _).
  split; apply injective_projections.
  - apply (Hfirst4 "  [1, 2, 3, 4, 5]
" [JNumber 1; JNumber 2; JNumber 3; JNumber 4; JNumber 5]);
      [reflexivity|reflexivity|simpl; lia].
  - exact Hcalls5.
  - apply (Hshort "[1, 2, 3]" [JNumber 1; JNumber 2; JNumber 3]);
      [reflexivity|reflexivity|simpl; lia].
  - exact Hcalls3.
Defined.

End RecommendationFacts.

(** ** The stable sort *)

Module SortFacts.
Import Py.

Section Stable.
Context {A : Type}.
Variable before : A -> A -> bool.
(** The comparison is by an integer rank. *)
Variable rank : A -> Z.
Hypothesis before_rank : forall a b, before a b = (rank a <? rank b).
(** [T] relates an element to those that follow it in the input. *)
Variable T : A -> A -> Prop.

Lemma insert_by_Permutation (x : A) (l : list A) :
  Permutation (insert_by before x l) (x :: l).
Proof.
  induction l as [|y l IH]; simpl; [done|].
  destruct (before y x); [|done].
  rewrite IH. apply perm_swap.
Qed.

Lemma stable_sort_Permutation (l : list A) :
  Permutation (stable_sort before l) l.
Proof.
  induction l as [|x l IH]; simpl; [done|].
  by rewrite insert_by_Permutation, IH.
Qed.

Lemma insert_by_sorted (x : A) (l : list A) :
  Forall (T x) l ->
  StronglySorted (Spec.rank_then rank T) l ->
  StronglySorted (Spec.rank_then rank T) (insert_by before x l).
Proof.
  intros HT Hl. induction Hl as [|y l Hl IH Hy]; simpl.
  - repeat constructor.
  - apply Forall_cons in HT as [HTy HTl].
    rewrite before_rank. destruct (Z.ltb_spec (rank y) (rank x)) as [Hlt|Hge].
    + constructor; [by apply IH|].
      rewrite (insert_by_Permutation x l). constructor; [by left|done].
    + constructor; [by constructor|].
      constructor.
      * unfold Spec.rank_then. destruct (decide (rank x = rank y)); [right|left]; [done|lia].
      * rewrite Forall_forall in Hy, HTl. apply Forall_forall. intros z Hz.
        specialize (Hy z Hz). specialize (HTl z Hz). unfold Spec.rank_then in *.
        destruct (decide (rank x = rank z)); [by right|left].
        destruct Hy as [?|[? _]]; lia.
Qed.

(** Stability: elements of equal rank keep their input order. *)
Lemma stable_sort_sorted (l : list A) :
  StronglySorted T l ->
  StronglySorted (Spec.rank_then rank T) (stable_sort before l).
Proof.
  induction 1 as [|x l Hl IH Hx]; simpl; [constructor|].
  apply insert_by_sorted; [|done].
  by rewrite stable_sort_Permutation.
Qed.

(** A frame that is already in rank order is left as it is. *)
Lemma stable_sort_id (l : list A) :
  StronglySorted (fun a b => rank a <= rank b) l ->
  stable_sort before l = l.
Proof.
  induction 1 as [|x l Hl IH Hx]; simpl; [done|].
  rewrite IH. destruct l as [|y l]; [done|]. simpl.
  apply Forall_cons in Hx as [Hxy _]. rewrite before_rank.
  by destruct (Z.ltb_spec (rank y) (rank x)); [lia|].
Qed.

End Stable.

Lemma StronglySorted_impl {A} (R R' : A -> A -> Prop) (l : list A) :
  (forall a b, R a b -> R' a b) ->
  StronglySorted R l -> StronglySorted R' l.
Proof.
  intros HR. induction 1 as [|x l Hl IH Hx]; constructor; [done|].
  eapply Forall_impl; [exact Hx|]. auto.
Qed.

Lemma StronglySorted_filter {A} (R : A -> A -> Prop) (P : A -> Prop)
    `{!forall x, Decision (P x)} (l : list A) :
  StronglySorted R l -> StronglySorted R (filter P l).
Proof.
  induction 1 as [|x l Hl IH Hx]; [constructor|].
  rewrite filter_cons. destruct (decide (P x)); [|done].
  constructor; [done|]. rewrite Forall_forall in Hx. apply Forall_forall.
  intros z [_ Hz]%list_elem_of_filter. auto.
Qed.

Lemma StronglySorted_take {A} (R : A -> A -> Prop) (n : nat) (l : list A) :
  StronglySorted R l -> StronglySorted R (take n l).
Proof.
  intros H. rewrite <- (take_drop n l) in H.
  by apply StronglySorted_app_1_l in H.
Qed.

End SortFacts.

(** ** Topic frequencies *)

Module TopicFacts.
Import Py SortFacts DataProcessor.

Lemma count_token_cons (w x : string) (words : list string) :
  Spec.count_token w (x :: words)
  = ((if decide (x = w) then 1 else 0) + Spec.count_token w words)%nat.
Proof.
  unfold Spec.count_token. rewrite filter_cons.
  by destruct (decide (x = w)).
Qed.

(** The counter after the loop, starting from the table [m]. *)
Lemma Counter_go_lookup (words : list string) (m : gmap string nat) (w : string) :
  foldl (fun m w => <[w := S (default 0%nat (m !! w))]> m) m words !! w
  = if decide (Spec.count_token w words = 0%nat) then m !! w
    else Some (Spec.count_token w words + default 0%nat (m !! w))%nat.
Proof.
  revert m. induction words as [|x words IH]; intros m; [done|].
  simpl foldl. rewrite IH, count_token_cons.
  destruct (decide (x = w)) as [->|Hne].
  - rewrite lookup_insert_eq. simpl default.
    destruct (decide (Spec.count_token w words = 0%nat)) as [->|?]; simpl.
    + done.
    + f_equal. lia.
  - rewrite lookup_insert_ne by done. simpl.
    by destruct (decide (Spec.count_token w words = 0%nat)).
Qed.

(** A [Counter] has an entry exactly for the tokens that occur, holding
    their number of occurrences. *)
Lemma Counter_lookup (words : list string) (w : string) :
  Counter words !! w
  = if decide (Spec.count_token w words = 0%nat) then None
    else Some (Spec.count_token w words).
Proof.
  unfold Counter. rewrite Counter_go_lookup, lookup_empty. simpl.
  destruct (decide (Spec.count_token w words = 0%nat)); [done|].
  f_equal. lia.
Qed.

Lemma count_token_Permutation (w : string) (words words' : list string) :
  Permutation words words' -> Spec.count_token w words = Spec.count_token w words'.
Proof.
  intros H. unfold Spec.count_token.
  apply Permutation_length. by apply filter_Permutation.
Qed.

Lemma Counter_Permutation (words words' : list string) :
  Permutation words words' -> Counter words = Counter words'.
Proof.
  intros H. apply map_eq. intros w. rewrite !Counter_lookup.
  by rewrite (count_token_Permutation w _ _ H).
Qed.

Lemma stress_word_freq_spec (df : DataFrame) :
  stress_word_freq (Counter (all_words df))
  = map (fun w => (w, Spec.occurrences w df)) (Spec.occurring_vocabulary df).
Proof.
  unfold stress_word_freq, Spec.occurring_vocabulary, Spec.occurrences.
  assert (Hf : filter (fun word => is_Some (Counter (all_words df) !! word)) stress_words
               = filter (fun w => (0 < Spec.count_token w (all_words df))%nat) stress_words).
  { apply list_filter_iff. intros w. rewrite Counter_lookup.
    destruct (decide (Spec.count_token w (all_words df) = 0%nat)) as [->|?].
    - split; [by intros [? ?]|lia].
    - split; [lia|eauto]. }
  rewrite Hf. apply map_ext. intros w. rewrite Counter_lookup.
  by destruct (decide (Spec.count_token w (all_words df) = 0%nat)) as [->|?].
Qed.

Lemma stress_words_sorted :
  StronglySorted (fun a b => (Spec.vocab_index a < Spec.vocab_index b)%nat)
                 stress_words.
Proof.
  unfold stress_words.
  repeat first [apply SSorted_nil | apply SSorted_cons
               | apply Forall_nil_2 | apply Forall_cons_2];
    vm_compute; lia.
Qed.

Lemma sorted_reverse_ranked (l : list (string * nat)) :
  StronglySorted (fun a b => (Spec.vocab_index (fst a) < Spec.vocab_index (fst b))%nat) l ->
  StronglySorted Spec.ranked_before (sorted_reverse snd l).
Proof.
  intros Hl. unfold sorted_reverse.
  assert (Hrank : forall a b : string * nat,
             (snd b <? snd a)%nat = (- Z.of_nat (snd a) <? - Z.of_nat (snd b))).
  { intros a b.
    destruct (Nat.ltb_spec (snd b) (snd a)),
             (Z.ltb_spec (- Z.of_nat (snd a)) (- Z.of_nat (snd b))); (done || lia). }
  eapply StronglySorted_impl;
    [|apply (stable_sort_sorted _ (fun a => - Z.of_nat (snd a)) Hrank _ l Hl)].
  intros a b [H|[H1 H2]]; [left; lia|right; split; [lia|done]].
Qed.

Lemma analyze_topics_unfold (df : DataFrame) :
  _analyze_topics df
  = take 7 (sorted_reverse snd
              (map (fun w => (w, Spec.occurrences w df)) (Spec.occurring_vocabulary df))).
Proof. unfold _analyze_topics. by rewrite stress_word_freq_spec. Qed.

Lemma sorted_reverse_Permutation (l : list (string * nat)) :
  Permutation (sorted_reverse snd l) l.
Proof. apply stable_sort_Permutation. Qed.

(** C4: the topic output has at most 7 pairs; each returned word belongs
    to the 14-word vocabulary and its frequency is its number of
    occurrences among the batch tokens, which is at least 1; the pairs
    are in descending frequency with ties in vocabulary order; the number
    of pairs is the smaller of 7 and the number of vocabulary words that
    occur, so nothing is padded; and when at most 7 vocabulary words
    occur each of them is returned. *)
Theorem analyze_topics_spec (df : DataFrame) :
  (length (_analyze_topics df) <= 7)%nat
  /\ length stress_words = 14%nat
  /\ Forall (fun p => In (fst p) stress_words
                      /\ (1 <= snd p)%nat
                      /\ snd p = Spec.occurrences (fst p) df)
            (_analyze_topics df)
  /\ StronglySorted Spec.ranked_before (_analyze_topics df)
  /\ length (_analyze_topics df)
     = Nat.min 7 (length (Spec.occurring_vocabulary df))
  /\ ((length (Spec.occurring_vocabulary df) <= 7)%nat ->
      forall w, In w stress_words -> (1 <= Spec.occurrences w df)%nat ->
                In (w, Spec.occurrences w df) (_analyze_topics df)).
Proof.
  rewrite analyze_topics_unfold.
  set (l := map (fun w => (w, Spec.occurrences w df)) (Spec.occurring_vocabulary df)).
  assert (Hlen : length (sorted_reverse snd l) = length (Spec.occurring_vocabulary df)).
  { rewrite (Permutation_length (sorted_reverse_Permutation l)).
    unfold l. apply length_map. }
  split; [rewrite length_take; lia|]. split; [done|].
  split; [|split; [|split]].
  - apply Forall_forall. intros p Hp%subseteq_take.
    rewrite (sorted_reverse_Permutation l) in Hp.
    apply list_elem_of_fmap in Hp as (w & -> & Hw).
    apply list_elem_of_filter in Hw as [Hocc Hw]. cbn [fst snd].
    split; [by apply list_elem_of_In|]. split; [lia|done].
  - apply StronglySorted_take, sorted_reverse_ranked.
    unfold l, Spec.occurring_vocabulary.
    eapply (StronglySorted_fmap _ _ _).
    2: apply StronglySorted_filter, stress_words_sorted.
    done.
  - by rewrite length_take, Hlen.
  - intros Hle w Hw Hocc. rewrite take_ge by lia.
    apply list_elem_of_In. rewrite (sorted_reverse_Permutation l).
    apply (list_elem_of_fmap_2 (fun w => (w, Spec.occurrences w df))).
    apply list_elem_of_filter. split; [lia|by apply list_elem_of_In].
Qed.

Lemma analyze_topics_witness :
  (length (Spec.occurring_vocabulary Examples.week) <= 7)%nat
  /\ In "deadline" stress_words
  /\ (1 <= Spec.occurrences "deadline" Examples.week)%nat
  /\ In ("deadline", Spec.occurrences "deadline" Examples.week)
        (_analyze_topics Examples.week).
Proof.
  assert (H1 : (length (Spec.occurring_vocabulary Examples.week) <= 7)%nat)
    by (vm_compute; lia).
  assert (H2 : In "deadline" stress_words) by (right; left; reflexivity).
  assert (H3 : (1 <= Spec.occurrences "deadline" Examples.week)%nat)
    by (vm_compute; lia).
  split; [exact H1|]. split; [exact H2|]. split; [exact H3|].
  destruct (analyze_topics_spec Examples.week) as (_ & _ & _ & _ & _ & Hall).
  exact (Hall H1 "deadline" H2 H3).
Defined.

End TopicFacts.

(** ** Daily aggregation *)

Module DailyFacts.
Import Py SumFacts DataProcessor.

Lemma rows_on_snoc (d : Z) (seen : DataFrame) (row : InputDataPoint) :
  Spec.rows_on d (seen ++ [row])
  = Spec.rows_on d seen ++ (if decide (date_of row = d) then [row] else []).
Proof.
  unfold Spec.rows_on. rewrite filter_app. f_equal.
Qed.

Lemma rows_on_nil_iff (d : Z) (df : DataFrame) :
  Spec.rows_on d df = [] <-> forall row, row ∈ df -> date_of row <> d.
Proof.
  unfold Spec.rows_on. split.
  - intros H row Hrow Hd.
    assert (Hin : row ∈ filter (fun row => date_of row = d) df)
      by by apply list_elem_of_filter.
    rewrite H in Hin. by apply not_elem_of_nil in Hin.
  - intros H. induction df as [|x df IH]; [done|].
    rewrite filter_cons. destruct (decide (date_of x = d)) as [Hd|_].
    + destruct (H x); [left|done].
    + apply IH. intros row Hrow. apply H. by right.
Qed.

(** What inserting one row does to the groups built from the rows
    [seen] so far. *)
Lemma group_insert_inv (row : InputDataPoint) (seen : DataFrame)
    (groups : list (Z * list InputDataPoint)) :
  StronglySorted Z.lt (map fst groups) ->
  Forall (fun g => snd g = Spec.rows_on (fst g) seen) groups ->
  (date_of row ∉ map fst groups -> Spec.rows_on (date_of row) seen = []) ->
  StronglySorted Z.lt (map fst (group_insert (date_of row) row groups))
  /\ Forall (fun g => snd g = Spec.rows_on (fst g) (seen ++ [row]))
            (group_insert (date_of row) row groups)
  /\ (forall k, k ∈ map fst (group_insert (date_of row) row groups)
                <-> k = date_of row \/ k ∈ map fst groups).
Proof.
  induction groups as [|[d' rows] groups IH]; intros Hs Hg Hnew; simpl.
  - split; [repeat constructor|]. split.
    + repeat constructor. simpl. rewrite rows_on_snoc, Hnew by apply not_elem_of_nil.
      by rewrite decide_True.
    + intros k. rewrite list_elem_of_singleton. split; [auto|].
      by intros [?|?%not_elem_of_nil].
  - simpl in Hs. apply StronglySorted_cons in Hs as [Hd' Hs].
    apply Forall_cons in Hg as [Hrows Hg]. simpl in Hrows.
    assert (Hkeep : forall g : Z * list InputDataPoint,
               fst g <> date_of row ->
               snd g = Spec.rows_on (fst g) seen ->
               snd g = Spec.rows_on (fst g) (seen ++ [row])).
    { intros g Hne ->. rewrite rows_on_snoc, decide_False by done.
      by rewrite app_nil_r. }
    destruct (Z.ltb_spec (date_of row) d') as [Hlt|Hge].
    + (* a new group in front *)
      split; [|split].
      * simpl. constructor; [by constructor|].
        constructor; [done|]. eapply Forall_impl; [exact Hd'|]. intros; simpl in *; lia.
      * constructor.
        { simpl. rewrite rows_on_snoc, decide_True by done.
          rewrite Hnew; [done|].
          simpl. rewrite not_elem_of_cons. split; [lia|].
          intros Hin. rewrite Forall_forall in Hd'. specialize (Hd' _ Hin). lia. }
        constructor.
        { apply Hkeep; [simpl; lia|done]. }
        rewrite Forall_forall in Hg; rewrite Forall_forall in Hd'. apply Forall_forall. intros g Hin.
        apply Hkeep; [|by apply Hg].
        assert (d' < fst g) by (apply Hd'; by apply list_elem_of_fmap_2). lia.
      * intros k. simpl. rewrite !elem_of_cons. tauto.
    + destruct (Z.eqb_spec (date_of row) d') as [Heq|Hne].
      * (* the row joins the group of its date *)
        split; [|split].
        { simpl. by constructor. }
        { constructor.
          - simpl. rewrite rows_on_snoc, decide_True by done. by rewrite Hrows.
          - rewrite Forall_forall in Hg; rewrite Forall_forall in Hd'. apply Forall_forall. intros g Hin.
            apply Hkeep; [|by apply Hg].
            assert (d' < fst g) by (apply Hd'; by apply list_elem_of_fmap_2). lia. }
        { intros k. simpl. rewrite !elem_of_cons. split; [tauto|].
          intros [->|[->|?]]; auto. }
      * (* the row belongs further down *)
        destruct IH as (IH1 & IH2 & IH3); [done|done| |].
        { intros Hnot. apply Hnew. simpl. rewrite not_elem_of_cons. split; [done|done]. }
        split; [|split].
        { simpl. constructor; [done|].
          apply Forall_forall. intros k [->|Hk]%IH3; [lia|].
          rewrite Forall_forall in Hd'. by apply Hd'. }
        { constructor; [|done]. apply Hkeep; [simpl; lia|done]. }
        { intros k. simpl. rewrite !elem_of_cons, IH3. tauto. }
Qed.

Lemma grouping_step (row : InputDataPoint) (seen : DataFrame)
    (groups : list (Z * list InputDataPoint)) :
  Spec.grouping groups seen ->
  Spec.grouping (group_insert (date_of row) row groups) (seen ++ [row]).
Proof.
  intros (Hs & Hg & Hk).
  destruct (group_insert_inv row seen groups Hs Hg) as (Hs' & Hg' & Hk').
  { intros Hnot. apply rows_on_nil_iff. intros x Hx Hd.
    apply Hnot, Hk. by exists x. }
  split; [done|]. split; [done|].
  intros k. rewrite Hk', Hk. split.
  - intros [->|(x & Hx & Hd)].
    + exists row. split; [|done]. apply elem_of_app. right. by left.
    + exists x. split; [|done]. apply elem_of_app. by left.
  - intros (x & [Hx|Hx%list_elem_of_singleton]%elem_of_app & Hd).
    + right. by exists x.
    + left. by subst.
Qed.

Lemma grouping_fold (df seen : DataFrame) (groups : list (Z * list InputDataPoint)) :
  Spec.grouping groups seen ->
  Spec.grouping
    (fold_left (fun groups row => group_insert (date_of row) row groups) df groups)
    (seen ++ df).
Proof.
  revert seen groups. induction df as [|row df IH]; intros seen groups H; simpl.
  - by rewrite app_nil_r.
  - rewrite (cons_middle row seen df), app_assoc.
    by apply IH, grouping_step.
Qed.

(** [groupby('date')] yields one group per date, in ascending date
    order, holding the rows of that date. *)
Lemma groupby_date_grouping (df : DataFrame) :
  Spec.grouping (groupby_date df) df.
Proof.
  apply (grouping_fold df [] []).
  split; [constructor|]. split; [constructor|].
  intros k. simpl. split; [by intros ?%not_elem_of_nil|].
  by intros (x & ?%not_elem_of_nil & _).
Qed.

Lemma agg_aggregates {pandas : Pandas} (g : Z * list InputDataPoint) :
  Spec.aggregates (agg g) (snd g).
Proof.
  unfold Spec.aggregates, agg, Spec.total.
  cbn [Daily.sentiment_score Daily.engagement_score Daily.wellbeing_index
       Daily.likes_count Daily.comments_count Daily.shares_count
       Daily.time_spent_on_post Daily.night_usage_minutes].
  by rewrite !Zsum_fold_right.
Qed.




End DailyFacts.

(** ** The processing pipeline *)

Module PipelineFacts.
Import Py SortFacts DataProcessor.

Lemma sort_values_Permutation (df : DataFrame) :
  Permutation (sort_values df) df.
Proof. apply stable_sort_Permutation. Qed.

Lemma StronglySorted_True {A} (l : list A) :
  StronglySorted (fun _ _ => True) l.
Proof.
  induction l as [|x l IH]; constructor; [done|].
  by apply Forall_forall.
Qed.

Lemma sort_values_ascending (df : DataFrame) :
  Spec.ascending (sort_values df).
Proof.
  unfold Spec.ascending, sort_values.
  eapply StronglySorted_impl;
    [|apply (stable_sort_sorted _ timestamp (fun a b => eq_refl) (fun _ _ => True)),
            StronglySorted_True].
  intros a b [H|[H _]]; lia.
Qed.

Lemma sort_values_sorted_id (df : DataFrame) :
  Spec.ascending df -> sort_values df = df.
Proof. apply (stable_sort_id _ timestamp (fun a b => eq_refl)). Qed.

Lemma sort_values_nonempty (df : DataFrame) : df <> [] -> sort_values df <> [].
Proof.
  intros Hne Hnil. apply Hne, Permutation_nil.
  by rewrite <- Hnil, sort_values_Permutation.
Qed.

Lemma traverse_dict_models (batch : list InputDataPoint) :
  traverse dict (map Model batch) = Ok batch.
Proof. induction batch as [|row batch IH]; [done|]. simpl. by rewrite IH. Qed.

(** [process_data] on a non-empty batch of models: every analysis runs on
    the batch sorted by timestamp. *)
Lemma process_data_models {pandas : Pandas} (batch : list InputDataPoint) :
  batch <> [] ->
  exists indicators,
    _extract_mental_health_indicators (sort_values batch) = Ok indicators
    /\ process_data (map Model batch)
       = Ok {| daily_data := _calculate_daily_aggregates (sort_values batch);
               mental_health_indicators := indicators;
               engagement_patterns := _analyze_engagement_patterns (sort_values batch);
               topic_analysis := _analyze_topics (sort_values batch);
               wellbeing_metrics := _calculate_wellbeing_metrics (sort_values batch);
               raw_data := sort_values batch |}.
Proof.
  intros Hne. eexists. split.
  - apply IndicatorFacts.extract_indicators_nonempty. by apply sort_values_nonempty.
  - unfold process_data. rewrite traverse_dict_models. simpl.
    destruct batch as [|row batch]; [done|].
    by rewrite (IndicatorFacts.extract_indicators_nonempty _
                  (sort_values_nonempty (row :: batch) Hne)).
Qed.

Lemma extract_indicators_Raise (df : DataFrame) (e : exn) :
  _extract_mental_health_indicators df = Raise e -> e = ZeroDivisionError.
Proof.
  unfold _extract_mental_health_indicators, to_percentage.
  destruct (Z.of_nat (length df) =? 0); simpl; congruence.
Qed.

(** The exceptions [process_data] can raise. *)
Lemma process_data_Raise {pandas : Pandas} (dps : list pyobj) (e : exn) :
  process_data dps = Raise e ->
  e = KeyError "timestamp" \/ e = no_dict_attribute \/ e = ZeroDivisionError.
Proof.
  unfold process_data.
  destruct (traverse dict dps) as [rows|e'] eqn:Hrows; simpl.
  - destruct rows as [|row rows]; [intros [= <-]; by left|].
    destruct (_extract_mental_health_indicators _) as [?|e'] eqn:Hi; simpl; [done|].
    intros [= ->]. right. right. by eapply extract_indicators_Raise.
  - intros [= ->]. apply PyFacts.traverse_Raise in Hrows as ([f|f] & _ & Hx); [done|].
    injection Hx as <-. right. by left.
Qed.

Lemma scatter_series_sorted {pandas : Pandas} (batch : list InputDataPoint) :
  batch <> [] ->
  Spec.scatter_series batch
  = Ok (map Spec.scatter_point (take 5 (sort_values batch))).
Proof.
  intros Hne. unfold Spec.scatter_series.
  destruct (process_data_models batch Hne) as (indicators & _ & ->).
  simpl. f_equal. unfold _analyze_engagement_patterns.
  by rewrite <- fmap_take, map_map.
Qed.

Section Float64.
#[local] Existing Instance Examples.float64.

(** C6, as stated, fails: [process_data] sorts the frame by timestamp
    before anything else, so on a batch that is not in timestamp order
    the scatter points are those of the five earliest records, not of the
    first five records of the input sequence. *)
Lemma scatter_not_batch_order :
  (5 <= length Examples.latest_first)%nat
  /\ take 5 Examples.latest_first = reverse Examples.week
  /\ Spec.scatter_series Examples.latest_first
     = Ok (map Spec.scatter_point (Examples.old_post :: take 4 Examples.week))
  /\ Spec.scatter_series Examples.latest_first
     <> Ok (map Spec.scatter_point (take 5 Examples.latest_first)).
Proof.
  split; [vm_compute; lia|]. split; [reflexivity|].
  split; [vm_compute; reflexivity|vm_compute; discriminate].
Qed.

End Float64.

(** C6, amended: for a batch of at least 5 records the scatter series
    holds exactly the likes, comments and sentiment (rounded to one
    decimal) of the first 5 records of the batch sorted by ascending
    timestamp, one point per record and without aggregation; when the
    batch already is in strictly ascending timestamp order these are its
    first 5 records in batch order. *)
Theorem scatter_series_spec {pandas : Pandas} (batch : list InputDataPoint) :
  (5 <= length batch)%nat ->
  Spec.scatter_series batch
  = Ok (map Spec.scatter_point (take 5 (sort_values batch)))
  /\ length (take 5 (sort_values batch)) = 5%nat
  /\ Permutation (sort_values batch) batch
  /\ Spec.ascending (sort_values batch)
  /\ (Spec.strictly_ascending batch ->
      Spec.scatter_series batch = Ok (map Spec.scatter_point (take 5 batch))).
Proof.
  intros Hlen.
  assert (Hne : batch <> []) by (destruct batch; [simpl in Hlen; lia|done]).
  split; [by apply scatter_series_sorted|].
  split; [rewrite length_take, (Permutation_length (sort_values_Permutation batch)); lia|].
  split; [apply sort_values_Permutation|].
  split; [apply sort_values_ascending|].
  intros Hasc. rewrite scatter_series_sorted by done.
  rewrite sort_values_sorted_id; [done|].
  eapply StronglySorted_impl; [|exact Hasc]. intros; simpl in *; lia.
Qed.

Section Float64.
#[local] Existing Instance Examples.float64.

Lemma scatter_series_witness :
  (5 <= length Examples.week)%nat
  /\ Spec.strictly_ascending Examples.week
  /\ Spec.scatter_series Examples.week
     = Ok (map Spec.scatter_point (take 5 Examples.week)).
Proof.
  assert (H1 : (5 <= length Examples.week)%nat) by (simpl; lia).
  assert (H2 : Spec.strictly_ascending Examples.week).
  { unfold Spec.strictly_ascending, Examples.week.
    repeat first [apply SSorted_nil | apply SSorted_cons
                 | apply Forall_nil_2 | apply Forall_cons_2];
      vm_compute; reflexivity. }
  split; [exact H1|]. split; [exact H2|].
  destruct (scatter_series_spec Examples.week H1) as (_ & _ & _ & _ & Hsorted).
  exact (Hsorted H2).
Defined.

End Float64.

End PipelineFacts.

(** ** Independence of the record order *)

Module OrderFacts.
Import Py SumFacts SortFacts DataProcessor.

Lemma match_count_Permutation (keywords : list string) (df df' : DataFrame) :
  Permutation df df' ->
  Spec.match_count keywords df = Spec.match_count keywords df'.
Proof.
  unfold Spec.match_count.
  induction 1 as [|x l l' _ IH|x y l|l l' l'' _ IH1 _ IH2]; simpl.
  - done.
  - destruct (Spec.mentions keywords x); simpl; by rewrite IH.
  - by destruct (Spec.mentions keywords x), (Spec.mentions keywords y).
  - by rewrite IH1.
Qed.

Lemma all_words_Permutation (df df' : DataFrame) :
  Permutation df df' -> Permutation (all_words df) (all_words df').
Proof.
  unfold all_words.
  induction 1 as [|x l l' _ IH|x y l|l l' l'' _ IH1 _ IH2]; simpl.
  - done.
  - by rewrite IH.
  - rewrite !app_assoc. apply Permutation_app_tail, Permutation_app_comm.
  - by rewrite IH1.
Qed.

Lemma indicators_Permutation (df df' : DataFrame) :
  Permutation df df' ->
  _extract_mental_health_indicators df = _extract_mental_health_indicators df'.
Proof.
  intros H. destruct df as [|row df].
  - by rewrite (Permutation_nil H).
  - assert (Hne : df' <> []).
    { intros ->. symmetry in H. by apply Permutation_nil in H. }
    rewrite (IndicatorFacts.extract_indicators_nonempty (row :: df)) by done.
    rewrite (IndicatorFacts.extract_indicators_nonempty df') by done.
    by rewrite !(match_count_Permutation _ _ _ H), (Permutation_length H).
Qed.

Lemma topics_Permutation (df df' : DataFrame) :
  Permutation df df' -> _analyze_topics df = _analyze_topics df'.
Proof.
  intros H. unfold _analyze_topics.
  by rewrite (TopicFacts.Counter_Permutation _ _ (all_words_Permutation _ _ H)).
Qed.

Lemma summary_sorted {pandas : Pandas} (batch : list InputDataPoint) :
  batch <> [] ->
  exists indicators,
    _extract_mental_health_indicators (sort_values batch) = Ok indicators
    /\ Spec.summary batch
       = Ok (indicators, _analyze_topics (sort_values batch),
             _calculate_wellbeing_metrics (sort_values batch)).
Proof.
  intros Hne.
  destruct (PipelineFacts.process_data_models batch Hne) as (indicators & Hi & Hp).
  exists indicators. split; [done|]. unfold Spec.summary. by rewrite Hp.
Qed.

Lemma distinct_timestamps_inj (df : DataFrame) :
  Spec.distinct_timestamps df ->
  forall a b, a ∈ df -> b ∈ df -> timestamp a = timestamp b -> a = b.
Proof.
  unfold Spec.distinct_timestamps.
  induction df as [|x df IH]; intros Hnd a b Ha Hb Hts.
  - by apply not_elem_of_nil in Ha.
  - simpl in Hnd. apply NoDup_cons in Hnd as [Hx Hnd].
    apply elem_of_cons in Ha as [->|Ha]; apply elem_of_cons in Hb as [->|Hb].
    + done.
    + destruct Hx. rewrite Hts. by apply list_elem_of_fmap_2.
    + destruct Hx. rewrite <- Hts. by apply list_elem_of_fmap_2.
    + by apply IH.
Qed.

(** With pairwise distinct timestamps the sorted frame does not depend on
    the order of the batch at all. *)
Lemma sort_values_Permutation_eq (df df' : DataFrame) :
  Permutation df df' -> Spec.distinct_timestamps df ->
  sort_values df = sort_values df'.
Proof.
  intros H Hnd.
  apply (StronglySorted_unique_strong (fun a b => timestamp a <= timestamp b)).
  - intros a b Ha Hb Hab Hba.
    apply (distinct_timestamps_inj df Hnd); [| |lia].
    + by rewrite <- (PipelineFacts.sort_values_Permutation df).
    + by rewrite H, <- (PipelineFacts.sort_values_Permutation df').
  - apply PipelineFacts.sort_values_ascending.
  - apply PipelineFacts.sort_values_ascending.
  - by rewrite !PipelineFacts.sort_values_Permutation.
Qed.

(** What [process_data] returns for a batch of models is decided by the
    sorted frame. *)
Lemma process_data_sorted_eq {pandas : Pandas} (batch batch' : list InputDataPoint) :
  Permutation batch batch' -> sort_values batch = sort_values batch' ->
  process_data (map Model batch) = process_data (map Model batch').
Proof.
  intros Hp Hs. unfold process_data.
  rewrite !PipelineFacts.traverse_dict_models. cbn [bind].
  destruct batch as [|row batch], batch' as [|row' batch'].
  - done.
  - by apply Permutation_nil_cons in Hp.
  - symmetry in Hp. by apply Permutation_nil_cons in Hp.
  - by rewrite Hs.
Qed.

Section Float64.
#[local] Existing Instance Examples.float64.

(** C10, as stated, fails for the wellbeing summary: float addition is
    not associative.  Of three records whose wellbeing indices are the
    floats nearest to 42.8, 34.8 and 42.4, the first two add up to a sum
    that with the third gives 120, while every other pair added first
    leads to the float just below 120.  So the records give, added up in
    this order, the mean 40 and the status "Stable", and after a rotation
    of the frame a mean just below 40 and the status "Needs Attention". *)
Lemma wellbeing_depends_on_order :
  Permutation Examples.three_posts Examples.three_posts_rotated
  /\ Forall F64.is_double (map wellbeing_index Examples.three_posts)
  /\ F64.add (F64.add Examples.near_42_8 Examples.near_34_8) Examples.near_42_4
     = 120%Q
  /\ F64.add (F64.add Examples.near_42_8 Examples.near_42_4) Examples.near_34_8
     = (8444249301319679 # 70368744177664)%Q
  /\ F64.add (F64.add Examples.near_34_8 Examples.near_42_4) Examples.near_42_8
     = (8444249301319679 # 70368744177664)%Q
  /\ _calculate_wellbeing_metrics Examples.three_posts
     = {| Wellbeing.wellbeing_score := Fin 40;
          Wellbeing.sentiment_score := Fin 50;
          Wellbeing.engagement_score := Fin 50;
          Wellbeing.status := "Stable" |}
  /\ _calculate_wellbeing_metrics Examples.three_posts_rotated
     = {| Wellbeing.wellbeing_score := Fin (5629499534213119 # 140737488355328);
          Wellbeing.sentiment_score := Fin 50;
          Wellbeing.engagement_score := Fin 50;
          Wellbeing.status := "Needs Attention" |}
  /\ _calculate_wellbeing_metrics Examples.three_posts
     <> _calculate_wellbeing_metrics Examples.three_posts_rotated.
Proof.
  split.
  { unfold Examples.three_posts, Examples.three_posts_rotated.
    etransitivity; [apply perm_skip, perm_swap|apply perm_swap]. }
  split; [repeat constructor; by vm_compute|].
  split; [by vm_compute|]. split; [by vm_compute|]. split; [by vm_compute|].
  split; [by vm_compute|]. split; [by vm_compute|].
  by vm_compute.
Qed.

End Float64.

(** C10, amended: the indicator percentages and the topic ranking of a
    permutation of a frame are those of the frame itself.  The wellbeing
    summary is computed in float arithmetic from the records in frame
    order; when the timestamps are pairwise distinct the pipeline, which
    sorts the batch first, analyses the very same sorted frame for every
    order of the batch, and so returns the same result, the summary
    included. *)
Theorem analyses_order_independent {pandas : Pandas} (df df' : DataFrame) :
  Permutation df df' ->
  _extract_mental_health_indicators df = _extract_mental_health_indicators df'
  /\ _analyze_topics df = _analyze_topics df'
  /\ (Spec.distinct_timestamps df ->
      sort_values df = sort_values df'
      /\ process_data (map Model df) = process_data (map Model df')
      /\ Spec.summary df = Spec.summary df').
Proof.
  intros H.
  split; [by apply indicators_Permutation|].
  split; [by apply topics_Permutation|].
  intros Hd.
  pose proof (sort_values_Permutation_eq df df' H Hd) as Hs.
  pose proof (process_data_sorted_eq df df' H Hs) as Hp.
  split; [done|]. split; [done|].
  unfold Spec.summary. by rewrite Hp.
Qed.

Section Float64.
#[local] Existing Instance Examples.float64.

Lemma analyses_order_independent_witness :
  Permutation Examples.week (reverse Examples.week)
  /\ Spec.distinct_timestamps Examples.week
  /\ _analyze_topics Examples.week = _analyze_topics (reverse Examples.week)
  /\ Spec.summary Examples.week = Spec.summary (reverse Examples.week)
  /\ sort_values Examples.week = sort_values (reverse Examples.week).
Proof.
  assert (H : Permutation Examples.week (reverse Examples.week)).
  { symmetry. apply reverse_Permutation. }
  assert (Hd : Spec.distinct_timestamps Examples.week).
  { apply (bool_decide_unpack _). vm_compute. reflexivity. }
  split; [exact H|]. split; [exact Hd|].
  destruct (analyses_order_independent _ _ H) as (_ & Ht & Hsorted).
  destruct (Hsorted Hd) as (Heq & _ & Hs).
  split; [exact Ht|]. split; [exact Hs|exact Heq].
Defined.

End Float64.

End OrderFacts.

(** ** The endpoints *)

Module MainFacts.
Import Py OpenAIService Main.

(** [process_data] calls [dp.dict()] on every entry, but the endpoints
    hand it the plain dicts they have just made with [dp.dict()]: on such
    input it always raises. *)
Lemma process_data_dicts {pandas : Pandas} (dps : list pyobj) :
  DataProcessor.process_data (map to_dict dps)
  = Raise (match dps with
           | [] => KeyError "timestamp"
           | _ => DataProcessor.no_dict_attribute
           end).
Proof. by destruct dps as [|[f|f] dps]. Qed.

Section Endpoints.

Context {pandas : Pandas}.
Variable json_loads : string -> result json.
Variable client : nat -> completion.

Lemma service_dicts (dps : list pyobj) (calls : nat) :
  OpenAIService.analyze_mental_health_data json_loads client (map to_dict dps) calls
  = (Raise (match dps with
            | [] => KeyError "timestamp"
            | _ => DataProcessor.no_dict_attribute
            end), calls).
Proof.
  unfold OpenAIService.analyze_mental_health_data, bindM, lift.
  by rewrite process_data_dicts.
Qed.

(** The service never raises an [HTTPException]. *)
Lemma service_Raise (dps : list pyobj) (calls calls' : nat) (e : exn) :
  OpenAIService.analyze_mental_health_data json_loads client dps calls
  = (Raise e, calls') ->
  forall status detail, e <> HTTPException status detail.
Proof.
  unfold OpenAIService.analyze_mental_health_data, bindM, lift.
  destruct (DataProcessor.process_data dps) as [processed|e'] eqn:Hp.
  - rewrite RecommendationFacts.generate_recommendations_unfold.
    destruct (traverse _ _) as [points|e'] eqn:Ht; [done|].
    intros [= -> _] status detail ->.
    apply PyFacts.traverse_Raise in Ht as ([i rec] & _ & Hx).
    by destruct rec.
  - intros [= -> _] status detail ->.
    by destruct (PipelineFacts.process_data_Raise _ _ Hp) as [?|[?|?]].
Qed.

Lemma batch_loop_fallback (requests : list AnalysisRequest)
    (results : list AnalysisResponse.t) (calls : nat) :
  batch_loop json_loads client requests results calls
  = (Ok (results ++ replicate (length requests) get_fallback_analysis), calls).
Proof.
  revert results. induction requests as [|request requests IH]; intros results.
  - simpl. unfold ret. by rewrite app_nil_r.
  - simpl batch_loop. unfold bindM, try_except at 1.
    rewrite service_dicts. unfold ret at 1. rewrite IH.
    by rewrite <- app_assoc.
Qed.

Lemma analyze_batch_data_fallback (requests : list AnalysisRequest) (calls : nat) :
  analyze_batch_data json_loads client requests calls
  = (Ok (replicate (length requests) get_fallback_analysis), calls).
Proof.
  unfold analyze_batch_data, try_except. by rewrite batch_loop_fallback.
Qed.

End Endpoints.


Section Float64.
#[local] Existing Instance Examples.float64.


End Float64.

(** C9, evaluated at three datasets of which the second is empty: the
    batch endpoint returns three results, but all three are the canonical
    fallback, although the first and third dataset are valid and the
    service computes a different response for them when it is given the
    models themselves. *)
Theorem analyze_batch_three_datasets {pandas : Pandas} :
  analyze_batch_data Examples.mock_loads Examples.mock_three
    Examples.three_datasets 0%nat
  = (Ok [get_fallback_analysis; get_fallback_analysis; get_fallback_analysis], 0%nat)
  /\ exists response,
       OpenAIService.analyze_mental_health_data Examples.mock_loads
         Examples.mock_three (map Model Examples.week) 0%nat
       = (Ok response, 1%nat)
       /\ response <> get_fallback_analysis.
Proof.
  split; [apply analyze_batch_data_fallback|].
  eexists. split; [vm_compute; reflexivity|]. discriminate.
Qed.

End MainFacts.

(** ** Further properties of the processor *)

Module ProcessorFacts.
Import Py SumFacts SortFacts DataProcessor.

(** *** Failure and edge behaviour *)

Lemma traverse_dict_Ok (dps : list pyobj) (rows : list InputDataPoint) :
  traverse dict dps = Ok rows -> dps = map Model rows.
Proof.
  revert rows. induction dps as [|[f|f] dps IH]; intros rows; simpl.
  - by intros [= <-].
  - destruct (traverse dict dps) as [rows'|e]; simpl; [|done].
    intros [= <-]. simpl. by rewrite (IH rows').
  - done.
Qed.

Lemma traverse_dict_Dict (dps : list pyobj) (f : InputDataPoint) :
  In (Dict f) dps -> traverse dict dps = Raise no_dict_attribute.
Proof.
  induction dps as [|[g|g] dps IH]; simpl; [done| |done].
  intros [H|H]; [done|]. by rewrite (IH H).
Qed.

Lemma models_map (dps : list pyobj) :
  Forall Props.is_model dps -> exists rows, dps = map Model rows.
Proof.
  induction 1 as [|[f|f] dps Hm _ [rows ->]]; [by exists []| |done].
  by exists (f :: rows).
Qed.

(** X1: [process_data] succeeds exactly on a non-empty list of models, and
    then works on the batch sorted by timestamp; an empty list raises
    [KeyError] and a list that holds a plain dict raises
    [AttributeError]. *)
Theorem process_data_outcome {pandas : Pandas} (dps : list pyobj) :
  (dps = [] -> process_data dps = Raise (KeyError "timestamp"))
  /\ (forall f, In (Dict f) dps -> process_data dps = Raise no_dict_attribute)
  /\ (dps <> [] -> Forall Props.is_model dps ->
      exists rows processed,
        dps = map Model rows
        /\ process_data dps = Ok processed
        /\ Permutation (raw_data processed) rows
        /\ Spec.ascending (raw_data processed))
  /\ (forall processed, process_data dps = Ok processed ->
      dps <> [] /\ Forall Props.is_model dps).
Proof.
  split; [by intros ->|]. split; [|split].
  - intros f Hf. unfold process_data. by rewrite (traverse_dict_Dict dps f Hf).
  - intros Hne [rows ->]%models_map.
    assert (Hrows : rows <> []) by (by destruct rows).
    destruct (PipelineFacts.process_data_models rows Hrows) as (ind & _ & Hp).
    eexists rows, _. split; [done|]. split; [exact Hp|]. simpl.
    split; [apply PipelineFacts.sort_values_Permutation
           |apply PipelineFacts.sort_values_ascending].
  - intros processed Hp. unfold process_data in Hp.
    destruct (traverse dict dps) as [rows|e] eqn:Hrows; [|done].
    apply traverse_dict_Ok in Hrows as ->.
    destruct rows as [|row rows]; [done|]. split; [done|].
    apply Forall_forall. by intros dp (x & -> & _)%list_elem_of_fmap.
Qed.

Section Float64.
#[local] Existing Instance Examples.float64.

Lemma process_data_outcome_witness :
  map Model Examples.week <> []
  /\ Forall Props.is_model (map Model Examples.week)
  /\ exists rows processed,
       map Model Examples.week = map Model rows
       /\ process_data (map Model Examples.week) = Ok processed
       /\ Permutation (raw_data processed) rows
       /\ Spec.ascending (raw_data processed).
Proof.
  assert (H1 : map Model Examples.week <> []) by discriminate.
  assert (H2 : Forall Props.is_model (map Model Examples.week))
    by (repeat constructor).
  split; [exact H1|]. split; [exact H2|].
  destruct (process_data_outcome (map Model Examples.week)) as (_ & _ & H & _).
  exact (H H1 H2).
Defined.

End Float64.

(** X2: The indicator extraction raises exactly on the empty frame, and
    what it raises there is [ZeroDivisionError]. *)
Theorem empty_frame_behaviour (df : DataFrame) (e : exn) :
  _extract_mental_health_indicators df = Raise e
  <-> df = [] /\ e = ZeroDivisionError.
Proof.
  split.
  - intros H. destruct df as [|row df].
    + split; [done|]. by injection H.
    + by rewrite IndicatorFacts.extract_indicators_nonempty in H.
  - by intros [-> ->].
Qed.

(** *** The status ladder is monotone *)

Lemma status_of_cases (x : pyfloat) :
  status_of x = "Excellent" /\ float_ge x 80 = true
  \/ status_of x = "Good" /\ float_ge x 80 = false /\ float_ge x 60 = true
  \/ status_of x = "Stable" /\ float_ge x 60 = false /\ float_ge x 40 = true
  \/ status_of x = "Needs Attention" /\ float_ge x 40 = false.
Proof.
  unfold status_of.
  destruct (float_ge x 80); [by left|].
  destruct (float_ge x 60); [right; by left|].
  destruct (float_ge x 40); [right; right; by left|].
  by right; right; right.
Qed.

Lemma float_ge_mono (x y : pyfloat) (c : Q) :
  Props.float_le x y -> float_ge x c = true -> float_ge y c = true.
Proof.
  destruct x as [a|], y as [b|]; simpl; try done.
  intros Hab Ha%Qle_bool_iff. apply Qle_bool_iff. lra.
Qed.

Lemma band_status_of (x : pyfloat) :
  Props.band (status_of x)
  = if float_ge x 80 then 3%nat
    else if float_ge x 60 then 2%nat
    else if float_ge x 40 then 1%nat else 0%nat.
Proof.
  unfold status_of.
  by destruct (float_ge x 80), (float_ge x 60), (float_ge x 40).
Qed.

(** X3: A higher mean wellbeing index never gives a lower status band, the
    status is always one of the four labels, and [NaN] gets the lowest
    one. *)
Theorem status_of_monotone (x y : pyfloat) :
  Props.float_le x y ->
  (Props.band (status_of x) <= Props.band (status_of y))%nat
  /\ In (status_of x) ["Excellent"; "Good"; "Stable"; "Needs Attention"]
  /\ status_of NaN = "Needs Attention".
Proof.
  intros Hle. split; [|split; [|done]].
  - rewrite !band_status_of.
    destruct (float_ge x 80) eqn:H80.
    { rewrite (float_ge_mono x y 80 Hle H80). lia. }
    destruct (float_ge x 60) eqn:H60.
    { rewrite (float_ge_mono x y 60 Hle H60). destruct (float_ge y 80); lia. }
    destruct (float_ge x 40) eqn:H40; [|lia].
    rewrite (float_ge_mono x y 40 Hle H40).
    destruct (float_ge y 80), (float_ge y 60); lia.
  - destruct (status_of_cases x) as [[-> _]|[(-> & _)|[(-> & _)|[-> _]]]];
      simpl; tauto.
Qed.

Lemma status_of_monotone_witness :
  Props.float_le (Fin (5999 # 100)) (Fin 60)
  /\ (Props.band (status_of (Fin (5999 # 100))) <= Props.band (status_of (Fin 60)))%nat.
Proof.
  assert (H : Props.float_le (Fin (5999 # 100)) (Fin 60)) by (simpl; lra).
  split; [exact H|].
  apply (status_of_monotone (Fin (5999 # 100)) (Fin 60) H).
Defined.

End ProcessorFacts.

(** ** Further properties of the aggregation *)

Module AggregateFacts.
Import Py SumFacts DataProcessor.

Lemma total_app (l1 l2 : list Z) :
  Spec.total (l1 ++ l2) = Spec.total l1 + Spec.total l2.
Proof.
  unfold Spec.total. induction l1 as [|x l1 IH]; simpl; [done|]. rewrite IH. lia.
Qed.

Lemma total_Permutation (l1 l2 : list Z) :
  Permutation l1 l2 -> Spec.total l1 = Spec.total l2.
Proof.
  unfold Spec.total.
  induction 1 as [|x l l' _ IH|x y l|l l' l'' _ IH1 _ IH2]; simpl; lia.
Qed.

(** Inserting a row adds it to the rows held by the groups. *)
Lemma group_insert_concat (d : Z) (row : InputDataPoint)
    (groups : list (Z * list InputDataPoint)) :
  Permutation (concat (map snd (group_insert d row groups)))
              (row :: concat (map snd groups)).
Proof.
  induction groups as [|[d' rows] groups IH]; simpl; [done|].
  destruct (d <? d'); [done|]. destruct (d =? d'); simpl.
  - rewrite <- app_assoc. simpl. by rewrite <- Permutation_middle.
  - rewrite IH. by rewrite <- Permutation_middle.
Qed.

Lemma groupby_fold_concat (df : DataFrame) (groups : list (Z * list InputDataPoint)) :
  Permutation
    (concat (map snd
       (fold_left (fun groups row => group_insert (date_of row) row groups) df groups)))
    (concat (map snd groups) ++ df).
Proof.
  revert groups. induction df as [|row df IH]; intros groups; simpl.
  - by rewrite app_nil_r.
  - rewrite IH, group_insert_concat. by rewrite <- Permutation_middle.
Qed.

(** The groups partition the frame: every row is in exactly one group. *)
Lemma groupby_date_concat (df : DataFrame) :
  Permutation (concat (map snd (groupby_date df))) df.
Proof. apply (groupby_fold_concat df []). Qed.

(** Each group holds the rows of its date, and at least one. *)
Lemma group_rows (df : DataFrame) (g : Z * list InputDataPoint) :
  g ∈ groupby_date df ->
  snd g = Spec.rows_on (fst g) df /\ snd g <> [].
Proof.
  intros Hin. destruct (DailyFacts.groupby_date_grouping df) as (_ & Hg & Hk).
  rewrite Forall_forall in Hg. specialize (Hg g Hin). split; [done|].
  rewrite Hg. intros Hnil.
  assert (Hkey : fst g ∈ map fst (groupby_date df)) by by apply list_elem_of_fmap_2.
  apply Hk in Hkey as (x & Hx & Hd).
  by apply (proj1 (DailyFacts.rows_on_nil_iff (fst g) df) Hnil x).
Qed.

(** Summing a column group by group gives the sum over all the rows. *)
Lemma total_by_group (col : InputDataPoint -> Z)
    (groups : list (Z * list InputDataPoint)) :
  Spec.total (map (fun g => Zsum (map col (snd g))) groups)
  = Spec.total (map col (concat (map snd groups))).
Proof.
  induction groups as [|g groups IH]; simpl; [done|].
  rewrite map_app, total_app, <- IH, Zsum_fold_right. done.
Qed.

Lemma total_daily (col : InputDataPoint -> Z) (df : DataFrame) :
  Spec.total (map (fun g => Zsum (map col (snd g))) (groupby_date df))
  = Spec.total (map col df).
Proof.
  rewrite total_by_group. apply total_Permutation, Permutation_map,
    groupby_date_concat.
Qed.

Lemma groups_length (groups : list (Z * list InputDataPoint)) :
  Forall (fun g => snd g <> []) groups ->
  (length groups <= length (concat (map snd groups)))%nat.
Proof.
  induction 1 as [|[d rows] groups Hne _ IH]; simpl; [done|].
  rewrite length_app. destruct rows; [done|]. simpl in *. lia.
Qed.

(** X4: Nothing is lost or counted twice by the daily aggregation: for each of
    the five summed columns the daily sums add up to the sum over the
    whole frame; and there are at most as many aggregates as records,
    none exactly when the frame is empty. *)
Theorem daily_aggregates_conserve {pandas : Pandas} (df : DataFrame) :
  Spec.total (map Daily.likes_count (_calculate_daily_aggregates df))
  = Spec.total (map likes_count df)
  /\ Spec.total (map Daily.comments_count (_calculate_daily_aggregates df))
     = Spec.total (map comments_count df)
  /\ Spec.total (map Daily.shares_count (_calculate_daily_aggregates df))
     = Spec.total (map shares_count df)
  /\ Spec.total (map Daily.time_spent_on_post (_calculate_daily_aggregates df))
     = Spec.total (map time_spent_on_post df)
  /\ Spec.total (map Daily.night_usage_minutes (_calculate_daily_aggregates df))
     = Spec.total (map night_usage_minutes df)
  /\ (length (_calculate_daily_aggregates df) <= length df)%nat
  /\ (_calculate_daily_aggregates df = [] <-> df = []).
Proof.
  unfold _calculate_daily_aggregates. rewrite !map_map. simpl.
  rewrite !total_daily. repeat (split; [done|]).
  assert (Hne : Forall (fun g : Z * list InputDataPoint => snd g <> [])
                       (groupby_date df)).
  { apply Forall_forall. intros g Hg. by apply (group_rows df). }
  split.
  - rewrite length_map, <- (Permutation_length (groupby_date_concat df)).
    by apply groups_length.
  - split.
    + intros H. apply map_eq_nil in H.
      pose proof (groupby_date_concat df) as Hp. rewrite H in Hp.
      simpl in Hp. by apply Permutation_nil in Hp.
    + by intros ->.
Qed.

End AggregateFacts.

(** ** Tokens, keywords and letter case *)

Module TextFacts.
Import Py PyFacts DataProcessor.

(** Every run is a contiguous piece of the text it was cut from. *)
Lemma runs_go_substring (p : ascii -> bool) (cur s w : string) :
  w ∈ runs_go p cur s -> exists a b, cur +:+ s = a +:+ w +:+ b.
Proof.
  revert cur. induction s as [|c s IH]; intros cur; simpl.
  - destruct (decide (cur = "")); [by intros ?%not_elem_of_nil|].
    intros ->%list_elem_of_singleton. exists "", "". by rewrite sapp_nil_r.
  - destruct (p c).
    + intros (a & b & H)%IH. exists a, b. by rewrite <- H, sapp_assoc.
    + intros [Hw|Hw]%elem_of_app.
      * destruct (decide (cur = "")); [by apply not_elem_of_nil in Hw|].
        apply list_elem_of_singleton in Hw as ->. by exists "", (String c s).
      * apply IH in Hw as (a & b & H). rewrite sapp_nil_l in H.
        exists (cur +:+ String c a), b.
        by rewrite sapp_assoc, sapp_cons, <- H.
Qed.

(** A token of a record occurs in the record's lower-cased text. *)
Lemma row_word_contained (row : InputDataPoint) (w : string) :
  w ∈ row_words row -> contains w (Spec.record_text row) = true.
Proof.
  unfold row_words, row_text. rewrite TokenFacts.split_clean_text.
  intros (a & b & H)%runs_go_substring. rewrite sapp_nil_l in H.
  apply contains_spec. by exists a, b.
Qed.

Lemma count_token_pos (w : string) (words : list string) :
  (0 < Spec.count_token w words)%nat -> w ∈ words.
Proof.
  unfold Spec.count_token. intros H.
  destruct (filter (fun x => x = w) words) as [|x l] eqn:E; [simpl in H; lia|].
  assert (Hx : x ∈ filter (fun x => x = w) words) by (rewrite E; by left).
  by apply list_elem_of_filter in Hx as [-> ?].
Qed.

(** X7: The two text analyses agree where their word lists overlap: a word
    that the topic analysis reports and that is also a trigger of an
    indicator category occurs as a token of some record, and that record
    counts towards the category, so the category's count is at least 1. *)
Theorem topic_word_counts_for_category
    (df : DataFrame) (keywords : list string) (w : string) (n : nat) :
  In (w, n) (_analyze_topics df) -> In w keywords ->
  exists row,
    In row df /\ In w (row_words row)
    /\ Spec.mentions keywords row = true
    /\ (1 <= Spec.match_count keywords df)%nat.
Proof.
  rewrite TopicFacts.analyze_topics_unfold.
  intros Hin%list_elem_of_In%subseteq_take Hw.
  rewrite (TopicFacts.sorted_reverse_Permutation _) in Hin.
  apply list_elem_of_fmap in Hin as (w' & [= <- ->] & Hocc).
  apply list_elem_of_filter in Hocc as [Hocc _].
  apply count_token_pos in Hocc. unfold all_words in Hocc.
  apply list_elem_of_In, in_flat_map in Hocc as (row & Hrow & Hword).
  assert (Hm : Spec.mentions keywords row = true).
  { unfold Spec.mentions. apply existsb_exists. exists w. split; [done|].
    by apply row_word_contained, list_elem_of_In. }
  exists row. repeat split; [done..|].
  unfold Spec.match_count.
  assert (Hf : In row (List.filter (Spec.mentions keywords) df))
    by by apply filter_In.
  destruct (List.filter (Spec.mentions keywords) df); [done|simpl; lia].
Qed.

Lemma topic_word_counts_for_category_witness :
  In ("deadline", 2%nat) (_analyze_topics Examples.week)
  /\ In "deadline" stress_keywords
  /\ (1 <= Spec.match_count stress_keywords Examples.week)%nat.
Proof.
  assert (H1 : In ("deadline", 2%nat) (_analyze_topics Examples.week))
    by (vm_compute; tauto).
  assert (H2 : In "deadline" stress_keywords) by (vm_compute; tauto).
  split; [exact H1|]. split; [exact H2|].
  destruct (topic_word_counts_for_category Examples.week stress_keywords
              "deadline" 2%nat H1 H2) as (row & _ & _ & _ & H).
  exact H.
Defined.

(** X8: Both text analyses look at the lower-cased text only: two records
    whose captions and hashtags differ in letter case alone yield the same
    tokens and match the same categories. *)
Theorem text_analyses_ignore_case (row row' : InputDataPoint) :
  lower (caption_text row) = lower (caption_text row') ->
  lower (hashtags row) = lower (hashtags row') ->
  row_words row = row_words row'
  /\ forall keywords,
       any_keyword keywords (combined_text row)
       = any_keyword keywords (combined_text row').
Proof.
  intros Hc Hh. split.
  - unfold row_words, clean_text, row_text. by rewrite !lower_app, Hc, Hh.
  - intros keywords. unfold combined_text. by rewrite Hc, Hh.
Qed.

Lemma text_analyses_ignore_case_witness :
  lower "Deadline DAY" = lower "deadline day"
  /\ lower "#Work" = lower "#WORK"
  /\ row_words (Examples.post "a" 0 "Deadline DAY" "#Work" 1 1 1 1)
     = row_words (Examples.post "b" 0 "deadline day" "#WORK" 1 1 1 1).
Proof.
  split; [reflexivity|]. split; [reflexivity|].
  apply (text_analyses_ignore_case
           (Examples.post "a" 0 "Deadline DAY" "#Work" 1 1 1 1)
           (Examples.post "b" 0 "deadline day" "#WORK" 1 1 1 1));
    reflexivity.
Defined.

End TextFacts.

(** ** Chart values *)

Module ChartFacts.
Import Py SumFacts DataProcessor.

Local Open Scope Q_scope.

Lemma gauge_of_nonempty {pandas : Pandas} (batch : list InputDataPoint) :
  batch <> [] ->
  Props.gauge_of batch
  = Ok {| ChartData.chart_type := "gauge";
          ChartData.title := "Overall Wellbeing Score";
          ChartData.data := [];
          ChartData.value :=
            Some (round1f (Series_mean (map wellbeing_index (sort_values batch))));
          ChartData.range := Some (0, 100);
          ChartData.status :=
            Some (status_of
                    (Series_mean (map wellbeing_index (sort_values batch)))) |}.
Proof.
  intros Hne.
  destruct (PipelineFacts.process_data_models batch Hne) as (ind & _ & Hp).
  unfold Props.gauge_of. by rewrite Hp.
Qed.

(** X10: A gauge that the pipeline computes and that reads 76.0 has the status
    "Good"; the canonical fallback response reads 76.0 with the status
    "Stable", a pair the pipeline never produces. *)
Theorem fallback_gauge_not_computed {pandas : Pandas}
    (batch : list InputDataPoint) (v : Q) (g : ChartData.t) :
  Props.gauge_of batch = Ok g ->
  ChartData.value g = Some (Fin v) -> v == 76 ->
  ChartData.status g = Some "Good"
  /\ ChartData.value (AnalysisResponse.wellbeing_index Main.get_fallback_analysis)
     = Some (Fin 76)
  /\ ChartData.status (AnalysisResponse.wellbeing_index Main.get_fallback_analysis)
     = Some "Stable".
Proof.
  intros Hg Hv H76. split; [|done].
  assert (Hne : batch <> []) by (by intros ->).
  rewrite gauge_of_nonempty in Hg by done. injection Hg as <-.
  cbn [ChartData.value ChartData.status] in *.
  destruct (Series_mean (map wellbeing_index (sort_values batch))) as [q|];
    [|done].
  cbn [round1f] in Hv. injection Hv as Hv.
  destruct (RoundFacts.round1_near q) as [H1 H2].
  rewrite Hv, H76 in H1, H2.
  f_equal. apply WellbeingFacts.status_of_ladder; lra.
Qed.

Section Float64.
#[local] Existing Instance Examples.float64.

Lemma fallback_gauge_not_computed_witness :
  exists g v,
    Props.gauge_of [Examples.post "p" 0 "x" "y" 1 1 1 76] = Ok g
    /\ ChartData.value g = Some (Fin v)
    /\ v == 76
    /\ ChartData.status g = Some "Good".
Proof.
  eexists _, (760 # 10).
  assert (H1 : Props.gauge_of [Examples.post "p" 0 "x" "y" 1 1 1 76]
               = Ok {| ChartData.chart_type := "gauge";
                       ChartData.title := "Overall Wellbeing Score";
                       ChartData.data := [];
                       ChartData.value := Some (Fin (760 # 10));
                       ChartData.range := Some (0, 100);
                       ChartData.status := Some "Good" |})
    by (vm_compute; reflexivity).
  assert (H2 : 760 # 10 == 76) by reflexivity.
  split; [exact H1|]. split; [reflexivity|]. split; [exact H2|].
  apply (fallback_gauge_not_computed _ (760 # 10) _ H1 eq_refl H2).
Defined.

End Float64.

(** X11: The pie chart of a non-empty batch has exactly three points, for
    Anxiety, Stress and Depression in this order; each shows the float
    percentage of the records of the batch that match the category,
    whatever the order of the batch, rounded to one decimal, which is a
    value between 0 and 100. *)
Theorem pie_of_batch {pandas : Pandas} (batch : list InputDataPoint) :
  batch <> [] ->
  Props.pie_of batch
  = Ok (chart "pie" "Distribution of Anxiety/Stress/Depression Indicators"
          [Main.category_point "Anxiety"
             (round1 (Spec.float_percentage
                        (Spec.match_count anxiety_keywords batch) (length batch)));
           Main.category_point "Stress"
             (round1 (Spec.float_percentage
                        (Spec.match_count stress_keywords batch) (length batch)));
           Main.category_point "Depression"
             (round1 (Spec.float_percentage
                        (Spec.match_count depression_keywords batch) (length batch)))])
  /\ Forall (fun keywords =>
               0 <= round1 (Spec.float_percentage
                              (Spec.match_count keywords batch) (length batch))
               /\ round1 (Spec.float_percentage
                            (Spec.match_count keywords batch) (length batch)) <= 100)
            [anxiety_keywords; stress_keywords; depression_keywords].
Proof.
  intros Hne.
  destruct (PipelineFacts.process_data_models batch Hne) as (ind & Hi & Hp).
  pose proof (PipelineFacts.sort_values_Permutation batch) as Hperm.
  rewrite (IndicatorFacts.extract_indicators_nonempty _
             (PipelineFacts.sort_values_nonempty batch Hne)) in Hi.
  rewrite !(OrderFacts.match_count_Permutation _ _ _ Hperm),
          (Permutation_length Hperm) in Hi.
  injection Hi as <-.
  split; [unfold Props.pie_of; by rewrite Hp|].
  assert (Hr : forall keywords,
             0 <= round1 (Spec.float_percentage
                            (Spec.match_count keywords batch) (length batch))
             /\ round1 (Spec.float_percentage
                          (Spec.match_count keywords batch) (length batch)) <= 100).
  { intros keywords.
    destruct (IndicatorFacts.float_percentage_bounds
                (Spec.match_count keywords batch) (length batch))
      as (H0 & H100 & _).
    - apply IndicatorFacts.match_count_le.
    - destruct batch; [done|simpl; lia].
    - by apply (RoundFacts.round1_within 0 100). }
  repeat constructor; apply Hr.
Qed.

Section Float64.
#[local] Existing Instance Examples.float64.

Lemma pie_of_batch_witness :
  Examples.twenty_three_of_80 <> []
  /\ Spec.match_count anxiety_keywords Examples.twenty_three_of_80 = 23%nat
  /\ length Examples.twenty_three_of_80 = 80%nat
  /\ round1 (Spec.float_percentage 23 80) = 287 # 10
  /\ Props.pie_of Examples.twenty_three_of_80
     = Ok (chart "pie" "Distribution of Anxiety/Stress/Depression Indicators"
             [Main.category_point "Anxiety"
                (round1 (Spec.float_percentage
                           (Spec.match_count anxiety_keywords
                              Examples.twenty_three_of_80)
                           (length Examples.twenty_three_of_80)));
              Main.category_point "Stress"
                (round1 (Spec.float_percentage
                           (Spec.match_count stress_keywords
                              Examples.twenty_three_of_80)
                           (length Examples.twenty_three_of_80)));
              Main.category_point "Depression"
                (round1 (Spec.float_percentage
                           (Spec.match_count depression_keywords
                              Examples.twenty_three_of_80)
                           (length Examples.twenty_three_of_80)))]).
Proof.
  assert (H : Examples.twenty_three_of_80 <> []) by discriminate.
  split; [exact H|]. split; [by vm_compute|]. split; [by vm_compute|].
  split; [by vm_compute|].
  destruct (pie_of_batch Examples.twenty_three_of_80 H) as [Hpie _].
  exact Hpie.
Defined.

End Float64.

(** X12: The scatter series of any non-empty batch, also one with fewer than
    5 records: it has min(5, n) points, they are the points of records of
    the batch in ascending timestamp order, and no record left out has an
    earlier timestamp than a record shown. *)
Theorem scatter_series_earliest {pandas : Pandas} (batch : list InputDataPoint) :
  batch <> [] ->
  exists rows,
    Spec.scatter_series batch = Ok (map Spec.scatter_point rows)
    /\ length rows = Nat.min 5 (length batch)
    /\ Spec.ascending rows
    /\ (forall row, In row rows -> In row batch)
    /\ (forall row other,
          In row rows -> In other batch -> ~ In other rows ->
          (timestamp row <= timestamp other)%Z).
Proof.
  intros Hne. exists (take 5 (sort_values batch)).
  pose proof (PipelineFacts.sort_values_Permutation batch) as Hperm.
  pose proof (PipelineFacts.sort_values_ascending batch) as Hasc.
  split; [by apply PipelineFacts.scatter_series_sorted|].
  split; [by rewrite length_take, (Permutation_length Hperm)|].
  split; [by apply SortFacts.StronglySorted_take|].
  split.
  - intros row Hrow%list_elem_of_In%subseteq_take.
    apply list_elem_of_In. by rewrite <- Hperm.
  - intros row other Hrow%list_elem_of_In Hother%list_elem_of_In Hnot.
    rewrite <- Hperm, <- (take_drop 5 (sort_values batch)) in Hother.
    apply elem_of_app in Hother as [Hin|Hin].
    + destruct Hnot. by apply list_elem_of_In.
    + unfold Spec.ascending in Hasc.
      rewrite <- (take_drop 5 (sort_values batch)) in Hasc.
      by apply (StronglySorted_app_1_elem_of _ _ _ _ _ Hasc).
Qed.

Section Float64.
#[local] Existing Instance Examples.float64.

Lemma scatter_series_earliest_witness :
  [Examples.old_post; Examples.first_post] <> []
  /\ exists rows,
       Spec.scatter_series [Examples.old_post; Examples.first_post]
       = Ok (map Spec.scatter_point rows)
       /\ length rows = 2%nat.
Proof.
  assert (H : [Examples.old_post; Examples.first_post] <> []) by discriminate.
  split; [exact H|].
  destruct (scatter_series_earliest _ H) as (rows & H1 & H2 & _).
  exists rows. split; [exact H1|exact H2].
Defined.

End Float64.


Section Float64.
#[local] Existing Instance Examples.float64.


End Float64.

End ChartFacts.

(** ** The analysis service *)

Module ServiceFacts.
Import Py OpenAIService.

Section Service.

Context {pandas : Pandas}.
Variable json_loads : string -> result json.
Variable client : nat -> completion.

Lemma traverse_cards (texts : list string) (k : nat) :
  traverse (fun p => recommendation_point (fst p) (snd p))
           (imap (fun i => pair (k + i)%nat) (map JString texts))
  = Ok (imap (fun i t => Main.text_point (Z.of_nat (k + i) + 1) t) texts).
Proof.
  revert k. induction texts as [|t texts IH]; intros k; [done|].
  cbn [map imap traverse bind fst snd recommendation_point].
  rewrite (imap_ext _ (fun i => pair (S k + i)%nat) (map JString texts))
    by (intros; simpl; f_equal; lia).
  rewrite IH. cbn [bind]. f_equal. f_equal.
  apply imap_ext. intros i x _. simpl. do 3 f_equal. lia.
Qed.

Lemma traverse_cards_from_1 (texts : list string) :
  traverse (fun p => recommendation_point (fst p) (snd p))
           (imap pair (map JString texts))
  = Ok (Props.cards texts).
Proof. exact (traverse_cards texts 0). Qed.

(** The service once the data has been processed. *)
Lemma service_processed (dps : list pyobj) (processed : DataProcessor.processed_data)
    (calls : nat) :
  DataProcessor.process_data dps = Ok processed ->
  exists recs,
    _generate_recommendations json_loads client calls = (Ok recs, S calls)
    /\ OpenAIService.analyze_mental_health_data json_loads client dps calls
       = (bind (traverse (fun p => recommendation_point (fst p) (snd p))
                         (imap pair recs))
               (fun points =>
                  Ok (Props.response_of
                        (DataProcessor.prepare_chart_data processed) points)),
          S calls).
Proof.
  intros Hp. eexists. split.
  - apply RecommendationFacts.generate_recommendations_unfold.
  - unfold OpenAIService.analyze_mental_health_data, bindM, lift. rewrite Hp.
    rewrite RecommendationFacts.generate_recommendations_unfold.
    by destruct (traverse _ _).
Qed.

End Service.

(** X14: Whenever the recommendation flow hands back a list of strings, and in
    particular its canned list, the service succeeds after exactly one
    generator call; the five analytic charts are those computed from the
    data and the recommendation chart holds one card per string, numbered
    from 1.  With the canned list that chart is the recommendation chart
    of the canonical fallback response. *)
Theorem service_with_text_recommendations {pandas : Pandas}
    (json_loads : string -> result json) (client : nat -> completion)
    (dps : list pyobj) (processed : DataProcessor.processed_data)
    (texts : list string) (calls : nat) :
  DataProcessor.process_data dps = Ok processed ->
  fst (_generate_recommendations json_loads client calls) = Ok (map JString texts) ->
  OpenAIService.analyze_mental_health_data json_loads client dps calls
  = (Ok (Props.response_of (DataProcessor.prepare_chart_data processed)
                           (Props.cards texts)), S calls)
  /\ (texts = Props.fallback_texts ->
      DataProcessor.chart "text_cards" "Personalized Suggestions" (Props.cards texts)
      = AnalysisResponse.recommendations Main.get_fallback_analysis).
Proof.
  intros Hp Hrecs. split; [|by intros ->].
  destruct (service_processed json_loads client dps processed calls Hp)
    as (recs & Hg & ->).
  rewrite Hg in Hrecs. injection Hrecs as ->.
  by rewrite traverse_cards_from_1.
Qed.

Section Float64.
#[local] Existing Instance Examples.float64.

Lemma service_with_text_recommendations_witness :
  exists processed,
    DataProcessor.process_data (map Model Examples.week) = Ok processed
    /\ fst (_generate_recommendations Examples.mock_loads Examples.mock_three 0%nat)
       = Ok (map JString Props.fallback_texts)
    /\ OpenAIService.analyze_mental_health_data Examples.mock_loads
         Examples.mock_three (map Model Examples.week) 0%nat
       = (Ok (Props.response_of (DataProcessor.prepare_chart_data processed)
                                (Props.cards Props.fallback_texts)), 1%nat).
Proof.
  destruct (PipelineFacts.process_data_models Examples.week) as (ind & _ & Hp);
    [discriminate|].
  eexists. split; [exact Hp|].
  assert (Hr : fst (_generate_recommendations Examples.mock_loads
                      Examples.mock_three 0%nat)
               = Ok (map JString Props.fallback_texts)) by reflexivity.
  split; [exact Hr|].
  apply (service_with_text_recommendations _ _ _ _ _ _ Hp Hr).
Defined.

End Float64.

(** X15: The service calls the generator exactly once when the data can be
    processed, and not at all when [process_data] raises, in which case it
    passes that exception on. *)
Theorem service_generator_calls {pandas : Pandas}
    (json_loads : string -> result json) (client : nat -> completion)
    (dps : list pyobj) (calls : nat) :
  (forall processed,
     DataProcessor.process_data dps = Ok processed ->
     snd (OpenAIService.analyze_mental_health_data json_loads client dps calls)
     = S calls)
  /\ (forall e,
       DataProcessor.process_data dps = Raise e ->
       OpenAIService.analyze_mental_health_data json_loads client dps calls
       = (Raise e, calls)).
Proof.
  split.
  - intros processed Hp.
    by destruct (service_processed json_loads client dps processed calls Hp)
      as (recs & _ & ->).
  - intros e Hp.
    unfold OpenAIService.analyze_mental_health_data, bindM, lift. by rewrite Hp.
Qed.

Section Float64.
#[local] Existing Instance Examples.float64.

Lemma service_generator_calls_witness :
  DataProcessor.process_data [] = Raise (KeyError "timestamp")
  /\ OpenAIService.analyze_mental_health_data Examples.mock_loads
       Examples.mock_five [] 7%nat
     = (Raise (KeyError "timestamp"), 7%nat).
Proof.
  assert (H : DataProcessor.process_data [] = Raise (KeyError "timestamp"))
    by reflexivity.
  split; [exact H|].
  apply (service_generator_calls Examples.mock_loads Examples.mock_five [] 7%nat).
  exact H.
Defined.

End Float64.

(** X16: The analytic charts do not depend on the generator: two successful
    runs of the service on the same data, with whatever generators and
    parsers, agree on all charts but the recommendations. *)
Theorem service_charts_independent {pandas : Pandas}
    (json_loads json_loads' : string -> result json)
    (client client' : nat -> completion)
    (dps : list pyobj) (calls calls' : nat) (r r' : AnalysisResponse.t) :
  fst (OpenAIService.analyze_mental_health_data json_loads client dps calls) = Ok r ->
  fst (OpenAIService.analyze_mental_health_data json_loads' client' dps calls') = Ok r' ->
  AnalysisResponse.emotional_trend r = AnalysisResponse.emotional_trend r'
  /\ AnalysisResponse.mental_health_categories r
     = AnalysisResponse.mental_health_categories r'
  /\ AnalysisResponse.engagement_vs_mood r = AnalysisResponse.engagement_vs_mood r'
  /\ AnalysisResponse.topics_discussed r = AnalysisResponse.topics_discussed r'
  /\ AnalysisResponse.wellbeing_index r = AnalysisResponse.wellbeing_index r'.
Proof.
  destruct (DataProcessor.process_data dps) as [processed|e] eqn:Hp.
  - destruct (service_processed json_loads client dps processed calls Hp)
      as (recs & _ & ->).
    destruct (service_processed json_loads' client' dps processed calls' Hp)
      as (recs' & _ & ->).
    cbn [fst].
    destruct (traverse _ (imap pair recs)) as [points|?]; [|done].
    destruct (traverse _ (imap pair recs')) as [points'|?]; [|done].
    by intros [= <-] [= <-].
  - unfold OpenAIService.analyze_mental_health_data, bindM, lift.
    by rewrite Hp.
Qed.

Section Float64.
#[local] Existing Instance Examples.float64.

Lemma service_charts_independent_witness :
  exists r r',
    fst (OpenAIService.analyze_mental_health_data Examples.mock_loads
           Examples.mock_three (map Model Examples.week) 0%nat) = Ok r
    /\ fst (OpenAIService.analyze_mental_health_data
              (fun _ => Raise JSONDecodeError) (fun _ => Completion None)
              (map Model Examples.week) 3%nat) = Ok r'
    /\ AnalysisResponse.wellbeing_index r = AnalysisResponse.wellbeing_index r'.
Proof.
  eexists _, _.
  assert (H1 : fst (OpenAIService.analyze_mental_health_data Examples.mock_loads
                      Examples.mock_three (map Model Examples.week) 0%nat)
               = Ok _) by (vm_compute; reflexivity).
  assert (H2 : fst (OpenAIService.analyze_mental_health_data
                      (fun _ => Raise JSONDecodeError) (fun _ => Completion None)
                      (map Model Examples.week) 3%nat)
               = Ok _) by (vm_compute; reflexivity).
  split; [exact H1|]. split; [exact H2|].
  apply (service_charts_independent _ _ _ _ _ _ _ _ _ H1 H2).
Defined.

End Float64.

End ServiceFacts.

(** ** What the endpoints return *)

Module EndpointFacts.
Import Py OpenAIService Main.

(** X17: [POST /analyze] as the code stands: a request with at least 5 data
    points always gets the canonical fallback response, whatever its
    data; the generator is never called, neither for such a request nor
    for a rejected one. *)
Theorem analyze_returns_fallback {pandas : Pandas}
    (json_loads : string -> result json) (client : nat -> completion)
    (request : AnalysisRequest) (calls : nat) :
  ((5 <= length (data_points request))%nat ->
   Main.analyze_mental_health_data json_loads client request calls
   = (Ok get_fallback_analysis, calls))
  /\ snd (Main.analyze_mental_health_data json_loads client request calls) = calls.
Proof.
  unfold Main.analyze_mental_health_data, try_except.
  destruct (data_points request) as [|dp dps] eqn:E.
  { split; [simpl; lia|done]. }
  destruct (Nat.ltb_spec (length (dp :: dps)) 5) as [Hlt|Hge].
  { split; [lia|done]. }
  by rewrite (MainFacts.service_dicts json_loads client (dp :: dps) calls).
Qed.

Section Float64.
#[local] Existing Instance Examples.float64.

Lemma analyze_returns_fallback_witness :
  (5 <= length (data_points (Examples.request_of Examples.week)))%nat
  /\ Main.analyze_mental_health_data Examples.mock_loads Examples.mock_five
       (Examples.request_of Examples.week) 0%nat
     = (Ok get_fallback_analysis, 0%nat).
Proof.
  assert (H : (5 <= length (data_points (Examples.request_of Examples.week)))%nat)
    by (simpl; lia).
  split; [exact H|].
  apply (analyze_returns_fallback Examples.mock_loads Examples.mock_five
           (Examples.request_of Examples.week) 0%nat). exact H.
Defined.

End Float64.

(** X18: [POST /analyze-batch] as the code stands: it never raises, never calls
    the generator, and answers any list of n requests with n copies of the
    canonical fallback response. *)
Theorem analyze_batch_returns_fallbacks {pandas : Pandas}
    (json_loads : string -> result json) (client : nat -> completion)
    (requests : list AnalysisRequest) (calls : nat) :
  analyze_batch_data json_loads client requests calls
  = (Ok (replicate (length requests) get_fallback_analysis), calls).
Proof. apply MainFacts.analyze_batch_data_fallback. Qed.

End EndpointFacts.

(** ** Sample data *)

Module SampleFacts.
Import Py OpenAIService SampleData.

Lemma endswith_spec (t s : string) :
  SampleProps.endswith t s = true -> exists head, s = head +:+ t.
Proof.
  induction s as [|c s IH]; simpl.
  - rewrite orb_false_r. intros ->%bool_decide_eq_true. by exists "".
  - intros [->%bool_decide_eq_true|(head & ->)%IH]%orb_true_iff.
    + by exists "".
    + by exists (String c head).
Qed.

(** In each caption of the table the hashtags are the tail, after a
    space, and there are some. *)
Lemma captions_hashtags :
  Forall (fun caption =>
            SampleProps.endswith (" " +:+ join (findall_hashtags caption)) caption = true
            /\ join (findall_hashtags caption) <> "")
         captions.
Proof. repeat constructor; (vm_compute; congruence). Qed.

Lemma round2_confidence (q : Q) :
  ((7 # 10) <= q -> q <= 1 -> (7 # 10) <= round2 q /\ round2 q <= 1)%Q.
Proof.
  intros Hlo Hhi. unfold round2.
  destruct (RoundFacts.round_half_even_within 70 100 (q * 100)) as [H1 H2].
  - change (inject_Z 70) with 70%Q. lra.
  - change (inject_Z 100) with 100%Q. lra.
  - rewrite Zle_Qle in H1, H2.
    change (inject_Z 70) with 70%Q in H1. change (inject_Z 100) with 100%Q in H2.
    split.
    + apply Qle_shift_div_l; [reflexivity|]. lra.
    + apply Qle_shift_div_r; [reflexivity|]. lra.
Qed.

Lemma round1_range (lo hi : Z) (q : Q) :
  (inject_Z lo <= q /\ q <= inject_Z hi ->
   inject_Z lo <= round1 q /\ round1 q <= inject_Z hi)%Q.
Proof. intros [H1 H2]. by apply RoundFacts.round1_within. Qed.

Lemma nth_In_nonempty {A} (l : list A) (i : nat) (d : A) :
  (i < length l)%nat -> In (nth i l d) l.
Proof. apply nth_In. Qed.

Section Environment.
Variable clock : nat -> Z.
Variable randint : Z -> Z -> nat -> Z.
Variable uniform : Q -> Q -> nat -> Q.
Variable choice_index : nat -> nat -> nat.

Local Abbreviation sample := (sample clock randint uniform choice_index).
Local Abbreviation samples := (samples clock randint uniform choice_index).

(** One record takes 25 readings of the clock and the generator. *)
Lemma sample_readings (i : Z) (k : nat) : snd (sample i k) = (25 + k)%nat.
Proof. reflexivity. Qed.

Lemma samples_length (n : nat) (i : Z) (k : nat) :
  length (fst (samples n i k)) = n
  /\ snd (samples n i k) = (25 * n + k)%nat.
Proof.
  revert i k. induction n as [|n IH]; intros i k; [done|].
  cbn [SampleData.samples]. unfold rbind, rret.
  pose proof (sample_readings i k) as Hk.
  destruct (sample i k) as [r k1]. cbn [snd] in Hk.
  destruct (IH (i + 1) k1) as [IH1 IH2].
  destruct (samples n (i + 1) k1) as [rs k2]. cbn [fst snd length] in *.
  split; [by rewrite IH1|lia].
Qed.

Lemma samples_Forall (P : Sample.t -> Prop) :
  (forall i k, P (fst (sample i k))) ->
  forall n i k, Forall P (fst (samples n i k)).
Proof.
  intros HP n. induction n as [|n IH]; intros i k; [constructor|].
  cbn [SampleData.samples]. unfold rbind, rret.
  pose proof (HP i k) as Hr. destruct (sample i k) as [r k1].
  pose proof (IH (i + 1) k1) as Hrs.
  destruct (samples n (i + 1) k1) as [rs k2]. cbn [fst] in *. by constructor.
Qed.

Hypothesis randint_range : SampleProps.randint_ok randint.
Hypothesis uniform_range : SampleProps.uniform_ok uniform.
Hypothesis choice_range : SampleProps.choice_ok choice_index.

Lemma sample_in_ranges (i : Z) (k : nat) :
  SampleProps.in_ranges (fst (sample i k)).
Proof.
  unfold SampleProps.in_ranges.
  cbv [SampleData.sample rbind rret now random_randint random_uniform
       random_choice fst
       Sample.sentiment_score Sample.average_comment_sentiment
       Sample.engagement_score Sample.wellbeing_index
       Sample.avg_session_duration Sample.emotion_confidence
       Sample.label_confidence Sample.likes_count Sample.comments_count
       Sample.shares_count Sample.saved_count Sample.time_spent_on_post
       Sample.comments_read_count Sample.num_sessions_per_day
       Sample.night_usage_minutes].
  split; [apply (round1_range 20 80), uniform_range; discriminate|].
  split; [apply (round1_range 20 80), uniform_range; discriminate|].
  split; [apply (round1_range 30 95), uniform_range; discriminate|].
  split; [apply (round1_range 30 90), uniform_range; discriminate|].
  split; [apply (round1_range 8 25), uniform_range; discriminate|].
  split; [apply round2_confidence; apply uniform_range; discriminate|].
  split; [apply round2_confidence; apply uniform_range; discriminate|].
  repeat (split; [apply randint_range; lia|]).
  apply randint_range; lia.
Qed.

Lemma sample_from_tables (i : Z) (k : nat) :
  SampleProps.from_tables (fst (sample i k)).
Proof.
  unfold SampleProps.from_tables.
  cbv [SampleData.sample rbind rret now random_randint random_uniform
       random_choice fst
       Sample.caption_text Sample.hashtags Sample.text_length
       Sample.emotion_primary Sample.label_mental_state Sample.topic_cluster
       Sample.image_context_label Sample.time_of_day Sample.day_of_week
       Sample.user_id Sample.interaction_type].
  assert (Hcap : forall j, In (nth (choice_index (length captions) j) captions "")
                              captions).
  { intros j. apply nth_In, choice_range. simpl. lia. }
  split; [apply Hcap|].
  pose proof captions_hashtags as Htab. rewrite List.Forall_forall in Htab.
  split; [apply endswith_spec, Htab, Hcap|].
  split; [apply Htab, Hcap|].
  split; [done|].
  split; [apply nth_In, choice_range; simpl; lia|].
  split; [apply nth_In, choice_range; simpl; lia|].
  split; [apply nth_In, choice_range; simpl; lia|].
  split; [apply nth_In, choice_range; simpl; lia|].
  split.
  { destruct (_ <? 12); [by left|].
    destruct (_ <? 18); [right; by left|right; right; by left]. }
  split; [|done].
  apply nth_In. change (length weekdays) with 7%nat.
  match goal with
  | |- (Z.to_nat (?x mod 7) < 7)%nat =>
      pose proof (Z.mod_pos_bound x 7 ltac:(lia)); lia
  end.
Qed.

Variable json_loads : string -> result json.
Variable client : nat -> completion.

(** The [try] block of [generate_sample_data] as one expression. *)
Lemma generated_unfold (num_posts : Z) (calls : nat) :
  generated json_loads client num_posts calls
  = (Ok match client calls with
        | Completion (Some content) =>
            match json_loads (strip content) with
            | Ok (JList items) =>
                if num_posts <=? Z.of_nat (length items)
                then Some (slice_to num_posts items) else None
            | _ => None
            end
        | _ => None
        end, S calls).
Proof.
  unfold generated, try_except, bindM, create, lift, ret, raise.
  destruct (client calls) as [e|[content|]]; [done| |done].
  cbn -[Z.leb slice_to].
  destruct (json_loads (strip content)) as [[| | | |items|]|[]]; try done.
  by destruct (num_posts <=? Z.of_nat (length items)).
Qed.

End Environment.

Lemma slice_to_length {A} (n : Z) (l : list A) :
  0 <= n <= Z.of_nat (length l) -> Z.of_nat (length (slice_to n l)) = n.
Proof.
  intros H. unfold slice_to.
  destruct (Z.leb_spec 0 n); [|lia]. rewrite length_take. lia.
Qed.

(** The sample environment behaves as the [random] module promises. *)
Lemma env_randint_ok : SampleProps.randint_ok SampleEnv.randint.
Proof.
  intros a b k Hab. unfold SampleEnv.randint.
  pose proof (Z.mod_pos_bound (Z.of_nat k) (b - a + 1) ltac:(lia)). lia.
Qed.

Lemma env_uniform_ok : SampleProps.uniform_ok SampleEnv.uniform.
Proof. intros a b k Hab. unfold SampleEnv.uniform. split; lra. Qed.

Lemma env_choice_ok : SampleProps.choice_ok SampleEnv.choice_index.
Proof. intros n k Hn. unfold SampleEnv.choice_index. apply Nat.mod_upper_bound. lia. Qed.

Lemma fallback_shape
    (clock : nat -> Z) (randint : Z -> Z -> nat -> Z)
    (uniform : Q -> Q -> nat -> Q) (choice_index : nat -> nat -> nat)
    (num_posts : Z) (k : nat) :
  length (fst (_get_fallback_sample_data clock randint uniform choice_index num_posts k))
  = Z.to_nat num_posts
  /\ snd (_get_fallback_sample_data clock randint uniform choice_index num_posts k)
     = (25 * Z.to_nat num_posts + k)%nat.
Proof.
  unfold _get_fallback_sample_data.
  apply (samples_length clock randint uniform choice_index).
Qed.

(** X19: The fallback returns [num_posts] records, and none when the count is
    zero or negative, whatever the clock and the random generator answer;
    it reads them 25 times for each record it makes. *)
Theorem fallback_sample_data_count
    (clock : nat -> Z) (randint : Z -> Z -> nat -> Z)
    (uniform : Q -> Q -> nat -> Q) (choice_index : nat -> nat -> nat)
    (num_posts : Z) (k : nat) :
  Z.of_nat (length (fst (_get_fallback_sample_data clock randint uniform
                           choice_index num_posts k)))
  = Z.max 0 num_posts
  /\ Z.of_nat (snd (_get_fallback_sample_data clock randint uniform
                      choice_index num_posts k))
     = 25 * Z.max 0 num_posts + Z.of_nat k.
Proof.
  destruct (fallback_shape clock randint uniform choice_index num_posts k)
    as [-> ->]. lia.
Qed.

(** X20: With a random generator that respects its bounds, every numeric field
    of every fallback record lies in the range it is drawn from; rounding
    to one or two decimals does not leave the range. *)
Theorem fallback_sample_data_ranges
    (clock : nat -> Z) (randint : Z -> Z -> nat -> Z)
    (uniform : Q -> Q -> nat -> Q) (choice_index : nat -> nat -> nat)
    (num_posts : Z) (k : nat) :
  SampleProps.randint_ok randint -> SampleProps.uniform_ok uniform ->
  Forall SampleProps.in_ranges
    (fst (_get_fallback_sample_data clock randint uniform choice_index num_posts k)).
Proof.
  intros Hr Hu. unfold _get_fallback_sample_data.
  apply samples_Forall. intros i j. by apply sample_in_ranges.
Qed.

Lemma fallback_sample_data_ranges_witness :
  SampleProps.randint_ok SampleEnv.randint
  /\ SampleProps.uniform_ok SampleEnv.uniform
  /\ Forall SampleProps.in_ranges
       (fst (_get_fallback_sample_data SampleEnv.clock SampleEnv.randint
               SampleEnv.uniform SampleEnv.choice_index 3 0%nat)).
Proof.
  split; [exact env_randint_ok|]. split; [exact env_uniform_ok|].
  exact (fallback_sample_data_ranges SampleEnv.clock SampleEnv.randint
           SampleEnv.uniform SampleEnv.choice_index 3 0%nat
           env_randint_ok env_uniform_ok).
Defined.

(** X21: With a [random.choice] that picks inside the sequence, every fallback
    record takes its caption, emotion, mental state, topic and image
    context from the fixed tables; its hashtags are not empty and are the
    tail of its caption; its text length is the length of the caption;
    and its time of day and weekday are among the known names. *)
Theorem fallback_sample_data_tables
    (clock : nat -> Z) (randint : Z -> Z -> nat -> Z)
    (uniform : Q -> Q -> nat -> Q) (choice_index : nat -> nat -> nat)
    (num_posts : Z) (k : nat) :
  SampleProps.choice_ok choice_index ->
  Forall SampleProps.from_tables
    (fst (_get_fallback_sample_data clock randint uniform choice_index num_posts k)).
Proof.
  intros Hc. unfold _get_fallback_sample_data.
  apply samples_Forall. intros i j. by apply sample_from_tables.
Qed.

Lemma fallback_sample_data_tables_witness :
  SampleProps.choice_ok SampleEnv.choice_index
  /\ Forall SampleProps.from_tables
       (fst (_get_fallback_sample_data SampleEnv.clock SampleEnv.randint
               SampleEnv.uniform SampleEnv.choice_index 3 0%nat)).
Proof.
  split; [exact env_choice_ok|].
  exact (fallback_sample_data_tables SampleEnv.clock SampleEnv.randint
           SampleEnv.uniform SampleEnv.choice_index 3 0%nat env_choice_ok).
Defined.

(** The two ways [generate_sample_data] ends, with the state it leaves. *)
Lemma generate_sample_data_unfold
    (clock : nat -> Z) (randint : Z -> Z -> nat -> Z)
    (uniform : Q -> Q -> nat -> Q) (choice_index : nat -> nat -> nat)
    (json_loads : string -> result json) (client : nat -> completion)
    (num_posts days : Z) (calls k : nat) :
  generate_sample_data clock randint uniform choice_index json_loads client
    num_posts days calls k
  = match fst (generated json_loads client num_posts calls) with
    | Ok (Some items) => (map Generated items, S calls, k)
    | _ =>
        (map Synthetic
           (fst (_get_fallback_sample_data clock randint uniform choice_index
                   num_posts k)),
         S calls,
         snd (_get_fallback_sample_data clock randint uniform choice_index
                num_posts k))
    end.
Proof.
  unfold generate_sample_data. rewrite generated_unfold. cbn [fst].
  destruct (_get_fallback_sample_data _ _ _ _ _ _) as [fb k'].
  cbn [fst snd].
  destruct (client calls) as [e|[content|]]; [done| |done].
  by destruct (json_loads (strip content)) as [[| | | |items|]|[]].
Qed.

(** X22: [generate_sample_data] calls the generator once and returns one of two
    lists, never a mixture: the first [num_posts] items of the array the
    generator's text parses to, taken as they are and with no reading of
    the clock or the random generator, when that array has at least
    [num_posts] items; in every other case (the call fails, there is no
    text, the text does not parse, it parses to something that is no
    array, or the array is too short) the fallback records, at the cost
    of 25 readings each. *)
Theorem generate_sample_data_outcome
    (clock : nat -> Z) (randint : Z -> Z -> nat -> Z)
    (uniform : Q -> Q -> nat -> Q) (choice_index : nat -> nat -> nat)
    (json_loads : string -> result json) (client : nat -> completion)
    (num_posts days : Z) (calls k : nat) :
  (exists content items,
      client calls = Completion (Some content)
      /\ json_loads (strip content) = Ok (JList items)
      /\ num_posts <= Z.of_nat (length items)
      /\ generate_sample_data clock randint uniform choice_index json_loads
           client num_posts days calls k
         = (map Generated (slice_to num_posts items), S calls, k))
  \/ ((forall content items,
          client calls = Completion (Some content) ->
          json_loads (strip content) = Ok (JList items) ->
          Z.of_nat (length items) < num_posts)
      /\ generate_sample_data clock randint uniform choice_index json_loads
           client num_posts days calls k
         = (map Synthetic
              (fst (_get_fallback_sample_data clock randint uniform
                      choice_index num_posts k)),
            S calls, (25 * Z.to_nat num_posts + k)%nat)).
Proof.
  rewrite generate_sample_data_unfold, generated_unfold. cbn [fst].
  destruct (fallback_shape clock randint uniform choice_index num_posts k)
    as [_ ->].
  destruct (client calls) as [e|[content|]] eqn:Hc;
    [right; split; [congruence|done]| |right; split; [congruence|done]].
  destruct (json_loads (strip content)) as [j|e] eqn:Hj.
  2:{ right. split; [|by destruct e].
      intros c its [= <-]. congruence. }
  destruct j as [| | | |items|];
    try (right; split; [intros c its [= <-]; congruence|done]).
  destruct (Z.leb_spec num_posts (Z.of_nat (length items))) as [Hle|Hlt].
  - left. by exists content, items.
  - right. split; [|done]. intros c its [= <-] Hj'.
    rewrite Hj in Hj'. by injection Hj' as <-.
Qed.

Lemma generate_sample_data_length
    (clock : nat -> Z) (randint : Z -> Z -> nat -> Z)
    (uniform : Q -> Q -> nat -> Q) (choice_index : nat -> nat -> nat)
    (json_loads : string -> result json) (client : nat -> completion)
    (num_posts days : Z) (calls k : nat) :
  0 <= num_posts ->
  Z.of_nat (length (generate_sample_data clock randint uniform choice_index
                      json_loads client num_posts days calls k).1.1)
  = num_posts.
Proof.
  intros Hn. rewrite generate_sample_data_unfold, generated_unfold. cbn [fst].
  assert (Hfb : Z.of_nat (length (map Synthetic
                  (fst (_get_fallback_sample_data clock randint uniform
                          choice_index num_posts k)))) = num_posts).
  { rewrite length_map.
    destruct (fallback_shape clock randint uniform choice_index num_posts k)
      as [-> _]. lia. }
  destruct (client calls) as [e|[content|]]; [done| |done].
  destruct (json_loads (strip content)) as [[| | | |items|]|[]]; try done.
  destruct (Z.leb_spec num_posts (Z.of_nat (length items))); [|done].
  cbn [fst snd]. rewrite length_map. apply slice_to_length. lia.
Qed.

Lemma generate_sample_data_state
    (clock : nat -> Z) (randint : Z -> Z -> nat -> Z)
    (uniform : Q -> Q -> nat -> Q) (choice_index : nat -> nat -> nat)
    (json_loads : string -> result json) (client : nat -> completion)
    (num_posts days : Z) (calls k : nat) :
  (generate_sample_data clock randint uniform choice_index
     json_loads client num_posts days calls k).1.2 = S calls
  /\ (k <= (generate_sample_data clock randint uniform choice_index
              json_loads client num_posts days calls k).2)%nat.
Proof.
  rewrite generate_sample_data_unfold.
  destruct (fallback_shape clock randint uniform choice_index num_posts k)
    as [_ ->].
  destruct (fst (generated json_loads client num_posts calls)) as [[items|]|e];
    cbn [fst snd]; split; try done; lia.
Qed.

(** X23: For a count that is not negative the caller gets exactly [num_posts]
    entries, whatever the generator answers, and the generator has been
    called once. *)
Theorem generate_sample_data_count
    (clock : nat -> Z) (randint : Z -> Z -> nat -> Z)
    (uniform : Q -> Q -> nat -> Q) (choice_index : nat -> nat -> nat)
    (json_loads : string -> result json) (client : nat -> completion)
    (num_posts days : Z) (calls k : nat) :
  0 <= num_posts ->
  Z.of_nat (length (generate_sample_data clock randint uniform choice_index
                      json_loads client num_posts days calls k).1.1)
  = num_posts
  /\ (generate_sample_data clock randint uniform choice_index
        json_loads client num_posts days calls k).1.2 = S calls.
Proof.
  intros Hn. split.
  - by apply generate_sample_data_length.
  - apply generate_sample_data_state.
Qed.

Lemma generate_sample_data_count_witness :
  0 <= 3
  /\ Z.of_nat (length (generate_sample_data SampleEnv.clock SampleEnv.randint
                         SampleEnv.uniform SampleEnv.choice_index
                         Examples.mock_loads Examples.mock_five 3 7 0%nat 0%nat).1.1)
     = 3.
Proof.
  assert (H : 0 <= 3) by lia. split; [exact H|].
  apply (generate_sample_data_count SampleEnv.clock SampleEnv.randint
           SampleEnv.uniform SampleEnv.choice_index
           Examples.mock_loads Examples.mock_five 3 7 0%nat 0%nat). exact H.
Defined.

(** X24: A negative [num_posts] is not rejected: every array the generator
    returns passes the length test, and the slice drops its last
    [-num_posts] items, so the caller gets generated entries although it
    asked for none; without such an array it gets the empty list. *)
Theorem generate_sample_data_negative
    (clock : nat -> Z) (randint : Z -> Z -> nat -> Z)
    (uniform : Q -> Q -> nat -> Q) (choice_index : nat -> nat -> nat)
    (json_loads : string -> result json) (client : nat -> completion)
    (num_posts days : Z) (calls k : nat) :
  num_posts < 0 ->
  (forall content items,
      client calls = Completion (Some content) ->
      json_loads (strip content) = Ok (JList items) ->
      (generate_sample_data clock randint uniform choice_index json_loads
         client num_posts days calls k).1.1
      = map Generated (take (length items - Z.to_nat (- num_posts)) items))
  /\ ((forall content items,
          client calls = Completion (Some content) ->
          json_loads (strip content) <> Ok (JList items)) ->
      (generate_sample_data clock randint uniform choice_index json_loads
         client num_posts days calls k).1.1 = []).
Proof.
  intros Hn. rewrite generate_sample_data_unfold, generated_unfold. cbn [fst].
  destruct (fallback_shape clock randint uniform choice_index num_posts k)
    as [Hlen _].
  replace (Z.to_nat num_posts) with 0%nat in Hlen by lia.
  apply nil_length_inv in Hlen. rewrite Hlen. cbn [map].
  split.
  - intros content items -> ->.
    destruct (Z.leb_spec num_posts (Z.of_nat (length items))); [|lia].
    cbn [fst]. unfold slice_to.
    by destruct (Z.leb_spec 0 num_posts); [lia|].
  - intros Hno.
    destruct (client calls) as [e|[content|]]; [done| |done].
    destruct (json_loads (strip content)) as [[| | | |items|]|[]] eqn:Hj;
      try done.
    by destruct (Hno content items).
Qed.

Lemma generate_sample_data_negative_witness :
  -2 < 0
  /\ (generate_sample_data SampleEnv.clock SampleEnv.randint SampleEnv.uniform
        SampleEnv.choice_index Examples.mock_loads Examples.mock_five
        (-2) 7 0%nat 0%nat).1.1
     = map Generated [JNumber 1; JNumber 2; JNumber 3].
Proof.
  assert (H : -2 < 0) by lia. split; [exact H|].
  destruct (generate_sample_data_negative SampleEnv.clock SampleEnv.randint
              SampleEnv.uniform SampleEnv.choice_index Examples.mock_loads
              Examples.mock_five (-2) 7 0%nat 0%nat H) as [Hgen _].
  exact (Hgen _ _ eq_refl eq_refl).
Defined.

(** X25: [POST /generate-data] reports as [total_points] the length of the list
    it returns; for a count that is not negative both are [num_posts]. The
    generator is called once, and the clock is read once more for
    [generated_at]. *)
Theorem generate_data_endpoint_total
    (clock : nat -> Z) (randint : Z -> Z -> nat -> Z)
    (uniform : Q -> Q -> nat -> Q) (choice_index : nat -> nat -> nat)
    (json_loads : string -> result json) (client : nat -> completion)
    (num_posts days : Z) (calls k : nat) :
  0 <= num_posts ->
  let out := generate_sample_data_endpoint clock randint uniform choice_index
               json_loads client num_posts days calls k in
  total_points out.1.1 = num_posts
  /\ Z.of_nat (length (gr_data_points out.1.1)) = num_posts
  /\ out.1.2 = S calls
  /\ (k < out.2)%nat.
Proof.
  intros Hn out. subst out. unfold generate_sample_data_endpoint.
  pose proof (generate_sample_data_length clock randint uniform choice_index
                json_loads client num_posts days calls k Hn) as Hlen.
  pose proof (generate_sample_data_state clock randint uniform choice_index
                json_loads client num_posts days calls k) as [Hc Hk].
  destruct (generate_sample_data _ _ _ _ _ _ _ _ _ _) as [[data calls'] k'].
  cbn [fst snd] in *. unfold now. cbn [fst snd gr_data_points total_points].
  repeat split; try done. lia.
Qed.

Lemma generate_data_endpoint_total_witness :
  0 <= 10
  /\ total_points
       (generate_sample_data_endpoint SampleEnv.clock SampleEnv.randint
          SampleEnv.uniform SampleEnv.choice_index Examples.mock_loads
          Examples.mock_five 10 7 0%nat 0%nat).1.1 = 10.
Proof.
  assert (H : 0 <= 10) by lia. split; [exact H|].
  apply (generate_data_endpoint_total SampleEnv.clock SampleEnv.randint
           SampleEnv.uniform SampleEnv.choice_index Examples.mock_loads
           Examples.mock_five 10 7 0%nat 0%nat H).
Defined.

End SampleFacts.
